(** * Enrollment request coordinator: a shallow embedding of
      [controllers/classRequestController.js]

    The controller is a set of Express handlers over three Mongoose
    collections (ClassRequest, Student, Class) and a Notification sink.
    Each handler is embedded as a function in a small state-and-exception
    monad over the database.  What is modelled and how:

    - the ClassRequest collection is a list of documents in natural
      (insertion) order, because [find({status: 'Pending'})] iterates it;
      the Class and Student collections are finite maps from [_id] to
      document;
    - [populate] yields [null] for a reference that does not resolve; every
      property access on such a [null] raises a TypeError, which is the
      [Throw] outcome of the monad; [try]/[catch] blocks are written out;
    - a [find().populate()] hands the same populated document to every
      parent that shares the reference (Mongoose's default, [clone: false]),
      so inside the bulk loop the in-memory class and student documents
      are the stored ones: each mutation is saved before the next read;
    - [Notification.createNotification] either stores the notification or
      rejects, as decided by the environment;
    - [new Date()] and the ObjectId of a new document come from the
      environment;
    - database reads and writes themselves do not fail: the only
      exceptions are TypeErrors on [null] and a rejected notification;
    - the read-only handlers of the controller
      ([getPendingClassRequestsCount], [getStudentClassRequests]) and the
      two listings of the student controller kept in src/test-cors.html
      ([getAvailableClasses], [getAllGrades]) run in the same monad; the
      order a [sort] gives to a result is a parameter, because its keys are
      not fields of the modelled documents. *)

From Stdlib Require Import ZArith DecimalString.
From stdpp Require Import gmap strings list fin_maps.

Local Open Scope string_scope.

(** ** Documents

    The Mongoose schemas (models/ClassRequest.js, Student.js, Class.js,
    Notification.js) are not among the sources.  The records below carry
    the fields the controller reads or writes. *)

Abbreviation ObjectId := nat.

(** Modelled from the spec: the values of [ClassRequest.status], declared
    in the missing schema (data model: "enum {Pending, Approved,
    Rejected}").  The controller writes 'Approved' and 'Rejected', queries
    'Pending' and takes any validated value in [changeClassRequestStatus]. *)
Inductive Status := Pending | Approved | Rejected.

(** Modelled from the spec: the schema default of [status] for a new
    request (data model: "Initial = Pending"). *)
Definition default_status : Status := Pending.

#[global] Instance Status_eq_dec : EqDecision Status.
Proof. solve_decision. Defined.

Definition status_name (s : Status) : string :=
  match s with
  | Pending => "Pending"
  | Approved => "Approved"
  | Rejected => "Rejected"
  end.

Record AdminResponse := {
  actionBy : ObjectId;
  actionDate : Z;
  actionNote : string
}.

Record ClassRequest := {
  r_id : ObjectId;
  student : ObjectId;
  class : ObjectId;
  reason : string;
  status : Status;
  adminResponse : option AdminResponse
}.

(** [s_status] is the registration status of the student.
    [enrolledClasses] and [enrolledStudents] are [option]: the handlers
    guard every use against an absent array. *)
Record Student := {
  userId : ObjectId;
  firstName : string;
  lastName : string;
  s_status : string;
  enrolledClasses : option (list ObjectId)
}.

(** Modelled from the spec: [capacity] is a number of the missing Class
    schema (data model: "fixed integer ceiling"). *)
Record ClassDoc := {
  c_type : string;
  grade : string;
  category : string;
  isActive : bool;
  capacity : Z;
  enrolledStudents : option (list ObjectId)
}.

Record NotificationData := {
  classRequestId : ObjectId;
  classId : ObjectId;
  data_adminNote : option string;
  oldStatus : option Status;
  newStatus : option Status
}.

Record Notification := {
  recipient : ObjectId;
  n_type : string;
  title : string;
  message : string;
  data : NotificationData
}.

Record DB := {
  requests : list ClassRequest;
  classes : gmap ObjectId ClassDoc;
  students : gmap ObjectId Student;
  notifications : list Notification
}.

(** ** Requests, responses, environment *)

Record Req := {
  validationErrors : list string;  (* validationResult(req) *)
  user_id : ObjectId;              (* req.user.id *)
  requestId : ObjectId;            (* req.params.requestId *)
  body_classId : ObjectId;         (* req.body.classId *)
  body_reason : string;            (* req.body.reason *)
  body_status : Status;            (* req.body.status *)
  adminNote : option string        (* req.body.adminNote *)
}.

Record Env := {
  now : Z;                                  (* new Date() *)
  fresh_id : ObjectId;                      (* _id of a new document *)
  notification_ok : Notification -> bool    (* false: createNotification rejects *)
}.

Record FailedRequest := {
  studentName : string;
  className : string;
  fr_reason : string
}.

Record DeletedRequest := {
  d_studentName : string;
  d_className : string;
  d_status : Status
}.

(** The JSON bodies the handlers send.  [BServerError] is
    [{ message, error: err.message }]; the text of the error is not
    modelled. *)
Inductive Body :=
| BErrors (errors : list string)
| BMessage (msg : string)
| BServerError (msg : string)
| BRequest (msg : string) (request : ClassRequest)
| BBulk (msg : string) (approvedCount failedCount : nat)
        (failedRequests : option (list FailedRequest))
| BDeleted (msg : string) (deletedRequest : DeletedRequest).

Record Response := { code : nat; body : Body }.

Definition json (c : nat) (b : Body) : Response := {| code := c; body := b |}.

(** ** The handler monad: database state with JavaScript exceptions *)

Inductive Outcome (A : Type) :=
| Ret (a : A)
| Throw.
Arguments Ret {A} a.
Arguments Throw {A}.

Definition M (A : Type) : Type := DB -> Outcome A * DB.

Definition ret {A} (a : A) : M A := fun db => (Ret a, db).
Definition throw {A} : M A := fun db => (Throw, db).

Definition bind {A B} (m : M A) (k : A -> M B) : M B :=
  fun db =>
    match m db with
    | (Ret a, db') => k a db'
    | (Throw, db') => (Throw, db')
    end.

(** [try m catch h]: writes made by [m] before it threw stay in place. *)
Definition try_catch {A} (m : M A) (h : M A) : M A :=
  fun db =>
    match m db with
    | (Ret a, db') => (Ret a, db')
    | (Throw, db') => h db'
    end.

Declare Scope handler_scope.
Delimit Scope handler_scope with handler.
Notation "x <- m ;; k" := (bind m (fun x => k))
  (at level 100, m at next level, right associativity) : handler_scope.
Notation "m ;;; k" := (bind m (fun _ => k))
  (at level 100, right associativity) : handler_scope.
Local Open Scope handler_scope.

(** A property access on a possibly-[null] value. *)
Definition deref {A} (o : option A) : M A :=
  match o with
  | Some a => ret a
  | None => throw
  end.

(** ** Collections *)

Definition findById (rid : ObjectId) : M (option ClassRequest) :=
  fun db => (Ret (List.find (fun r => Nat.eqb (r_id r) rid) (requests db)), db).

Definition findPending : M (list ClassRequest) :=
  fun db => (Ret (List.filter (fun r => bool_decide (status r = Pending)) (requests db)), db).

Definition set_requests (l : list ClassRequest) (db : DB) : DB :=
  {| requests := l; classes := classes db; students := students db;
     notifications := notifications db |}.

(** [doc.save()] of an existing request replaces the stored document with
    the same [_id]. *)
Definition saveRequest (r : ClassRequest) : M unit :=
  fun db =>
    (Ret tt,
     set_requests
       (List.map (fun d => if Nat.eqb (r_id d) (r_id r) then r else d) (requests db)) db).

(** [save()] of a new request appends it. *)
Definition insertRequest (r : ClassRequest) : M unit :=
  fun db => (Ret tt, set_requests (requests db ++ [r]) db).

Definition findByIdAndDelete (rid : ObjectId) : M unit :=
  fun db =>
    (Ret tt,
     set_requests (List.filter (fun d => negb (Nat.eqb (r_id d) rid)) (requests db)) db).

Definition saveClass (cid : ObjectId) (c : ClassDoc) : M unit :=
  fun db =>
    (Ret tt,
     {| requests := requests db; classes := <[cid := c]> (classes db);
        students := students db; notifications := notifications db |}).

Definition saveStudent (sid : ObjectId) (s : Student) : M unit :=
  fun db =>
    (Ret tt,
     {| requests := requests db; classes := classes db;
        students := <[sid := s]> (students db); notifications := notifications db |}).

(** [ClassRequest.findOne({ student, class, status: 'Pending' })]. *)
Definition findPendingFor (sid cid : ObjectId) : M (option ClassRequest) :=
  fun db =>
    (Ret (List.find (fun r => Nat.eqb (student r) sid && Nat.eqb (class r) cid
                              && bool_decide (status r = Pending)) (requests db)), db).

Definition findClass (cid : ObjectId) : M (option ClassDoc) :=
  fun db => (Ret (classes db !! cid), db).

Definition findStudent (sid : ObjectId) : M (option Student) :=
  fun db => (Ret (students db !! sid), db).

(** [Student.findOne({ userId })]: the first match in the enumeration of
    the collection. *)
Definition findStudentByUser (uid : ObjectId) : M (option (ObjectId * Student)) :=
  fun db =>
    (Ret (List.find (fun p => Nat.eqb (userId (snd p)) uid) (map_to_list (students db))), db).

(** Modelled from the spec: [Notification.createNotification] is declared
    in the missing models/Notification.js (section 6: "send(...) ->
    Result<void>").  It stores the notification or rejects; which of the
    two is a parameter, [notification_ok]. *)
Definition createNotification (env : Env) (n : Notification) : M unit :=
  fun db =>
    if notification_ok env n
    then (Ret tt,
          {| requests := requests db; classes := classes db; students := students db;
             notifications := notifications db ++ [n] |})
    else (Throw, db).

(** [await Notification.createNotification({ ... })]: building the argument
    dereferences the populated documents and throws when one is [null]. *)
Definition notify (env : Env) (payload : option Notification) : M unit :=
  n <- deref payload ;; createNotification env n.

(** [try { await Notification.createNotification(...) } catch (e) {
    console.error(...) }]: the handler continues either way. *)
Definition swallow (env : Env) (payload : option Notification) : M unit :=
  try_catch (notify env payload) (ret tt).

(** A request with its [student] and [class] paths populated. *)
Record Populated := {
  doc : ClassRequest;
  p_student : option Student;
  p_class : option ClassDoc
}.

Definition populated (db : DB) (r : ClassRequest) : Populated :=
  {| doc := r; p_student := students db !! student r; p_class := classes db !! class r |}.

Definition populate (r : ClassRequest) : M Populated :=
  fun db => (Ret (populated db r), db).

Definition set_enrolledStudents (c : ClassDoc) (l : list ObjectId) : ClassDoc :=
  {| c_type := c_type c; grade := grade c; category := category c;
     isActive := isActive c; capacity := capacity c; enrolledStudents := Some l |}.

Definition set_enrolledClasses (s : Student) (l : list ObjectId) : Student :=
  {| userId := userId s; firstName := firstName s; lastName := lastName s;
     s_status := s_status s; enrolledClasses := Some l |}.

Definition set_status (r : ClassRequest) (st : Status) (a : AdminResponse) : ClassRequest :=
  {| r_id := r_id r; student := student r; class := class r; reason := reason r;
     status := st; adminResponse := Some a |}.

(** ** JavaScript helpers *)

(** [a || b] on an optional string: [undefined] and the empty string are
    falsy. *)
Definition or_default (a : option string) (b : string) : string :=
  match a with
  | Some (String c s) => String c s
  | _ => b
  end.

(** [arr ? arr.length : 0]. *)
Definition length_or_0 (arr : option (list ObjectId)) : nat :=
  match arr with
  | Some l => length l
  | None => 0
  end.

Definition id_equals (a b : ObjectId) : bool := Nat.eqb a b.

(** [arr.some(id => id.equals(x._id))] where [x] may be [null]: the callback
    runs on the first element, so it throws exactly when the array is
    non-empty and [x] is [null]. *)
Definition some_equals (arr : list ObjectId) (x : option ObjectId) : M bool :=
  match arr with
  | [] => ret false
  | _ => i <- deref x ;; ret (existsb (fun id => id_equals id i) arr)
  end.

(** [arr.filter(id => !id.equals(x._id))], same remark. *)
Definition filter_not_equals (arr : list ObjectId) (x : option ObjectId) : M (list ObjectId) :=
  match arr with
  | [] => ret []
  | _ => i <- deref x ;; ret (List.filter (fun id => negb (id_equals id i)) arr)
  end.

(** [x._id] of a populated path: the reference itself when the document
    was found, a TypeError otherwise. *)
Definition student_id (p : Populated) : option ObjectId :=
  match p_student p with
  | Some _ => Some (student (doc p))
  | None => None
  end.

Definition class_id (p : Populated) : option ObjectId :=
  match p_class p with
  | Some _ => Some (class (doc p))
  | None => None
  end.

Definition string_of_nat (n : nat) : string := NilEmpty.string_of_uint (Nat.to_uint n).

(** ** Blocks the handlers share

    The capacity check (lines 203-211, 394-402, 497-511) and the
    enrolment block (lines 225-241, 404-420, 513-529) are repeated
    verbatim in [approveClassRequest], [changeClassRequestStatus] and
    [approveAllPendingRequests]; each is embedded once. *)

(** [!isStudentAlreadyEnrolled && enrolledCount >= class.capacity]. *)
Definition capacityCheck (p : Populated) : M bool :=
  c <- deref (p_class p) ;;
  let enrolledCount := length_or_0 (enrolledStudents c) in
  isStudentAlreadyEnrolled <-
    match enrolledStudents c with
    | Some arr => some_equals arr (student_id p)
    | None => ret false
    end ;;
  ret (negb isStudentAlreadyEnrolled && (capacity c <=? Z.of_nat enrolledCount)%Z).

Definition push (arr : list ObjectId) (x : ObjectId) : list ObjectId := arr ++ [x].

Definition addMembership (p : Populated) : M unit :=
  c <- deref (p_class p) ;;
  let arr := default [] (enrolledStudents c) in
  present <- some_equals arr (student_id p) ;;
  (if present then ret tt
   else sid <- deref (student_id p) ;;
        saveClass (class (doc p)) (set_enrolledStudents c (push arr sid))) ;;;
  s <- deref (p_student p) ;;
  let arr := default [] (enrolledClasses s) in
  present <- some_equals arr (class_id p) ;;
  if present then ret tt
  else cid <- deref (class_id p) ;;
       saveStudent (student (doc p)) (set_enrolledClasses s (push arr cid)).

(** Lines 364-384 of [changeClassRequestStatus]. *)
Definition removeMembership (p : Populated) : M unit :=
  match p_class p with
  | Some c =>
      match enrolledStudents c with
      | Some arr =>
          arr' <- filter_not_equals arr (student_id p) ;;
          if negb (Nat.eqb (length arr) (length arr'))
          then saveClass (class (doc p)) (set_enrolledStudents c arr')
          else ret tt
      | None => ret tt
      end
  | None => ret tt
  end ;;;
  match p_student p with
  | Some s =>
      match enrolledClasses s with
      | Some arr =>
          arr' <- filter_not_equals arr (class_id p) ;;
          if negb (Nat.eqb (length arr) (length arr'))
          then saveStudent (student (doc p)) (set_enrolledClasses s arr')
          else ret tt
      | None => ret tt
      end
  | None => ret tt
  end.

Definition class_label (c : ClassDoc) : string := grade c +:+ " - " +:+ category c.

Definition notification_data (p : Populated) (note : option string)
    (old new : option Status) : NotificationData :=
  {| classRequestId := r_id (doc p); classId := class (doc p);
     data_adminNote := note; oldStatus := old; newStatus := new |}.

(** The outer [try { ... } catch (err) { res.status(500) ... }]. *)
Definition server_error : Response := json 500 (BServerError "Server error").

Definition handler (m : M Response) (db : DB) : Response * DB :=
  match m db with
  | (Ret r, db') => (r, db')
  | (Throw, db') => (server_error, db')
  end.

Definition is_empty {A} (l : list A) : bool :=
  match l with
  | [] => true
  | _ => false
  end.

(** ** createClassRequest (lines 8-78)

    [status] is not given to the constructor: the schema default applies.
    [includes] on a Mongoose array compares ObjectIds by value. *)
Definition createClassRequest (env : Env) (req : Req) : DB -> Response * DB :=
  if negb (is_empty (validationErrors req))
  then fun db => (json 400 (BErrors (validationErrors req)), db)
  else handler (
    found <- findStudentByUser (user_id req) ;;
    match found with
    | None => ret (json 404 (BMessage "Student profile not found"))
    | Some (sid, s) =>
        if negb (String.eqb (s_status s) "Approved")
        then ret (json 400 (BMessage
          "Student registration must be approved before requesting class enrollment"))
        else
          classItem <- findClass (body_classId req) ;;
          match classItem with
          | None => ret (json 404 (BMessage "Class not found"))
          | Some c =>
              if negb (isActive c) || negb (String.eqb (c_type c) "Normal")
              then ret (json 400 (BMessage "Class is not available for enrollment"))
              else if match enrolledClasses s with
                      | Some arr => existsb (fun id => id_equals id (body_classId req)) arr
                      | None => false
                      end
              then ret (json 400 (BMessage "Already enrolled in this class"))
              else
                existingRequest <- findPendingFor sid (body_classId req) ;;
                match existingRequest with
                | Some _ =>
                    ret (json 400 (BMessage
                      "You already have a pending request for this class"))
                | None =>
                    let classRequest :=
                      {| r_id := fresh_id env; student := sid; class := body_classId req;
                         reason := body_reason req; status := default_status;
                         adminResponse := None |} in
                    insertRequest classRequest ;;;
                    ret (json 201 (BRequest
                      "Class enrollment request submitted successfully" classRequest))
                end
          end
    end).

(** ** approveClassRequest (lines 178-273) *)
Definition approvedNotification (p : Populated) (note : option string) : option Notification :=
  s ← p_student p ;
  c ← p_class p ;
  Some {| recipient := userId s;
         n_type := "class_request_approved";
         title := "New Class Enrollment Request Approved! 🎉";
         message := "Your request to join " +:+ class_label c
                    +:+ " class has been approved.";
         data := notification_data p note None None |}.

Definition approveClassRequest (env : Env) (req : Req) : DB -> Response * DB :=
  if negb (is_empty (validationErrors req))
  then fun db => (json 400 (BErrors (validationErrors req)), db)
  else handler (
    found <- findById (requestId req) ;;
    match found with
    | None => ret (json 404 (BMessage "Class request not found"))
    | Some r =>
        p <- populate r ;;
        if negb (bool_decide (status r = Pending))
        then ret (json 400 (BMessage "Class request is not pending"))
        else
          full <- capacityCheck p ;;
          if full then ret (json 400 (BMessage "Class is at full capacity"))
          else
            let classRequest :=
              set_status r Approved
                {| actionBy := user_id req; actionDate := now env;
                   actionNote := or_default (adminNote req) "Request approved" |} in
            saveRequest classRequest ;;;
            failed <- try_catch (addMembership p ;;; ret None)
                        (ret (Some (json 500 (BMessage "Error enrolling student in class")))) ;;
            match failed with
            | Some resp => ret resp
            | None =>
                swallow env (approvedNotification p (adminNote req)) ;;;
                ret (json 200 (BRequest "Class request approved successfully" classRequest))
            end
    end).

(** ** rejectClassRequest (lines 276-332)

    The notification is created directly in the handler's outer [try]. *)
Definition rejectedNotification (p : Populated) (note : option string) : option Notification :=
  s ← p_student p ;
  c ← p_class p ;
  Some {| recipient := userId s;
         n_type := "class_request_rejected";
         title := "Class Enrollment Request Update";
         message := "Your request to join " +:+ class_label c
                    +:+ " class has been reviewed. Please contact administration for more information.";
         data := notification_data p note None None |}.

Definition rejectClassRequest (env : Env) (req : Req) : DB -> Response * DB :=
  if negb (is_empty (validationErrors req))
  then fun db => (json 400 (BErrors (validationErrors req)), db)
  else handler (
    found <- findById (requestId req) ;;
    match found with
    | None => ret (json 404 (BMessage "Class request not found"))
    | Some r =>
        p <- populate r ;;
        if negb (bool_decide (status r = Pending))
        then ret (json 400 (BMessage "Class request is not pending"))
        else
          let classRequest :=
            set_status r Rejected
              {| actionBy := user_id req; actionDate := now env;
                 actionNote := or_default (adminNote req) "Request rejected" |} in
          saveRequest classRequest ;;;
          notify env (rejectedNotification p (adminNote req)) ;;;
          ret (json 200 (BRequest "Class request rejected" classRequest))
    end).

(** ** changeClassRequestStatus (lines 335-465) *)
Definition statusChangeNotification (p : Populated) (note : option string)
    (old new : Status) : option Notification :=
  s ← p_student p ;
  _ ← p_class p ;
  Some {| recipient := userId s;
         n_type := "class_request_status_change";
         title := "Class Request Status Update";
         message := "Your class enrollment request status has been updated to "
                    +:+ status_name new +:+ ".";
         data := notification_data p note (Some old) (Some new) |}.

Definition changeClassRequestStatus (env : Env) (req : Req) : DB -> Response * DB :=
  if negb (is_empty (validationErrors req))
  then fun db => (json 400 (BErrors (validationErrors req)), db)
  else handler (
    found <- findById (requestId req) ;;
    match found with
    | None => ret (json 404 (BMessage "Class request not found"))
    | Some r =>
        p <- populate r ;;
        let old := status r in
        let new := body_status req in
        (if bool_decide (old = Approved) && negb (bool_decide (new = Approved))
         then try_catch (removeMembership p) (ret tt)
         else ret tt) ;;;
        stop <-
          (if negb (bool_decide (old = Approved)) && bool_decide (new = Approved)
           then try_catch
                  (full <- capacityCheck p ;;
                   if full then ret (Some (json 400 (BMessage "Class is at full capacity")))
                   else addMembership p ;;; ret None)
                  (ret (Some (json 500 (BMessage "Error enrolling student in class"))))
           else ret None) ;;
        match stop with
        | Some resp => ret resp
        | None =>
            let classRequest :=
              set_status r new
                {| actionBy := user_id req; actionDate := now env;
                   actionNote :=
                     or_default (adminNote req)
                       ("Status changed from " +:+ status_name old +:+ " to "
                        +:+ status_name new) |} in
            saveRequest classRequest ;;;
            swallow env (statusChangeNotification p (adminNote req) old new) ;;;
            ret (json 200 (BRequest
                   ("Class request status changed from " +:+ status_name old +:+ " to "
                    +:+ status_name new +:+ " successfully") classRequest))
        end
    end).

(** ** approveAllPendingRequests (lines 468-586)

    The counters are local variables of the handler.  They are threaded
    as a value; the one place where the source increments [failedCount]
    and then throws (building the failure entry for a request whose
    student is [null]) is followed by a [catch] block that throws again,
    so the lost increment is never observed. *)
Record Bulk := {
  approvedCount : nat;
  failedCount : nat;
  failedRequests : list FailedRequest
}.

Definition failureEntry (p : Populated) (why : string) : M FailedRequest :=
  s <- deref (p_student p) ;;
  c <- deref (p_class p) ;;
  ret {| studentName := firstName s +:+ " " +:+ lastName s;
         className := class_label c;
         fr_reason := why |}.

Definition record_failure (acc : Bulk) (e : FailedRequest) : Bulk :=
  {| approvedCount := approvedCount acc; failedCount := S (failedCount acc);
     failedRequests := failedRequests acc ++ [e] |}.

Definition record_approval (acc : Bulk) : Bulk :=
  {| approvedCount := S (approvedCount acc); failedCount := failedCount acc;
     failedRequests := failedRequests acc |}.

Definition bulkNotification (p : Populated) (note : option string) : option Notification :=
  s ← p_student p ;
  c ← p_class p ;
  Some {| recipient := userId s;
         n_type := "class_request_approved";
         title := "Class Request Approved";
         message := "Your class enrollment request for " +:+ class_label c
                    +:+ " has been approved.";
         data := notification_data p note None None |}.

(** One iteration of the [for ... of] loop (lines 495-569).  The populated
    documents are shared by the requests of the snapshot and every change
    to them is saved at once, so they are read from the current database. *)
Definition approveOne (env : Env) (req : Req) (r : ClassRequest) (acc : Bulk) : M Bulk :=
  p <- populate r ;;
  try_catch
    (full <- capacityCheck p ;;
     if full then
       e <- failureEntry p "Class is at full capacity" ;;
       ret (record_failure acc e)
     else
       addMembership p ;;;
       saveRequest
         (set_status r Approved
            {| actionBy := user_id req; actionDate := now env;
               actionNote := or_default (adminNote req) "Bulk approval by administrator" |}) ;;;
       swallow env (bulkNotification p (adminNote req)) ;;;
       ret (record_approval acc))
    (_ <- deref (student_id p) ;;
     e <- failureEntry p "Processing error" ;;
     ret (record_failure acc e)).

Fixpoint approveEach (env : Env) (req : Req) (pendingRequests : list ClassRequest)
    (acc : Bulk) : M Bulk :=
  match pendingRequests with
  | [] => ret acc
  | r :: rest => acc' <- approveOne env req r acc ;; approveEach env req rest acc'
  end.

Definition bulk_summary (acc : Bulk) : Response :=
  let message := "Successfully approved " +:+ string_of_nat (approvedCount acc)
                 +:+ " class requests" in
  let message :=
    if Nat.ltb 0 (failedCount acc)
    then message +:+ ". " +:+ string_of_nat (failedCount acc)
         +:+ " requests failed to approve."
    else message in
  json 200 (BBulk message (approvedCount acc) (failedCount acc)
              (if Nat.ltb 0 (failedCount acc) then Some (failedRequests acc) else None)).

Definition approveAllPendingRequests (env : Env) (req : Req) : DB -> Response * DB :=
  if negb (is_empty (validationErrors req))
  then fun db => (json 400 (BErrors (validationErrors req)), db)
  else handler (
    pendingRequests <- findPending ;;
    if Nat.eqb (length pendingRequests) 0
    then ret (json 400 (BMessage "No pending class requests found"))
    else
      acc <- approveEach env req pendingRequests
               {| approvedCount := 0; failedCount := 0; failedRequests := [] |} ;;
      ret (bulk_summary acc)).

(** ** deleteClassRequest (lines 589-627) *)
Definition deleteClassRequest (req : Req) : DB -> Response * DB :=
  handler (
    found <- findStudentByUser (user_id req) ;;
    match found with
    | None => ret (json 404 (BMessage "Student profile not found"))
    | Some (sid, _) =>
        classRequest <- findById (requestId req) ;;
        match classRequest with
        | None => ret (json 404 (BMessage "Class request not found"))
        | Some r =>
            if negb (id_equals (student r) sid)
            then ret (json 403 (BMessage "You can only delete your own class requests"))
            else if negb (bool_decide (status r = Pending))
            then ret (json 400 (BMessage "You can only delete pending class requests"))
            else
              findByIdAndDelete (requestId req) ;;;
              ret (json 200 (BMessage "Class request deleted successfully"))
        end
    end).

(** ** adminDeleteClassRequest (lines 630-701)

    The populated student carries only [firstName lastName studentId], so
    [student.userId || student._id] is the student's [_id]. *)
Definition adminRemoveMembership (p : Populated) : M unit :=
  cid <- deref (class_id p) ;;
  classItem <- findClass cid ;;
  match classItem with
  | Some c =>
      match enrolledStudents c with
      | Some arr =>
          arr' <- filter_not_equals arr (student_id p) ;;
          saveClass cid (set_enrolledStudents c arr')
      | None => ret tt
      end
  | None => ret tt
  end ;;;
  sid <- deref (student_id p) ;;
  found <- findStudent sid ;;
  match found with
  | Some s =>
      match enrolledClasses s with
      | Some arr =>
          arr' <- filter_not_equals arr (class_id p) ;;
          saveStudent sid (set_enrolledClasses s arr')
      | None => ret tt
      end
  | None => ret tt
  end.

Definition deletedNotification (p : Populated) : option Notification :=
  sid ← student_id p ;
  c ← p_class p ;
  Some {| recipient := sid;
         n_type := "general";
         title := "Class Request Deleted";
         message := "Your class enrollment request for " +:+ class_label c
                    +:+ " has been deleted by an administrator.";
         data := notification_data p (Some "Request deleted by administrator") None None |}.

Definition adminDeleteClassRequest (env : Env) (req : Req) : DB -> Response * DB :=
  handler (
    found <- findById (requestId req) ;;
    match found with
    | None => ret (json 404 (BMessage "Class request not found"))
    | Some r =>
        p <- populate r ;;
        (if bool_decide (status r = Approved)
         then try_catch (adminRemoveMembership p) (ret tt)
         else ret tt) ;;;
        swallow env (deletedNotification p) ;;;
        findByIdAndDelete (requestId req) ;;;
        s <- deref (p_student p) ;;
        c <- deref (p_class p) ;;
        ret (json 200 (BDeleted "Class request deleted successfully"
               {| d_studentName := firstName s +:+ " " +:+ lastName s;
                  d_className := class_label c;
                  d_status := status r |}))
    end).

(** ** Error kinds

    The spec's taxonomy (section 7) read off the responses: the HTTP code,
    and for 400 the shape and text of the body. *)
Inductive Kind :=
| Success
| ValidationFailed
| NotFound
| InvalidState
| CapacityExceeded
| Forbidden
| InternalFailure.

#[global] Instance Kind_eq_dec : EqDecision Kind.
Proof. solve_decision. Defined.

Definition capacity_message : string := "Class is at full capacity".

Definition kind_of (r : Response) : Kind :=
  match code r with
  | 200 | 201 => Success
  | 404 => NotFound
  | 403 => Forbidden
  | 400 =>
      match body r with
      | BErrors _ => ValidationFailed
      | BMessage m => if String.eqb m capacity_message then CapacityExceeded else InvalidState
      | _ => InvalidState
      end
  | _ => InternalFailure
  end.

(** ** Sequences of coordinator operations *)
Inductive Call :=
| Create (env : Env) (req : Req)
| Approve (env : Env) (req : Req)
| Reject (env : Env) (req : Req)
| ChangeStatus (env : Env) (req : Req)
| ApproveAllPending (env : Env) (req : Req)
| Delete (req : Req)
| AdminDelete (env : Env) (req : Req).

Definition step (db : DB) (c : Call) : Response * DB :=
  match c with
  | Create env req => createClassRequest env req db
  | Approve env req => approveClassRequest env req db
  | Reject env req => rejectClassRequest env req db
  | ChangeStatus env req => changeClassRequestStatus env req db
  | ApproveAllPending env req => approveAllPendingRequests env req db
  | Delete req => deleteClassRequest req db
  | AdminDelete env req => adminDeleteClassRequest env req db
  end.

Definition run (db : DB) (calls : list Call) : DB :=
  fold_left (fun d c => snd (step d c)) calls db.

(** ** The read-only handlers

    [getPendingClassRequestsCount] and [getStudentClassRequests] of the
    controller, and [getAvailableClasses] and [getAllGrades] of the student
    controller (src/test-cors.html, after the HTML page; that file repeats
    [getStudentClassRequests] verbatim at lines 302-322).  What they send
    is kept apart from the bodies of the coordinator.  The [createdBy] path
    that [getAvailableClasses] populates is not a field of the class
    record. *)

(** [populate('class', 'type grade date startTime endTime venue category')]:
    the fields of the selection that the class record carries. *)
Record ClassSummary := {
  cs_id : ObjectId;
  cs_type : string;
  cs_grade : string;
  cs_category : string
}.

Record RequestView := {
  rv_request : ClassRequest;
  rv_class : option ClassSummary
}.

(** [{ ...classItem.toObject(), enrolledCount, availableSpots }]. *)
Record ClassView := {
  cv_id : ObjectId;
  cv_class : ClassDoc;
  enrolledCount : nat;
  availableSpots : Z
}.

Inductive ViewBody :=
| VCount (success : bool) (count : nat)
| VCountError (success : bool) (msg : string)
| VMessage (msg : string)
| VServerError (msg : string)
| VRequests (requests : list RequestView)
| VClasses (classes : list ClassView) (total : nat)
| VGrades (grades : list string).

Record ViewResponse := { v_code : nat; v_body : ViewBody }.

Definition view (c : nat) (b : ViewBody) : ViewResponse := {| v_code := c; v_body := b |}.

(** [try { ... } catch (err) { res.status(500).json(on_error) }]. *)
Definition view_handler (on_error : ViewResponse) (m : M ViewResponse) (db : DB) :
    ViewResponse * DB :=
  match m db with
  | (Ret r, db') => (r, db')
  | (Throw, db') => (on_error, db')
  end.

(** [ClassRequest.countDocuments({ status: 'Pending' })]. *)
Definition countPending : M nat :=
  fun db =>
    (Ret (length (List.filter (fun r => bool_decide (status r = Pending)) (requests db))), db).

(** *** getPendingClassRequestsCount (lines 103-120) *)
Definition getPendingClassRequestsCount : DB -> ViewResponse * DB :=
  view_handler (view 500 (VCountError false "Server error while getting count"))
    (count <- countPending ;;
     ret (view 200 (VCount true count))).

(** *** The order of a listing *)

(** The sort keys of the listings, [createdAt] of a request and [date]
    and [startTime] of a class, are not among the fields of the modelled
    documents.  How a query orders its result is therefore a parameter; a
    sort returns a permutation of what the filter selects. *)
Record Sort := {
  newest_first : list ClassRequest -> list ClassRequest;              (* createdAt: -1 *)
  by_schedule : list (ObjectId * ClassDoc) -> list (ObjectId * ClassDoc);
                                                    (* grade: 1, date: 1, startTime: 1 *)
  alphabetical : list string -> list string                           (* grades.sort() *)
}.

Definition class_summary (cid : ObjectId) (c : ClassDoc) : ClassSummary :=
  {| cs_id := cid; cs_type := c_type c; cs_grade := grade c; cs_category := category c |}.

Definition request_view (db : DB) (r : ClassRequest) : RequestView :=
  {| rv_request := r; rv_class := class_summary (class r) <$> classes db !! class r |}.

(** [ClassRequest.find({ student }).populate('class', ...)
    .sort({ createdAt: -1 })]. *)
Definition findByStudent (o : Sort) (sid : ObjectId) : M (list RequestView) :=
  fun db =>
    (Ret (List.map (request_view db)
            (newest_first o (List.filter (fun r => Nat.eqb (student r) sid) (requests db)))),
     db).

(** *** getStudentClassRequests (lines 81-100) *)
Definition getStudentClassRequests (o : Sort) (req : Req) : DB -> ViewResponse * DB :=
  view_handler (view 500 (VServerError "Server error"))
    (found <- findStudentByUser (user_id req) ;;
     match found with
     | None => ret (view 404 (VMessage "Student profile not found"))
     | Some (sid, _) =>
         requests <- findByStudent o sid ;;
         ret (view 200 (VRequests requests))
     end).

(** *** getAvailableClasses (src/test-cors.html, lines 252-299) *)
Record ClassQuery := {
  q_user : ObjectId;          (* req.user.id *)
  q_grade : option string     (* req.query.grade *)
}.

(** The filter [{ type: 'Normal', isActive: true }], with [grade] when the
    query gives a non-empty one and [_id: { $nin: ... }] when the student
    has enrolled classes. *)
Definition available (g : option string) (nin : option (list ObjectId))
    (p : ObjectId * ClassDoc) : bool :=
  String.eqb (c_type (snd p)) "Normal"
  && isActive (snd p)
  && match g with
     | Some (String a g') => String.eqb (grade (snd p)) (String a g')
     | _ => true
     end
  && match nin with
     | Some arr => negb (existsb (fun id => id_equals id (fst p)) arr)
     | None => true
     end.

Definition findAvailable (o : Sort) (g : option string) (nin : option (list ObjectId)) :
    M (list (ObjectId * ClassDoc)) :=
  fun db => (Ret (by_schedule o (List.filter (available g nin) (map_to_list (classes db)))), db).

Definition with_spots (p : ObjectId * ClassDoc) : ClassView :=
  let count := length_or_0 (enrolledStudents (snd p)) in
  {| cv_id := fst p; cv_class := snd p; enrolledCount := count;
     availableSpots := capacity (snd p) - Z.of_nat count |}.

Definition getAvailableClasses (o : Sort) (q : ClassQuery) : DB -> ViewResponse * DB :=
  view_handler (view 500 (VServerError "Server error"))
    (found <- findStudentByUser (q_user q) ;;
     let nin :=
       match found with
       | Some (_, s) =>
           match enrolledClasses s with
           | Some (x :: arr) => Some (x :: arr)
           | _ => None
           end
       | None => None
       end in
     classes <- findAvailable o (q_grade q) nin ;;
     let classesWithSpots := List.map with_spots classes in
     ret (view 200 (VClasses classesWithSpots (length classesWithSpots)))).

(** *** getAllGrades (src/test-cors.html, lines 325-333) *)

(** [Class.distinct('grade', { type: 'Normal', isActive: true })]. *)
Definition distinctGrades : M (list string) :=
  fun db =>
    (Ret (remove_dups
            (List.map (fun p => grade (snd p))
               (List.filter (fun p => String.eqb (c_type (snd p)) "Normal" && isActive (snd p))
                  (map_to_list (classes db))))), db).

Definition getAllGrades (o : Sort) : DB -> ViewResponse * DB :=
  view_handler (view 500 (VServerError "Server error"))
    (grades <- distinctGrades ;;
     ret (view 200 (VGrades (alphabetical o grades)))).

(** * Vocabulary of the properties *)

(** ** Views of a database *)

Definition find_request (db : DB) (rid : ObjectId) : option ClassRequest :=
  List.find (fun r => Nat.eqb (r_id r) rid) (requests db).

Definition pending_requests (db : DB) : list ClassRequest :=
  List.filter (fun r => bool_decide (status r = Pending)) (requests db).

Definition student_of_user (db : DB) (uid : ObjectId) : option (ObjectId * Student) :=
  List.find (fun p => Nat.eqb (userId (snd p)) uid) (map_to_list (students db)).

Definition class_students (db : DB) (cid : ObjectId) : list ObjectId :=
  match classes db !! cid with
  | Some c => default [] (enrolledStudents c)
  | None => []
  end.

Definition student_classes (db : DB) (sid : ObjectId) : list ObjectId :=
  match students db !! sid with
  | Some s => default [] (enrolledClasses s)
  | None => []
  end.

Definition class_capacity (db : DB) (cid : ObjectId) : option Z :=
  capacity <$> classes db !! cid.

(** Both references of a request resolve. *)
Definition resolved (db : DB) (r : ClassRequest) : Prop :=
  is_Some (classes db !! class r) ∧ is_Some (students db !! student r).

#[global] Instance resolved_dec db r : Decision (resolved db r).
Proof. unfold resolved. apply _. Defined.

(** The database a computation leaves behind. *)
Definition after {A} (m : M A) (db : DB) : DB := snd (m db).

Abbreviation occurrences x l := (count_occ Nat.eq_dec l x).

(** ** List-level effects *)

Definition remove_id (i : ObjectId) (arr : list ObjectId) : list ObjectId :=
  List.filter (fun id => negb (id_equals id i)) arr.

Definition add_if_absent (i : ObjectId) (arr : list ObjectId) : list ObjectId :=
  if bool_decide (i ∈ arr) then arr else push arr i.

(** ** Database-level effects of the blocks *)

Definition is_full (r : ClassRequest) (c : ClassDoc) : bool :=
  negb (bool_decide (student r ∈ default [] (enrolledStudents c)))
  && (capacity c <=? Z.of_nat (length_or_0 (enrolledStudents c)))%Z.

(** The database after the enrolment block ran for request [r], whose
    populated documents are [c] and [s]. *)
Definition enrol_db (r : ClassRequest) (c : ClassDoc) (s : Student) (db : DB) : DB :=
  {| requests := requests db;
     classes :=
       if bool_decide (student r ∈ default [] (enrolledStudents c)) then classes db
       else <[class r := set_enrolledStudents c
                           (push (default [] (enrolledStudents c)) (student r))]> (classes db);
     students :=
       if bool_decide (class r ∈ default [] (enrolledClasses s)) then students db
       else <[student r := set_enrolledClasses s
                             (push (default [] (enrolledClasses s)) (class r))]> (students db);
     notifications := notifications db |}.

Definition unenrol_db (r : ClassRequest) (c : ClassDoc) (s : Student) (db : DB) : DB :=
  {| requests := requests db;
     classes :=
       match enrolledStudents c with
       | Some arr =>
           if negb (Nat.eqb (length arr) (length (remove_id (student r) arr)))
           then <[class r := set_enrolledStudents c (remove_id (student r) arr)]> (classes db)
           else classes db
       | None => classes db
       end;
     students :=
       match enrolledClasses s with
       | Some arr =>
           if negb (Nat.eqb (length arr) (length (remove_id (class r) arr)))
           then <[student r := set_enrolledClasses s (remove_id (class r) arr)]> (students db)
           else students db
       | None => students db
       end;
     notifications := notifications db |}.

Definition replace_request (r' : ClassRequest) (l : list ClassRequest) : list ClassRequest :=
  List.map (fun d => if Nat.eqb (r_id d) (r_id r') then r' else d) l.

Definition save_db (r' : ClassRequest) (db : DB) : DB :=
  set_requests (replace_request r' (requests db)) db.

Definition delete_db (rid : ObjectId) (db : DB) : DB :=
  set_requests (List.filter (fun d => negb (Nat.eqb (r_id d) rid)) (requests db)) db.

Definition add_notification (n : Notification) (db : DB) : DB :=
  {| requests := requests db; classes := classes db; students := students db;
     notifications := notifications db ++ [n] |}.

(** The two halves of the removal block of [adminDeleteClassRequest]. *)
Definition adminRemoveFromClass (p : Populated) : M unit :=
  cid <- deref (class_id p) ;;
  classItem <- findClass cid ;;
  match classItem with
  | Some c =>
      match enrolledStudents c with
      | Some arr =>
          arr' <- filter_not_equals arr (student_id p) ;;
          saveClass cid (set_enrolledStudents c arr')
      | None => ret tt
      end
  | None => ret tt
  end.

Definition adminRemoveFromStudent (p : Populated) : M unit :=
  sid <- deref (student_id p) ;;
  found <- findStudent sid ;;
  match found with
  | Some s =>
      match enrolledClasses s with
      | Some arr =>
          arr' <- filter_not_equals arr (class_id p) ;;
          saveStudent sid (set_enrolledClasses s arr')
      | None => ret tt
      end
  | None => ret tt
  end.

(** ** Stored documents and responses of the handlers *)

Definition approved_doc (env : Env) (req : Req) (r : ClassRequest) : ClassRequest :=
  set_status r Approved
    {| actionBy := user_id req; actionDate := now env;
       actionNote := or_default (adminNote req) "Request approved" |}.

Definition rejected_doc (env : Env) (req : Req) (r : ClassRequest) : ClassRequest :=
  set_status r Rejected
    {| actionBy := user_id req; actionDate := now env;
       actionNote := or_default (adminNote req) "Request rejected" |}.

Definition changed_doc (env : Env) (req : Req) (r : ClassRequest) : ClassRequest :=
  set_status r (body_status req)
    {| actionBy := user_id req; actionDate := now env;
       actionNote :=
         or_default (adminNote req)
           ("Status changed from " +:+ status_name (status r) +:+ " to "
            +:+ status_name (body_status req)) |}.

Definition bulk_doc (env : Env) (req : Req) (r : ClassRequest) : ClassRequest :=
  set_status r Approved
    {| actionBy := user_id req; actionDate := now env;
       actionNote := or_default (adminNote req) "Bulk approval by administrator" |}.

(** The database after one request of the bulk loop was approved. *)
Definition bulk_approved_db (env : Env) (req : Req) (r : ClassRequest) (c : ClassDoc)
    (s : Student) (db : DB) : DB :=
  after (swallow env (bulkNotification (populated db r) (adminNote req)))
    (save_db (bulk_doc env req r) (enrol_db r c s db)).

Definition bulk0 : Bulk := {| approvedCount := 0; failedCount := 0; failedRequests := [] |}.

Definition capacity_failure (c : ClassDoc) (s : Student) : FailedRequest :=
  {| studentName := firstName s +:+ " " +:+ lastName s;
     className := class_label c;
     fr_reason := capacity_message |}.

Definition capacity_response : Response := json 400 (BMessage capacity_message).

Definition not_pending_response : Response :=
  json 400 (BMessage "Class request is not pending").

Definition no_pending_response : Response :=
  json 400 (BMessage "No pending class requests found").

Definition enrol_error : Response := json 500 (BMessage "Error enrolling student in class").

Definition changed_response (env : Env) (req : Req) (r : ClassRequest) : Response :=
  json 200 (BRequest
    ("Class request status changed from " +:+ status_name (status r) +:+ " to "
     +:+ status_name (body_status req) +:+ " successfully") (changed_doc env req r)).

Definition deleted_response (r : ClassRequest) (c : ClassDoc) (s : Student) : Response :=
  json 200 (BDeleted "Class request deleted successfully"
              {| d_studentName := firstName s +:+ " " +:+ lastName s;
                 d_className := class_label c;
                 d_status := status r |}).


(** ** What a handler can do to the membership lists *)

(** Every handler changes the Class and Student collections only through
    the enrolment block, run after a capacity check that passed, or through
    a removal block; the bulk handler does so once per request. *)
Inductive effect (db db' : DB) : Prop :=
| effect_enrol (r : ClassRequest) (c : ClassDoc) (s : Student) :
    classes db !! class r = Some c →
    students db !! student r = Some s →
    is_full r c = false →
    classes db' = classes (enrol_db r c s db) →
    students db' = students (enrol_db r c s db) →
    effect db db'
| effect_unenrol (r : ClassRequest) (c : ClassDoc) (s : Student) :
    classes db !! class r = Some c →
    students db !! student r = Some s →
    classes db' = classes (unenrol_db r c s db) →
    students db' = students (unenrol_db r c s db) →
    effect db db'.

Definition same_members (db db' : DB) : Prop :=
  classes db' = classes db ∧ students db' = students db.

Definition effects : relation DB := rtc (fun db db' => effect db db' ∨ same_members db db').

(** ** Invariants *)

Definition within_capacity (db : DB) (cid : ObjectId) : Prop :=
  ∀ c, classes db !! cid = Some c →
       (Z.of_nat (length_or_0 (enrolledStudents c)) <= capacity c)%Z.

Definition linked (db : DB) (r : ClassRequest) : Prop :=
  student r ∈ class_students db (class r) ∧ class r ∈ student_classes db (student r).

Definition approved_linked (db : DB) : Prop :=
  ∀ r, r ∈ requests db → status r = Approved → linked db r.

Definition all_resolved (db : DB) : Prop :=
  ∀ r, r ∈ requests db → resolved db r.

(** No two Approved requests are for the same (student, class) pair.
    Requests of other statuses may share a pair with them. *)
Definition unique_approved_pairs (db : DB) : Prop :=
  ∀ r1 r2, r1 ∈ requests db → r2 ∈ requests db →
           status r1 = Approved → status r2 = Approved →
           student r1 = student r2 → class r1 = class r2 → r_id r1 = r_id r2.


(** ** The bulk approval in the spec's words *)









(** ** Example data *)

(** Two approved students, one class with room for a single student and a
    Pending request from each student. *)
Definition amal : Student :=
  {| userId := 101; firstName := "Amal"; lastName := "Perera";
     s_status := "Approved"; enrolledClasses := Some [] |}.

Definition nimal : Student :=
  {| userId := 102; firstName := "Nimal"; lastName := "Silva";
     s_status := "Approved"; enrolledClasses := Some [] |}.

Definition grade9 : ClassDoc :=
  {| c_type := "Normal"; grade := "Grade 9"; category := "Maths";
     isActive := true; capacity := 1; enrolledStudents := Some [] |}.

Definition pending_request (rid sid cid : ObjectId) : ClassRequest :=
  {| r_id := rid; student := sid; class := cid; reason := "Please enrol me";
     status := Pending; adminResponse := None |}.

Definition db0 : DB :=
  {| requests := [pending_request 1 11 20; pending_request 2 12 20];
     classes := <[20 := grade9]> ∅;
     students := <[11 := amal]> (<[12 := nimal]> ∅);
     notifications := [] |}.

Definition admin_req (rid : ObjectId) (st : Status) : Req :=
  {| validationErrors := []; user_id := 900; requestId := rid; body_classId := 0;
     body_reason := EmptyString; body_status := st; adminNote := None |}.

Definition student_req (uid rid : ObjectId) : Req :=
  {| validationErrors := []; user_id := uid; requestId := rid; body_classId := 0;
     body_reason := EmptyString; body_status := Pending; adminNote := None |}.

Definition create_req (uid cid : ObjectId) : Req :=
  {| validationErrors := []; user_id := uid; requestId := 0; body_classId := cid;
     body_reason := "Second try"; body_status := Pending; adminNote := None |}.

Definition env_ok : Env :=
  {| now := 1700000000; fresh_id := 3; notification_ok := fun _ => true |}.

Definition env_down : Env :=
  {| now := 1700000000; fresh_id := 3; notification_ok := fun _ => false |}.

(** The class is full once the first request is approved. *)
Definition db1 : DB := snd (approveClassRequest env_ok (admin_req 1 Approved) db0).


Definition calls1 : list Call :=
  [ Approve env_ok (admin_req 2 Approved);
    ChangeStatus env_ok (admin_req 2 Approved);
    ApproveAllPending env_ok (admin_req 0 Approved);
    ChangeStatus env_ok (admin_req 1 Rejected);
    ChangeStatus env_down (admin_req 2 Approved);
    Approve env_ok (admin_req 1 Approved) ].

(** A second request for a pair whose first request was rejected: the
    student re-applies, is approved on the new request, and the old
    request is then moved back to Pending. *)
Definition reapplied : list Call :=
  [ Reject env_ok (admin_req 1 Rejected);
    Create env_ok (create_req 101 20);
    Approve env_ok (admin_req 3 Approved);
    ChangeStatus env_ok (admin_req 1 Pending) ].

Definition db2 : DB := run db0 reapplied.

(** The second request of student 11, as [db2] stores it. *)
Definition approved3 : ClassRequest :=
  approved_doc env_ok (admin_req 3 Approved)
    {| r_id := 3; student := 11; class := 20; reason := "Second try";
       status := Pending; adminResponse := None |}.

Definition request1_again : ClassRequest :=
  changed_doc env_ok (admin_req 1 Pending)
    (rejected_doc env_ok (admin_req 1 Rejected) (pending_request 1 11 20)).

Definition db3 : DB := run db0 (reapplied ++ [ChangeStatus env_ok (admin_req 1 Approved)]).

Definition db4 : DB := snd (step db3 (ChangeStatus env_ok (admin_req 1 Rejected))).

(** ** Vocabulary of the further properties *)

(** The Pending requests stored for a (student, class) pair: what
    [ClassRequest.findOne({ student, class, status: 'Pending' })] searches. *)
Definition pending_for (db : DB) (sid cid : ObjectId) : list ClassRequest :=
  List.filter (fun r => Nat.eqb (student r) sid && Nat.eqb (class r) cid
                        && bool_decide (status r = Pending)) (requests db).

(** The document [createClassRequest] constructs. *)
Definition new_request (env : Env) (req : Req) (sid : ObjectId) : ClassRequest :=
  {| r_id := fresh_id env; student := sid; class := body_classId req;
     reason := body_reason req; status := default_status; adminResponse := None |}.

Definition created_response (env : Env) (req : Req) (sid : ObjectId) : Response :=
  json 201 (BRequest "Class enrollment request submitted successfully"
              (new_request env req sid)).

Definition duplicate_pending_response : Response :=
  json 400 (BMessage "You already have a pending request for this class").

(** A call that can turn a decided request back into a Pending one. *)
Definition reopens (call : Call) : bool :=
  match call with
  | ChangeStatus _ req => bool_decide (body_status req = Pending)
  | _ => false
  end.

(** What a call that does not reopen a request can do to the request
    collection: replace a request by a decided one, delete a request, or
    append a Pending request for a pair that had none. *)
Inductive requests_step (db db' : DB) : Prop :=
| requests_same :
    requests db' = requests db → requests_step db db'
| requests_decide (r' : ClassRequest) :
    status r' ≠ Pending →
    requests db' = replace_request r' (requests db) →
    requests_step db db'
| requests_delete (rid : ObjectId) :
    requests db' = List.filter (fun d => negb (Nat.eqb (r_id d) rid)) (requests db) →
    requests_step db db'
| requests_create (r : ClassRequest) :
    pending_for db (student r) (class r) = [] →
    requests db' = (requests db ++ [r])%list →
    requests_step db db'.

Definition requests_steps : relation DB := rtc requests_step.

(** The fields of a class and of a student that are not membership
    lists. *)
Definition class_frame (c : ClassDoc) : string * string * string * bool * Z :=
  (c_type c, grade c, category c, isActive c, capacity c).

Definition student_frame (s : Student) : ObjectId * string * string * string :=
  (userId s, firstName s, lastName s, s_status s).

(** A request without its admin response. *)
Definition request_key (r : ClassRequest) : ObjectId * ObjectId * ObjectId * string * Status :=
  (r_id r, student r, class r, reason r, status r).

Definition same_requests (db1 db2 : DB) : Prop :=
  List.map request_key (requests db1) = List.map request_key (requests db2).

(** The call of the bulk handler redirected to one request. *)
Definition for_request (req : Req) (rid : ObjectId) : Req :=
  {| validationErrors := validationErrors req; user_id := user_id req; requestId := rid;
     body_classId := body_classId req; body_reason := body_reason req;
     body_status := body_status req; adminNote := adminNote req |}.

Definition approve_call (env : Env) (req : Req) (r : ClassRequest) : Call :=
  Approve env (for_request req (r_id r)).

Definition unique_ids (db : DB) : Prop := NoDup (List.map r_id (requests db)).

(** The count a client reads. *)
Definition pending_count (db : DB) : option nat :=
  match fst (getPendingClassRequestsCount db) with
  | {| v_code := 200; v_body := VCount true n |} => Some n
  | _ => None
  end.

(** The same environment with the notification service down. *)
Definition mute (env : Env) : Env :=
  {| now := now env; fresh_id := fresh_id env; notification_ok := fun _ => false |}.

Definition mute_call (call : Call) : Call :=
  match call with
  | Create env req => Create (mute env) req
  | Approve env req => Approve (mute env) req
  | Reject env req => Reject (mute env) req
  | ChangeStatus env req => ChangeStatus (mute env) req
  | ApproveAllPending env req => ApproveAllPending (mute env) req
  | Delete req => Delete req
  | AdminDelete env req => AdminDelete (mute env) req
  end.

Definition is_reject (call : Call) : bool :=
  match call with
  | Reject _ _ => true
  | _ => false
  end.

(** Two databases that differ at most in their notifications. *)
Definition same_data (db1 db2 : DB) : Prop :=
  requests db1 = requests db2 ∧ classes db1 = classes db2 ∧ students db1 = students db2.

(** What a call other than a create can do to the request collection: save
    a new status and admin response on a request that is stored or whose
    references resolve, or delete a request. *)
Inductive requests_change (db db' : DB) : Prop :=
| change_none :
    requests db' = requests db → requests_change db db'
| change_status (r : ClassRequest) (st : Status) (a : AdminResponse) :
    r ∈ requests db ∨ resolved db r →
    requests db' = replace_request (set_status r st a) (requests db) →
    requests_change db db'
| change_delete (rid : ObjectId) :
    requests db' = List.filter (fun d => negb (Nat.eqb (r_id d) rid)) (requests db) →
    requests_change db db'.

(** The id the environment gives to a new request is not in use. *)
Definition fresh_for (db : DB) (call : Call) : Prop :=
  match call with
  | Create env _ => fresh_id env ∉ List.map r_id (requests db)
  | _ => True
  end.

Fixpoint fresh_along (db : DB) (calls : list Call) : Prop :=
  match calls with
  | [] => True
  | call :: rest => fresh_for db call ∧ fresh_along (snd (step db call)) rest
  end.

(** A call that can take a decided request [rid] back: a status change of
    that request to Pending, or its deletion by an administrator. *)
Definition undoes (rid : ObjectId) (call : Call) : bool :=
  match call with
  | ChangeStatus _ req => Nat.eqb (requestId req) rid && bool_decide (body_status req = Pending)
  | AdminDelete _ req => Nat.eqb (requestId req) rid
  | _ => false
  end.

(** The request [rid] is stored and is not Pending. *)
Definition decided (db : DB) (rid : ObjectId) : Prop :=
  ∃ d, find_request db rid = Some d ∧ status d ≠ Pending.

(** A sort returns a permutation of its input. *)
Definition is_sort (o : Sort) : Prop :=
  (∀ l, newest_first o l ≡ₚ l) ∧ (∀ l, by_schedule o l ≡ₚ l) ∧ (∀ l, alphabetical o l ≡ₚ l).

(** The grades the filter offers. *)
Definition listed_grades (o : Sort) (db : DB) : list string :=
  match v_body (fst (getAllGrades o db)) with
  | VGrades grades => grades
  | _ => []
  end.

(** The requests a student is shown. *)
Definition listed_requests (o : Sort) (req : Req) (db : DB) : list ClassRequest :=
  match v_body (fst (getStudentClassRequests o req db)) with
  | VRequests views => List.map rv_request views
  | _ => []
  end.

(** The classes a student is offered. *)
Definition listed_classes (o : Sort) (q : ClassQuery) (db : DB) : list ClassView :=
  match v_body (fst (getAvailableClasses o q db)) with
  | VClasses views _ => views
  | _ => []
  end.

(** ** Further example data *)

(** The database [db0] after request 1 was rejected. *)
Definition db_rejected : DB := snd (rejectClassRequest env_ok (admin_req 1 Rejected) db0).

(** Request 1 after its student's profile was removed: the class still
    resolves, the student reference dangles. *)
Definition db_orphan : DB :=
  {| requests := [pending_request 1 11 20];
     classes := <[20 := grade9]> ∅;
     students := ∅;
     notifications := [] |}.

(** A student is rejected, applies again, tries a third time, and the new
    request is approved. *)
Definition reapply_twice : list Call :=
  [ Reject env_ok (admin_req 1 Rejected);
    Create env_ok (create_req 101 20);
    Create env_down (create_req 101 20);
    Approve env_ok (admin_req 3 Approved);
    AdminDelete env_ok (admin_req 1 Approved) ].

(** Three Pending requests for one class; the student of the second one
    has no profile left. *)
Definition db_gap : DB :=
  {| requests := [pending_request 1 11 20; pending_request 2 13 20; pending_request 3 12 20];
     classes := <[20 := grade9]> ∅;
     students := <[11 := amal]> (<[12 := nimal]> ∅);
     notifications := [] |}.

(** A sort that keeps the order of the collection for classes and puts
    the last stored request first. *)
Definition stored_order : Sort :=
  {| newest_first := fun l => rev l; by_schedule := fun l => l;
     alphabetical := fun l => l |}.

Definition all_classes (uid : ObjectId) : ClassQuery := {| q_user := uid; q_grade := None |}.

(** A second, larger class next to the one of [db1], which is full. *)
Definition grade10 : ClassDoc :=
  {| c_type := "Normal"; grade := "Grade 10"; category := "Science";
     isActive := true; capacity := 30; enrolledStudents := None |}.

Definition db5 : DB :=
  {| requests := requests db1 ++ [pending_request 3 12 21];
     classes := <[21 := grade10]> (classes db1);
     students := students db1;
     notifications := notifications db1 |}.

(** The class of [db0] as the listing shows it once a student is enrolled. *)
Definition grade9_view (sid : ObjectId) : ClassView :=
  with_spots (20, set_enrolledStudents grade9 [sid]).

(** Calls after a decision on request 1 that do not take it back: another
    request is made, approved in bulk or refused for capacity, request 1 is
    moved between Approved and Rejected, and request 2 is reopened and
    deleted. *)
Definition settle_calls : list Call :=
  [ Create env_ok (create_req 101 20);
    ApproveAllPending env_ok (admin_req 0 Approved);
    ChangeStatus env_ok (admin_req 1 Rejected);
    ChangeStatus env_ok (admin_req 1 Approved);
    ChangeStatus env_ok (admin_req 2 Pending);
    Delete (student_req 101 1);
    AdminDelete env_ok (admin_req 2 Approved) ].

(** ** Tactics *)

#[local] Arguments String.append : simpl never.

Ltac run_handler :=
  unfold handler, bind, findById, populate, saveRequest, try_catch, ret;
  cbn beta iota.

Ltac list_cases H :=
  apply list_elem_of_In in H; vm_compute in H;
  repeat (destruct H as [<-|H]); try (by destruct H).

(** * Properties *)

(** ** The array helpers against list membership *)

Lemma existsb_id_equals (arr : list ObjectId) (i : ObjectId) :
  existsb (fun id => id_equals id i) arr = bool_decide (i ∈ arr).
Proof.
  induction arr as [|a arr IH].
  - symmetry. apply bool_decide_eq_false_2, not_elem_of_nil.
  - cbn [existsb]. rewrite IH. unfold id_equals.
    destruct (Nat.eqb_spec a i) as [->|Hne]; cbn [orb].
    + symmetry. apply bool_decide_eq_true_2. by left.
    + apply bool_decide_ext. rewrite elem_of_cons. intuition congruence.
Qed.

Lemma some_equals_resolved (arr : list ObjectId) (i : ObjectId) (db : DB) :
  some_equals arr (Some i) db = (Ret (bool_decide (i ∈ arr)), db).
Proof.
  destruct arr as [|a arr].
  - unfold some_equals, ret. do 2 f_equal.
  - unfold some_equals, bind, deref, ret. by rewrite existsb_id_equals.
Qed.

Lemma some_equals_frame (arr : list ObjectId) (x : option ObjectId) (db : DB) :
  snd (some_equals arr x db) = db.
Proof. by destruct arr, x. Qed.

Lemma filter_not_equals_resolved (arr : list ObjectId) (i : ObjectId) (db : DB) :
  filter_not_equals arr (Some i) db = (Ret (remove_id i arr), db).
Proof. by destruct arr. Qed.

Lemma filter_not_equals_frame (arr : list ObjectId) (x : option ObjectId) (db : DB) :
  snd (filter_not_equals arr x db) = db.
Proof. by destruct arr, x. Qed.

Lemma elem_of_remove_id (i j : ObjectId) (arr : list ObjectId) :
  j ∈ remove_id i arr ↔ j ∈ arr ∧ j ≠ i.
Proof.
  unfold remove_id. rewrite !list_elem_of_In, filter_In, <- list_elem_of_In.
  unfold id_equals. destruct (Nat.eqb_spec j i); cbn [negb]; intuition congruence.
Qed.

Lemma length_remove_id (i : ObjectId) (arr : list ObjectId) :
  length (remove_id i arr) <= length arr.
Proof. induction arr as [|a arr IH]; simpl; [lia|]. case_match; simpl; lia. Qed.

Lemma remove_id_same_length (i : ObjectId) (arr : list ObjectId) :
  length (remove_id i arr) = length arr → remove_id i arr = arr.
Proof.
  induction arr as [|a arr IH]; simpl; [done|].
  case_match; simpl.
  - intros Hl. f_equal. apply IH. lia.
  - pose proof (length_remove_id i arr). lia.
Qed.

Lemma remove_id_absent (i : ObjectId) (arr : list ObjectId) :
  i ∉ arr → remove_id i arr = arr.
Proof.
  induction arr as [|a arr IH]; simpl; [done|].
  rewrite not_elem_of_cons. intros [Hne Hni]. unfold id_equals.
  destruct (Nat.eqb_spec a i); [congruence|]. simpl. by rewrite IH.
Qed.

Lemma count_occ_remove_id (i j : ObjectId) (arr : list ObjectId) :
  count_occ Nat.eq_dec (remove_id i arr) j =
  if decide (j = i) then 0 else count_occ Nat.eq_dec arr j.
Proof.
  induction arr as [|a arr IH]; simpl.
  - by case_decide.
  - unfold id_equals. destruct (Nat.eqb_spec a i) as [->|Hne]; simpl.
    + rewrite IH. case_decide; [done|]. destruct (Nat.eq_dec i j); congruence.
    + rewrite IH. destruct (Nat.eq_dec a j); case_decide; congruence.
Qed.

Lemma count_occ_add_if_absent (i j : ObjectId) (arr : list ObjectId) :
  count_occ Nat.eq_dec (add_if_absent i arr) j =
  if decide (j = i) then Nat.max 1 (count_occ Nat.eq_dec arr j)
  else count_occ Nat.eq_dec arr j.
Proof.
  unfold add_if_absent, push. case_bool_decide as Hin.
  - case_decide as Hj; [|done]. subst j.
    apply list_elem_of_In, (count_occ_In Nat.eq_dec) in Hin. lia.
  - rewrite count_occ_app. simpl. case_decide as Hj.
    + subst j. destruct (Nat.eq_dec i i); [|done].
      rewrite list_elem_of_In in Hin.
      apply (count_occ_not_In Nat.eq_dec) in Hin. lia.
    + destruct (Nat.eq_dec i j); [congruence|lia].
Qed.

Lemma elem_of_add_if_absent (i j : ObjectId) (arr : list ObjectId) :
  j ∈ add_if_absent i arr ↔ j = i ∨ j ∈ arr.
Proof.
  unfold add_if_absent, push. case_bool_decide.
  - intuition congruence.
  - rewrite elem_of_app, list_elem_of_singleton. tauto.
Qed.

(** ** The database record *)

Lemma db_eta (db : DB) :
  {| requests := requests db; classes := classes db; students := students db;
     notifications := notifications db |} = db.
Proof. by destruct db. Qed.

(** ** The notification block *)

Lemma swallow_returns env payload db :
  swallow env payload db = (Ret tt, after (swallow env payload) db).
Proof.
  unfold after, swallow, try_catch, notify, bind, deref, createNotification, ret, throw.
  destruct payload as [n|]; [|done]. by destruct (notification_ok env n).
Qed.

Lemma swallow_frame env payload db :
  requests (after (swallow env payload) db) = requests db
  ∧ classes (after (swallow env payload) db) = classes db
  ∧ students (after (swallow env payload) db) = students db.
Proof.
  unfold after, swallow, try_catch, notify, bind, deref, createNotification, ret, throw.
  destruct payload as [n|]; [|done]. by destruct (notification_ok env n).
Qed.

(** ** The capacity check *)

Lemma capacityCheck_frame p db : snd (capacityCheck p db) = db.
Proof.
  unfold capacityCheck, bind, deref, ret, throw.
  destruct (p_class p) as [c|]; [|done].
  destruct (enrolledStudents c) as [arr|]; [|done].
  pose proof (some_equals_frame arr (student_id p) db) as Hf.
  destruct (some_equals arr (student_id p) db) as [[b|] db']; simpl in *; by subst.
Qed.

Lemma capacityCheck_resolved db0 r c s db :
  classes db0 !! class r = Some c → students db0 !! student r = Some s →
  capacityCheck (populated db0 r) db = (Ret (is_full r c), db).
Proof.
  intros Hc Hs. unfold capacityCheck, bind, deref, ret, student_id, populated, is_full.
  cbn [p_class p_student doc]. rewrite Hc, Hs.
  destruct (enrolledStudents c) as [arr|]; [|done].
  by rewrite some_equals_resolved.
Qed.

(** ** The enrolment block *)

Lemma addMembership_dangling db0 r db :
  ¬ resolved db0 r → addMembership (populated db0 r) db = (Throw, db).
Proof.
  unfold resolved, addMembership, bind, deref, ret, throw, student_id, populated.
  cbn [p_class p_student doc]. intros Hn.
  destruct (classes db0 !! class r) as [c|]; [|done].
  destruct (students db0 !! student r) as [s|].
  { exfalso. apply Hn. split; by eexists. }
  by destruct (default [] (enrolledStudents c)).
Qed.

Lemma addMembership_resolved db0 r c s db :
  classes db0 !! class r = Some c → students db0 !! student r = Some s →
  addMembership (populated db0 r) db = (Ret tt, enrol_db r c s db).
Proof.
  intros Hc Hs.
  unfold enrol_db, addMembership, bind, deref, ret, student_id, class_id, populated.
  cbn [p_class p_student doc]. rewrite Hc, Hs.
  rewrite some_equals_resolved.
  destruct (bool_decide (student r ∈ default [] (enrolledStudents c)));
    [|unfold saveClass; cbn [students]];
    rewrite some_equals_resolved;
    destruct (bool_decide (class r ∈ default [] (enrolledClasses s)));
    try done; by rewrite db_eta.
Qed.

Lemma class_students_enrol r c s db cid :
  classes db !! class r = Some c →
  class_students (enrol_db r c s db) cid =
  if decide (cid = class r) then add_if_absent (student r) (class_students db cid)
  else class_students db cid.
Proof.
  intros Hc. unfold class_students, enrol_db, add_if_absent. cbn [classes].
  case_decide as Hcid.
  - subst cid. rewrite Hc. case_bool_decide; [by rewrite Hc|].
    by rewrite lookup_insert_eq.
  - case_bool_decide; [done|]. by rewrite lookup_insert_ne.
Qed.

Lemma student_classes_enrol r c s db sid :
  students db !! student r = Some s →
  student_classes (enrol_db r c s db) sid =
  if decide (sid = student r) then add_if_absent (class r) (student_classes db sid)
  else student_classes db sid.
Proof.
  intros Hs. unfold student_classes, enrol_db, add_if_absent. cbn [students].
  case_decide as Hsid.
  - subst sid. rewrite Hs. case_bool_decide; [by rewrite Hs|].
    by rewrite lookup_insert_eq.
  - case_bool_decide; [done|]. by rewrite lookup_insert_ne.
Qed.

Lemma class_capacity_enrol r c s db cid :
  classes db !! class r = Some c →
  class_capacity (enrol_db r c s db) cid = class_capacity db cid.
Proof.
  intros Hc. unfold class_capacity, enrol_db. cbn [classes].
  case_bool_decide; [done|].
  destruct (decide (cid = class r)) as [->|Hne].
  - by rewrite lookup_insert_eq, Hc.
  - by rewrite lookup_insert_ne.
Qed.

Lemma students_dom_enrol r c s db sid :
  students db !! student r = Some s →
  is_Some (students (enrol_db r c s db) !! sid) ↔ is_Some (students db !! sid).
Proof.
  intros Hs. unfold enrol_db. cbn [students].
  case_bool_decide; [done|].
  destruct (decide (sid = student r)) as [->|Hne].
  - rewrite lookup_insert_eq, Hs. split; by eexists.
  - by rewrite lookup_insert_ne.
Qed.

(** ** The removal block of [changeClassRequestStatus] *)

Lemma removeMembership_resolved db0 r c s db :
  classes db0 !! class r = Some c → students db0 !! student r = Some s →
  removeMembership (populated db0 r) db = (Ret tt, unenrol_db r c s db).
Proof.
  intros Hc Hs.
  unfold unenrol_db, removeMembership, bind, ret, student_id, class_id, populated.
  cbn [p_class p_student doc]. rewrite Hc, Hs.
  destruct (enrolledStudents c) as [arr|];
    [rewrite filter_not_equals_resolved;
     destruct (negb _); unfold saveClass; cbn [students classes requests notifications]|];
    (destruct (enrolledClasses s) as [arr2|];
     [rewrite filter_not_equals_resolved; destruct (negb _)|]);
    unfold ret, saveStudent; cbn [students classes requests notifications];
    try done; by rewrite db_eta.
Qed.

Lemma removeMembership_dangling db0 r db :
  ¬ resolved db0 r → after (removeMembership (populated db0 r)) db = db.
Proof.
  unfold resolved, after, removeMembership, bind, ret, student_id, class_id, populated.
  cbn [p_class p_student doc]. intros Hn.
  destruct (classes db0 !! class r) as [c|], (students db0 !! student r) as [s|].
  - exfalso. apply Hn. split; by eexists.
  - destruct (enrolledStudents c) as [[|a arr]|]; done.
  - destruct (enrolledClasses s) as [[|a arr]|]; done.
  - done.
Qed.

Lemma class_students_unenrol r c s db cid :
  classes db !! class r = Some c →
  class_students (unenrol_db r c s db) cid =
  if decide (cid = class r) then remove_id (student r) (class_students db cid)
  else class_students db cid.
Proof.
  intros Hc. unfold class_students, unenrol_db. cbn [classes].
  destruct (enrolledStudents c) as [arr|] eqn:Earr.
  - destruct (Nat.eqb_spec (length arr) (length (remove_id (student r) arr))) as [Hl|Hl];
      cbn [negb]; case_decide as Hcid; subst.
    + rewrite Hc, Earr. cbn [default].
      symmetry. by apply remove_id_same_length.
    + done.
    + by rewrite lookup_insert_eq, Hc, Earr.
    + by rewrite lookup_insert_ne.
  - case_decide; [|done]. subst. by rewrite Hc, Earr.
Qed.

Lemma student_classes_unenrol r c s db sid :
  students db !! student r = Some s →
  student_classes (unenrol_db r c s db) sid =
  if decide (sid = student r) then remove_id (class r) (student_classes db sid)
  else student_classes db sid.
Proof.
  intros Hs. unfold student_classes, unenrol_db. cbn [students].
  destruct (enrolledClasses s) as [arr|] eqn:Earr.
  - destruct (Nat.eqb_spec (length arr) (length (remove_id (class r) arr))) as [Hl|Hl];
      cbn [negb]; case_decide as Hsid; subst.
    + rewrite Hs, Earr. cbn [default].
      symmetry. by apply remove_id_same_length.
    + done.
    + by rewrite lookup_insert_eq, Hs, Earr.
    + by rewrite lookup_insert_ne.
  - case_decide; [|done]. subst. by rewrite Hs, Earr.
Qed.

Lemma class_capacity_unenrol r c s db cid :
  classes db !! class r = Some c →
  class_capacity (unenrol_db r c s db) cid = class_capacity db cid.
Proof.
  intros Hc. unfold class_capacity, unenrol_db. cbn [classes].
  destruct (enrolledStudents c) as [arr|]; [|done].
  destruct (negb _); [|done].
  destruct (decide (cid = class r)) as [->|Hne].
  - by rewrite lookup_insert_eq, Hc.
  - by rewrite lookup_insert_ne.
Qed.

Lemma students_dom_unenrol r c s db sid :
  students db !! student r = Some s →
  is_Some (students (unenrol_db r c s db) !! sid) ↔ is_Some (students db !! sid).
Proof.
  intros Hs. unfold unenrol_db. cbn [students].
  destruct (enrolledClasses s) as [arr|]; [|done].
  destruct (negb _); [|done].
  destruct (decide (sid = student r)) as [->|Hne].
  - rewrite lookup_insert_eq, Hs. split; by eexists.
  - by rewrite lookup_insert_ne.
Qed.

(** ** Closed forms of the handlers *)

(** *** approveClassRequest on a Pending request whose references resolve *)

Lemma approve_resolved env req db r c s :
  validationErrors req = [] →
  find_request db (requestId req) = Some r →
  status r = Pending →
  classes db !! class r = Some c →
  students db !! student r = Some s →
  approveClassRequest env req db =
  if is_full r c then (capacity_response, db)
  else (json 200 (BRequest "Class request approved successfully" (approved_doc env req r)),
        after (swallow env (approvedNotification (populated db r) (adminNote req)))
          (enrol_db r c s (save_db (approved_doc env req r) db))).
Proof.
  intros Hval Hfind Hst Hc Hs. unfold find_request in Hfind.
  unfold approveClassRequest. rewrite Hval. cbn [is_empty negb].
  run_handler. rewrite Hfind, Hst. cbn [bool_decide negb].
  rewrite (bool_decide_eq_true_2 _ eq_refl). cbn [negb].
  rewrite (capacityCheck_resolved db r c s db Hc Hs).
  destruct (is_full r c); [done|].
  rewrite (addMembership_resolved db r c s _ Hc Hs).
  by rewrite swallow_returns.
Qed.

(** *** changeClassRequestStatus *)

Lemma changeStatus_invalid env req db :
  validationErrors req ≠ [] →
  changeClassRequestStatus env req db = (json 400 (BErrors (validationErrors req)), db).
Proof.
  intros Hval. unfold changeClassRequestStatus.
  by destruct (validationErrors req).
Qed.

Lemma changeStatus_not_found env req db :
  validationErrors req = [] →
  find_request db (requestId req) = None →
  changeClassRequestStatus env req db = (json 404 (BMessage "Class request not found"), db).
Proof.
  intros Hval Hfind. unfold find_request in Hfind.
  unfold changeClassRequestStatus. rewrite Hval. cbn [is_empty negb].
  run_handler. by rewrite Hfind.
Qed.

(** Neither membership branch is taken. *)
Lemma changeStatus_same_side env req db r :
  validationErrors req = [] →
  find_request db (requestId req) = Some r →
  (status r = Approved ↔ body_status req = Approved) →
  changeClassRequestStatus env req db =
  (changed_response env req r,
   after (swallow env (statusChangeNotification (populated db r) (adminNote req)
                         (status r) (body_status req)))
     (save_db (changed_doc env req r) db)).
Proof.
  intros Hval Hfind Hside. unfold find_request in Hfind.
  unfold changeClassRequestStatus. rewrite Hval. cbn [is_empty negb].
  run_handler. rewrite Hfind. cbn beta iota zeta.
  destruct (decide (status r = Approved)) as [Hold|Hold].
  - rewrite (bool_decide_eq_true_2 _ Hold).
    rewrite (bool_decide_eq_true_2 _ (proj1 Hside Hold)). cbn [negb andb].
    by rewrite swallow_returns.
  - rewrite (bool_decide_eq_false_2 _ Hold).
    rewrite (bool_decide_eq_false_2 (body_status req = Approved)) by tauto.
    cbn [negb andb]. by rewrite swallow_returns.
Qed.

Lemma changeStatus_leave_resolved env req db r c s :
  validationErrors req = [] →
  find_request db (requestId req) = Some r →
  status r = Approved → body_status req ≠ Approved →
  classes db !! class r = Some c →
  students db !! student r = Some s →
  changeClassRequestStatus env req db =
  (changed_response env req r,
   after (swallow env (statusChangeNotification (populated db r) (adminNote req)
                         (status r) (body_status req)))
     (save_db (changed_doc env req r) (unenrol_db r c s db))).
Proof.
  intros Hval Hfind Hold Hnew Hc Hs. unfold find_request in Hfind.
  unfold changeClassRequestStatus. rewrite Hval. cbn [is_empty negb].
  run_handler. rewrite Hfind. cbn beta iota zeta.
  rewrite (bool_decide_eq_true_2 _ Hold), (bool_decide_eq_false_2 _ Hnew).
  cbn [negb andb].
  rewrite (removeMembership_resolved db r c s db Hc Hs).
  by rewrite swallow_returns.
Qed.

Lemma changeStatus_leave_dangling env req db r :
  validationErrors req = [] →
  find_request db (requestId req) = Some r →
  status r = Approved → body_status req ≠ Approved →
  ¬ resolved db r →
  changeClassRequestStatus env req db =
  (changed_response env req r,
   after (swallow env (statusChangeNotification (populated db r) (adminNote req)
                         (status r) (body_status req)))
     (save_db (changed_doc env req r) db)).
Proof.
  intros Hval Hfind Hold Hnew Hdang. unfold find_request in Hfind.
  unfold changeClassRequestStatus. rewrite Hval. cbn [is_empty negb].
  run_handler. rewrite Hfind. cbn beta iota zeta.
  rewrite (bool_decide_eq_true_2 _ Hold), (bool_decide_eq_false_2 _ Hnew).
  cbn [negb andb].
  pose proof (removeMembership_dangling db r db Hdang) as Hrm. unfold after in Hrm.
  destruct (removeMembership (populated db r) db) as [[[]|] db1]; cbn [snd] in Hrm; subst db1;
    by rewrite swallow_returns.
Qed.

Lemma changeStatus_enter_resolved env req db r c s :
  validationErrors req = [] →
  find_request db (requestId req) = Some r →
  status r ≠ Approved → body_status req = Approved →
  classes db !! class r = Some c →
  students db !! student r = Some s →
  changeClassRequestStatus env req db =
  if is_full r c then (capacity_response, db)
  else (changed_response env req r,
        after (swallow env (statusChangeNotification (populated db r) (adminNote req)
                              (status r) (body_status req)))
          (save_db (changed_doc env req r) (enrol_db r c s db))).
Proof.
  intros Hval Hfind Hold Hnew Hc Hs. unfold find_request in Hfind.
  unfold changeClassRequestStatus. rewrite Hval. cbn [is_empty negb].
  run_handler. rewrite Hfind. cbn beta iota zeta.
  rewrite (bool_decide_eq_false_2 _ Hold), (bool_decide_eq_true_2 _ Hnew).
  cbn [negb andb].
  rewrite (capacityCheck_resolved db r c s db Hc Hs).
  destruct (is_full r c); [done|].
  rewrite (addMembership_resolved db r c s db Hc Hs).
  by rewrite swallow_returns.
Qed.

Lemma changeStatus_enter_dangling env req db r :
  validationErrors req = [] →
  find_request db (requestId req) = Some r →
  status r ≠ Approved → body_status req = Approved →
  ¬ resolved db r →
  changeClassRequestStatus env req db = (capacity_response, db)
  ∨ changeClassRequestStatus env req db = (enrol_error, db).
Proof.
  intros Hval Hfind Hold Hnew Hdang. unfold find_request in Hfind.
  unfold changeClassRequestStatus. rewrite Hval. cbn [is_empty negb].
  run_handler. rewrite Hfind. cbn beta iota zeta.
  rewrite (bool_decide_eq_false_2 _ Hold), (bool_decide_eq_true_2 _ Hnew).
  cbn [negb andb].
  pose proof (capacityCheck_frame (populated db r) db) as Hfr.
  destruct (capacityCheck (populated db r) db) as [[[|]|] db1]; cbn [snd] in Hfr; subst db1.
  - by left.
  - rewrite (addMembership_dangling db r db Hdang). by right.
  - by right.
Qed.

(** *** approveClassRequest, the other cases *)

Lemma approve_invalid env req db :
  validationErrors req ≠ [] →
  approveClassRequest env req db = (json 400 (BErrors (validationErrors req)), db).
Proof.
  intros Hval. unfold approveClassRequest. by destruct (validationErrors req).
Qed.

Lemma approve_not_found env req db :
  validationErrors req = [] →
  find_request db (requestId req) = None →
  approveClassRequest env req db = (json 404 (BMessage "Class request not found"), db).
Proof.
  intros Hval Hfind. unfold find_request in Hfind.
  unfold approveClassRequest. rewrite Hval. cbn [is_empty negb].
  run_handler. by rewrite Hfind.
Qed.

Lemma approve_not_pending env req db r :
  validationErrors req = [] →
  find_request db (requestId req) = Some r →
  status r ≠ Pending →
  approveClassRequest env req db = (not_pending_response, db).
Proof.
  intros Hval Hfind Hst. unfold find_request in Hfind.
  unfold approveClassRequest. rewrite Hval. cbn [is_empty negb].
  run_handler. rewrite Hfind. cbn beta iota.
  by rewrite (bool_decide_eq_false_2 _ Hst).
Qed.

(** With a dangling reference the approval never completes; when the
    capacity check happens to pass, the request has already been saved as
    Approved by the time the enrolment block throws. *)
Lemma approve_dangling env req db r :
  validationErrors req = [] →
  find_request db (requestId req) = Some r →
  status r = Pending →
  ¬ resolved db r →
  approveClassRequest env req db = (server_error, db)
  ∨ approveClassRequest env req db = (capacity_response, db)
  ∨ approveClassRequest env req db = (enrol_error, save_db (approved_doc env req r) db).
Proof.
  intros Hval Hfind Hst Hdang. unfold find_request in Hfind.
  unfold approveClassRequest. rewrite Hval. cbn [is_empty negb].
  run_handler. rewrite Hfind. cbn beta iota.
  rewrite (bool_decide_eq_true_2 _ Hst). cbn [negb].
  pose proof (capacityCheck_frame (populated db r) db) as Hfr.
  destruct (capacityCheck (populated db r) db) as [[[|]|] db1]; cbn [snd] in Hfr; subst db1.
  - right. by left.
  - right. right. by rewrite (addMembership_dangling db r _ Hdang).
  - by left.
Qed.

(** *** rejectClassRequest *)

Lemma reject_invalid env req db :
  validationErrors req ≠ [] →
  rejectClassRequest env req db = (json 400 (BErrors (validationErrors req)), db).
Proof.
  intros Hval. unfold rejectClassRequest. by destruct (validationErrors req).
Qed.

Lemma reject_not_found env req db :
  validationErrors req = [] →
  find_request db (requestId req) = None →
  rejectClassRequest env req db = (json 404 (BMessage "Class request not found"), db).
Proof.
  intros Hval Hfind. unfold find_request in Hfind.
  unfold rejectClassRequest. rewrite Hval. cbn [is_empty negb].
  run_handler. by rewrite Hfind.
Qed.

Lemma reject_not_pending env req db r :
  validationErrors req = [] →
  find_request db (requestId req) = Some r →
  status r ≠ Pending →
  rejectClassRequest env req db = (not_pending_response, db).
Proof.
  intros Hval Hfind Hst. unfold find_request in Hfind.
  unfold rejectClassRequest. rewrite Hval. cbn [is_empty negb].
  run_handler. rewrite Hfind. cbn beta iota.
  by rewrite (bool_decide_eq_false_2 _ Hst).
Qed.

Lemma reject_pending env req db r :
  validationErrors req = [] →
  find_request db (requestId req) = Some r →
  status r = Pending →
  rejectClassRequest env req db =
  match rejectedNotification (populated db r) (adminNote req) with
  | Some n =>
      if notification_ok env n
      then (json 200 (BRequest "Class request rejected" (rejected_doc env req r)),
            add_notification n (save_db (rejected_doc env req r) db))
      else (server_error, save_db (rejected_doc env req r) db)
  | None => (server_error, save_db (rejected_doc env req r) db)
  end.
Proof.
  intros Hval Hfind Hst. unfold find_request in Hfind.
  unfold rejectClassRequest. rewrite Hval. cbn [is_empty negb].
  run_handler. rewrite Hfind. cbn beta iota.
  rewrite (bool_decide_eq_true_2 _ Hst). cbn [negb].
  unfold notify, bind, deref, createNotification, throw, ret.
  destruct (rejectedNotification (populated db r) (adminNote req)) as [n|]; [|done].
  cbn beta iota. by destruct (notification_ok env n).
Qed.

(** *** The answers of changeClassRequestStatus *)

Lemma changeStatus_cases env req db :
  (∃ b, fst (changeClassRequestStatus env req db) = json 400 (BErrors b))
  ∨ code (fst (changeClassRequestStatus env req db)) = 404
  ∨ code (fst (changeClassRequestStatus env req db)) = 200
  ∨ fst (changeClassRequestStatus env req db) = capacity_response
  ∨ fst (changeClassRequestStatus env req db) = enrol_error.
Proof.
  destruct (decide (validationErrors req = [])) as [Hval|Hval];
    [|rewrite changeStatus_invalid by done; left; by eexists].
  destruct (find_request db (requestId req)) as [r|] eqn:Hfind;
    [|rewrite changeStatus_not_found by done; right; by left].
  destruct (decide (status r = Approved)) as [Hold|Hold],
           (decide (body_status req = Approved)) as [Hnew|Hnew].
  - rewrite (changeStatus_same_side env req db r) by tauto. right. right. by left.
  - destruct (decide (resolved db r)) as [[[c Hc] [s Hs]]|Hdang].
    + rewrite (changeStatus_leave_resolved env req db r c s) by done.
      right. right. by left.
    + rewrite (changeStatus_leave_dangling env req db r) by done.
      right. right. by left.
  - destruct (decide (resolved db r)) as [[[c Hc] [s Hs]]|Hdang].
    + rewrite (changeStatus_enter_resolved env req db r c s) by done.
      destruct (is_full r c); right; right; [right|]; by left.
    + destruct (changeStatus_enter_dangling env req db r) as [->| ->]; try done;
        right; right; right; [by left|by right].
  - rewrite (changeStatus_same_side env req db r) by tauto. right. right. by left.
Qed.

(** ** deleteClassRequest and adminDeleteClassRequest *)

Lemma delete_cases req db :
  deleteClassRequest req db =
  match student_of_user db (user_id req) with
  | None => (json 404 (BMessage "Student profile not found"), db)
  | Some (sid, _) =>
      match find_request db (requestId req) with
      | None => (json 404 (BMessage "Class request not found"), db)
      | Some r =>
          if negb (id_equals (student r) sid)
          then (json 403 (BMessage "You can only delete your own class requests"), db)
          else if negb (bool_decide (status r = Pending))
          then (json 400 (BMessage "You can only delete pending class requests"), db)
          else (json 200 (BMessage "Class request deleted successfully"),
                delete_db (requestId req) db)
      end
  end.
Proof.
  unfold deleteClassRequest, student_of_user, find_request.
  unfold handler, bind, findStudentByUser, findById, findByIdAndDelete, ret.
  cbn beta iota.
  destruct (List.find _ (map_to_list (students db))) as [[sid s]|]; [|done].
  destruct (List.find _ (requests db)) as [r|]; [|done].
  destruct (negb (id_equals (student r) sid)); [done|].
  by destruct (negb (bool_decide (status r = Pending))).
Qed.

Lemma adminRemoveMembership_halves p db :
  adminRemoveMembership p db = (adminRemoveFromClass p ;;; adminRemoveFromStudent p) db.
Proof.
  unfold adminRemoveMembership, adminRemoveFromClass, bind.
  destruct (deref (class_id p) db) as [[cid|] db1]; [|done].
  destruct (findClass cid db1) as [[classItem|] db2]; [|done].
  destruct classItem as [c|]; [|done].
  destruct (enrolledStudents c) as [arr|]; [|done].
  by destruct (filter_not_equals arr (student_id p) db2) as [[arr'|] db3].
Qed.

Lemma set_enrolledStudents_id c arr :
  enrolledStudents c = Some arr → set_enrolledStudents c arr = c.
Proof. destruct c; cbn; by intros ->. Qed.

Lemma set_enrolledClasses_id s arr :
  enrolledClasses s = Some arr → set_enrolledClasses s arr = s.
Proof. destruct s; cbn; by intros ->. Qed.

Lemma adminRemoveFromClass_resolved db0 r c s db :
  classes db0 !! class r = Some c → students db0 !! student r = Some s →
  classes db = classes db0 →
  adminRemoveFromClass (populated db0 r) db =
  (Ret tt,
   {| requests := requests db; classes := classes (unenrol_db r c s db);
      students := students db; notifications := notifications db |}).
Proof.
  intros Hc Hs Hsame.
  unfold adminRemoveFromClass, bind, deref, ret, findClass, student_id, class_id, populated.
  assert (classes db !! class r = Some c) as Hc' by by rewrite Hsame.
  cbn [p_class p_student doc]. rewrite Hc, Hs. cbn beta iota. rewrite Hc'.
  unfold unenrol_db. cbn [classes].
  destruct (enrolledStudents c) as [arr|] eqn:Earr; [|by rewrite db_eta].
  rewrite filter_not_equals_resolved. unfold saveClass.
  destruct (Nat.eqb_spec (length arr) (length (remove_id (student r) arr))) as [Hl|Hl];
    cbn [negb]; [|done].
  do 2 f_equal. rewrite (remove_id_same_length _ _ (eq_sym Hl)).
  apply insert_id. rewrite Hc'. f_equal.
  symmetry. by apply set_enrolledStudents_id.
Qed.

Lemma adminRemoveFromStudent_resolved db0 r c s db :
  classes db0 !! class r = Some c → students db0 !! student r = Some s →
  students db = students db0 →
  adminRemoveFromStudent (populated db0 r) db =
  (Ret tt,
   {| requests := requests db; classes := classes db;
      students := students (unenrol_db r c s db); notifications := notifications db |}).
Proof.
  intros Hc Hs Hsame.
  unfold adminRemoveFromStudent, bind, deref, ret, findStudent, student_id, class_id, populated.
  assert (students db !! student r = Some s) as Hs' by by rewrite Hsame.
  cbn [p_class p_student doc]. rewrite Hc, Hs. cbn beta iota. rewrite Hs'.
  unfold unenrol_db. cbn [students].
  destruct (enrolledClasses s) as [arr|] eqn:Earr; [|by rewrite db_eta].
  rewrite filter_not_equals_resolved. unfold saveStudent.
  destruct (Nat.eqb_spec (length arr) (length (remove_id (class r) arr))) as [Hl|Hl];
    cbn [negb]; [|done].
  do 2 f_equal. rewrite (remove_id_same_length _ _ (eq_sym Hl)).
  apply insert_id. rewrite Hs'. f_equal.
  symmetry. by apply set_enrolledClasses_id.
Qed.

Lemma adminRemoveMembership_resolved db r c s :
  classes db !! class r = Some c → students db !! student r = Some s →
  adminRemoveMembership (populated db r) db = (Ret tt, unenrol_db r c s db).
Proof.
  intros Hc Hs. rewrite adminRemoveMembership_halves. unfold bind.
  rewrite (adminRemoveFromClass_resolved db r c s db Hc Hs eq_refl).
  cbn beta iota.
  rewrite (adminRemoveFromStudent_resolved db r c s) by done.
  done.
Qed.

Lemma adminRemoveMembership_dangling db r :
  ¬ resolved db r → after (adminRemoveMembership (populated db r)) db = db.
Proof.
  unfold resolved, after, adminRemoveMembership, bind, deref, ret, throw, findClass,
    findStudent, student_id, class_id, populated.
  cbn [p_class p_student doc]. intros Hn.
  destruct (classes db !! class r) as [c|] eqn:Hc; [|done].
  destruct (students db !! student r) as [s|] eqn:Hs.
  { exfalso. apply Hn. split; by eexists. }
  cbn beta iota. rewrite Hc.
  destruct (enrolledStudents c) as [[|a arr]|] eqn:Earr; try done.
  cbn. rewrite (set_enrolledStudents_id c []) by done.
  rewrite insert_id by done. apply db_eta.
Qed.

Lemma adminDelete_not_found env req db :
  find_request db (requestId req) = None →
  adminDeleteClassRequest env req db = (json 404 (BMessage "Class request not found"), db).
Proof.
  intros Hfind. unfold find_request in Hfind. unfold adminDeleteClassRequest.
  run_handler. by rewrite Hfind.
Qed.

Lemma adminDelete_resolved env req db r c s :
  find_request db (requestId req) = Some r →
  classes db !! class r = Some c →
  students db !! student r = Some s →
  adminDeleteClassRequest env req db =
  (deleted_response r c s,
   delete_db (requestId req)
     (after (swallow env (deletedNotification (populated db r)))
        (if bool_decide (status r = Approved) then unenrol_db r c s db else db))).
Proof.
  intros Hfind Hc Hs. unfold find_request in Hfind. unfold adminDeleteClassRequest.
  run_handler. rewrite Hfind. cbn beta iota.
  destruct (bool_decide (status r = Approved)).
  - rewrite (adminRemoveMembership_resolved db r c s Hc Hs).
    rewrite swallow_returns. unfold findByIdAndDelete, deref, populated.
    cbn [p_class p_student doc]. by rewrite Hc, Hs.
  - rewrite swallow_returns. unfold findByIdAndDelete, deref, populated.
    cbn [p_class p_student doc]. by rewrite Hc, Hs.
Qed.

(** With a dangling reference the request is still deleted, no membership
    list changes, and building the response throws. *)
Lemma adminDelete_dangling env req db r :
  find_request db (requestId req) = Some r →
  ¬ resolved db r →
  adminDeleteClassRequest env req db =
  (server_error,
   delete_db (requestId req)
     (after (swallow env (deletedNotification (populated db r))) db)).
Proof.
  intros Hfind Hdang. unfold find_request in Hfind. unfold adminDeleteClassRequest.
  run_handler. rewrite Hfind. cbn beta iota.
  assert ((let (o, db') :=
             (if bool_decide (status r = Approved)
              then λ db0 : DB,
                     let (o, db') := adminRemoveMembership (populated db r) db0 in
                     match o with
                     | Ret a => (Ret a, db')
                     | Throw => (Ret (), db')
                     end
              else λ db0 : DB, (Ret (), db0)) db in (o, db')) = (Ret tt, db)) as E.
  { destruct (bool_decide (status r = Approved)); [|done].
    pose proof (adminRemoveMembership_dangling db r Hdang) as Hrm. unfold after in Hrm.
    destruct (adminRemoveMembership (populated db r) db) as [[[]|] db1];
      cbn [snd] in Hrm; by subst db1. }
  destruct (if bool_decide (status r = Approved) then _ else _) as [o db1].
  injection E as -> ->.
  rewrite swallow_returns. unfold findByIdAndDelete, deref, populated, throw.
  cbn [p_class p_student doc]. cbn beta iota.
  unfold resolved in Hdang.
  destruct (students db !! student r) as [s|]; [|done].
  destruct (classes db !! class r) as [c|]; [|done].
  exfalso. apply Hdang. split; by eexists.
Qed.

(** *** createClassRequest *)

Lemma create_frame env req db :
  classes (snd (createClassRequest env req db)) = classes db
  ∧ students (snd (createClassRequest env req db)) = students db
  ∧ (requests (snd (createClassRequest env req db)) = requests db
     ∨ ∃ r, status r = Pending
            ∧ requests (snd (createClassRequest env req db)) = (requests db ++ [r])%list).
Proof.
  unfold createClassRequest.
  destruct (negb (is_empty (validationErrors req))); [by auto|].
  unfold handler, bind, findStudentByUser, findClass, findPendingFor, insertRequest, ret.
  cbn beta iota.
  destruct (List.find _ (map_to_list (students db))) as [[sid s]|]; [|by auto].
  destruct (negb (String.eqb (s_status s) "Approved")); [by auto|].
  cbn beta iota.
  destruct (classes db !! body_classId req) as [c|]; [|by auto].
  destruct (negb (isActive c) || negb (String.eqb (c_type c) "Normal")); [by auto|].
  destruct (match enrolledClasses s with Some _ => _ | None => _ end); [by auto|].
  cbn beta iota.
  destruct (List.find _ (requests db)); [by auto|].
  cbn [snd set_requests classes students requests]. split; [done|]. split; [done|].
  right. eexists. split; [|reflexivity]. done.
Qed.

(** *** approveAllPendingRequests *)

Lemma approveOne_resolved env req r acc db c s :
  classes db !! class r = Some c →
  students db !! student r = Some s →
  approveOne env req r acc db =
  if is_full r c then (Ret (record_failure acc (capacity_failure c s)), db)
  else (Ret (record_approval acc), bulk_approved_db env req r c s db).
Proof.
  intros Hc Hs. unfold approveOne, bulk_approved_db.
  unfold bind at 1. unfold populate. cbn beta iota. unfold try_catch, bind.
  rewrite (capacityCheck_resolved db r c s db Hc Hs).
  destruct (is_full r c).
  - unfold failureEntry, bind, deref, ret, populated. cbn [p_class p_student doc].
    by rewrite Hc, Hs.
  - rewrite (addMembership_resolved db r c s db Hc Hs).
    unfold saveRequest. cbn beta iota. by rewrite swallow_returns.
Qed.

Lemma approveOne_dangling env req r acc db :
  ¬ resolved db r → approveOne env req r acc db = (Throw, db).
Proof.
  intros Hdang. unfold approveOne.
  unfold bind at 1. unfold populate. cbn beta iota. unfold try_catch, bind.
  pose proof (capacityCheck_frame (populated db r) db) as Hfr.
  assert (∀ why, (let (o, db') := deref (student_id (populated db r)) db in
                  match o with
                  | Ret _ =>
                      let (o0, db'0) := failureEntry (populated db r) why db' in
                      match o0 with
                      | Ret a0 => ret (record_failure acc a0) db'0
                      | Throw => (Throw, db'0)
                      end
                  | Throw => (Throw, db')
                  end) = (Throw, db)) as Hcatch.
  { intros why. unfold resolved in Hdang.
    unfold failureEntry, bind, deref, ret, throw, student_id, populated.
    cbn [p_class p_student doc].
    destruct (students db !! student r) as [s|]; [|done].
    destruct (classes db !! class r) as [c|]; [|done].
    exfalso. apply Hdang. split; by eexists. }
  destruct (capacityCheck (populated db r) db) as [[[|]|] db1]; cbn [snd] in Hfr; subst db1.
  - assert (failureEntry (populated db r) "Class is at full capacity" db = (Throw, db)) as ->.
    { unfold resolved in Hdang.
      unfold failureEntry, bind, deref, ret, throw, populated. cbn [p_class p_student doc].
      destruct (students db !! student r) as [s|]; [|done].
      destruct (classes db !! class r) as [c|]; [|done].
      exfalso. apply Hdang. split; by eexists. }
    apply Hcatch.
  - rewrite (addMembership_dangling db r db Hdang). apply Hcatch.
  - apply Hcatch.
Qed.

Lemma approveAll_unfold env req db :
  validationErrors req = [] →
  approveAllPendingRequests env req db =
  match pending_requests db with
  | [] => (no_pending_response, db)
  | _ =>
      match approveEach env req (pending_requests db) bulk0 db with
      | (Ret acc, db') => (bulk_summary acc, db')
      | (Throw, db') => (server_error, db')
      end
  end.
Proof.
  intros Hval. unfold approveAllPendingRequests. rewrite Hval. cbn [is_empty negb].
  unfold handler, bind, findPending, ret. cbn beta iota. fold (pending_requests db).
  destruct (pending_requests db) as [|r l]; [done|].
  cbn [length Nat.eqb]. fold bulk0.
  by destruct (approveEach env req (r :: l) bulk0 db) as [[acc|] db'].
Qed.

Lemma approveAll_invalid env req db :
  validationErrors req ≠ [] →
  approveAllPendingRequests env req db = (json 400 (BErrors (validationErrors req)), db).
Proof.
  intros Hval. unfold approveAllPendingRequests. by destruct (validationErrors req).
Qed.

(** *** A deleted request is gone *)

Lemma find_request_delete_db rid db : find_request (delete_db rid db) rid = None.
Proof.
  unfold find_request, delete_db, set_requests. cbn [requests].
  induction (requests db) as [|d l IH]; [done|].
  cbn [List.filter]. destruct (Nat.eqb (r_id d) rid) eqn:E; cbn [negb]; [done|].
  cbn [List.find]. by rewrite E.
Qed.

(** ** Effects on the membership lists, handler by handler *)

Lemma effects_same db db' : same_members db db' → effects db db'.
Proof. intros H. apply rtc_once. by right. Qed.

Lemma effects_one db db' : effect db db' → effects db db'.
Proof. intros H. apply rtc_once. by left. Qed.

Lemma swallow_requests env payload db :
  requests (after (swallow env payload) db) = requests db.
Proof. apply swallow_frame. Qed.

Lemma swallow_classes env payload db :
  classes (after (swallow env payload) db) = classes db.
Proof. apply swallow_frame. Qed.

Lemma swallow_students env payload db :
  students (after (swallow env payload) db) = students db.
Proof. apply swallow_frame. Qed.

Lemma same_members_swallow env payload db :
  same_members db (after (swallow env payload) db).
Proof. destruct (swallow_frame env payload db) as (_ & Hc & Hs). by split. Qed.

Lemma resolved_dec_cases db r :
  (∃ c s, classes db !! class r = Some c ∧ students db !! student r = Some s)
  ∨ ¬ resolved db r.
Proof.
  destruct (decide (resolved db r)) as [[[c Hc] [s Hs]]|Hdang]; [left; eauto|by right].
Qed.

Lemma approve_members env req db :
  same_members db (snd (approveClassRequest env req db))
  ∨ ∃ r c s,
      find_request db (requestId req) = Some r
      ∧ classes db !! class r = Some c
      ∧ students db !! student r = Some s
      ∧ is_full r c = false
      ∧ classes (snd (approveClassRequest env req db)) = classes (enrol_db r c s db)
      ∧ students (snd (approveClassRequest env req db)) = students (enrol_db r c s db).
Proof.
  destruct (decide (validationErrors req = [])) as [Hval|Hval];
    [|rewrite approve_invalid by done; left; by split].
  destruct (find_request db (requestId req)) as [r|] eqn:Hfind;
    [|rewrite approve_not_found by done; left; by split].
  destruct (decide (status r = Pending)) as [Hst|Hst];
    [|rewrite (approve_not_pending env req db r) by done; left; by split].
  destruct (resolved_dec_cases db r) as [(c & s & Hc & Hs)|Hdang].
  - rewrite (approve_resolved env req db r c s) by done.
    destruct (is_full r c) eqn:Hfull; [left; by split|].
    right. exists r, c, s. cbn [snd].
    by rewrite swallow_classes, swallow_students.
  - destruct (approve_dangling env req db r) as [->|[->| ->]]; try done; left; by split.
Qed.

Lemma approve_effects env req db : effects db (snd (approveClassRequest env req db)).
Proof.
  destruct (approve_members env req db) as [H|(r & c & s & _ & Hc & Hs & Hfull & Hc' & Hs')].
  - by apply effects_same.
  - apply effects_one. by apply (effect_enrol _ _ r c s).
Qed.

Lemma changeStatus_members env req db :
  same_members db (snd (changeClassRequestStatus env req db))
  ∨ ∃ r c s,
      find_request db (requestId req) = Some r
      ∧ classes db !! class r = Some c
      ∧ students db !! student r = Some s
      ∧ ((body_status req = Approved
          ∧ is_full r c = false
          ∧ classes (snd (changeClassRequestStatus env req db))
            = classes (enrol_db r c s db)
          ∧ students (snd (changeClassRequestStatus env req db))
            = students (enrol_db r c s db))
         ∨ (body_status req ≠ Approved
            ∧ classes (snd (changeClassRequestStatus env req db))
              = classes (unenrol_db r c s db)
            ∧ students (snd (changeClassRequestStatus env req db))
              = students (unenrol_db r c s db))).
Proof.
  destruct (decide (validationErrors req = [])) as [Hval|Hval];
    [|rewrite changeStatus_invalid by done; left; by split].
  destruct (find_request db (requestId req)) as [r|] eqn:Hfind;
    [|rewrite changeStatus_not_found by done; left; by split].
  destruct (decide (status r = Approved)) as [Hold|Hold],
           (decide (body_status req = Approved)) as [Hnew|Hnew].
  - rewrite (changeStatus_same_side env req db r) by tauto.
    left. split; cbn [snd]; by rewrite ?swallow_classes, ?swallow_students.
  - destruct (resolved_dec_cases db r) as [(c & s & Hc & Hs)|Hdang].
    + rewrite (changeStatus_leave_resolved env req db r c s) by done.
      right. exists r, c, s. cbn [snd]. do 3 (split; [done|]). right.
      by rewrite swallow_classes, swallow_students.
    + rewrite (changeStatus_leave_dangling env req db r) by done.
      left. split; cbn [snd]; by rewrite ?swallow_classes, ?swallow_students.
  - destruct (resolved_dec_cases db r) as [(c & s & Hc & Hs)|Hdang].
    + rewrite (changeStatus_enter_resolved env req db r c s) by done.
      destruct (is_full r c) eqn:Hfull; [left; by split|].
      right. exists r, c, s. cbn [snd]. do 3 (split; [done|]). left.
      by rewrite swallow_classes, swallow_students.
    + destruct (changeStatus_enter_dangling env req db r) as [->| ->]; try done;
        left; by split.
  - rewrite (changeStatus_same_side env req db r) by tauto.
    left. split; cbn [snd]; by rewrite ?swallow_classes, ?swallow_students.
Qed.

Lemma changeStatus_effects env req db :
  effects db (snd (changeClassRequestStatus env req db)).
Proof.
  destruct (changeStatus_members env req db)
    as [H|(r & c & s & _ & Hc & Hs & [(_ & Hfull & Hc' & Hs')|(_ & Hc' & Hs')])].
  - by apply effects_same.
  - apply effects_one. by apply (effect_enrol _ _ r c s).
  - apply effects_one. by apply (effect_unenrol _ _ r c s).
Qed.

Lemma reject_effects env req db : effects db (snd (rejectClassRequest env req db)).
Proof.
  apply effects_same.
  destruct (decide (validationErrors req = [])) as [Hval|Hval];
    [|by rewrite reject_invalid].
  destruct (find_request db (requestId req)) as [r|] eqn:Hfind;
    [|by rewrite reject_not_found].
  destruct (decide (status r = Pending)) as [Hst|Hst];
    [|by rewrite (reject_not_pending env req db r)].
  rewrite (reject_pending env req db r) by done.
  destruct (rejectedNotification (populated db r) (adminNote req)) as [n|]; [|done].
  by destruct (notification_ok env n).
Qed.

Lemma create_effects env req db : effects db (snd (createClassRequest env req db)).
Proof.
  apply effects_same. destruct (create_frame env req db) as (Hc & Hs & _). by split.
Qed.

Lemma delete_effects req db : effects db (snd (deleteClassRequest req db)).
Proof.
  apply effects_same. rewrite delete_cases.
  destruct (student_of_user db (user_id req)) as [[sid s]|]; [|done].
  destruct (find_request db (requestId req)) as [r|]; [|done].
  destruct (negb (id_equals (student r) sid)); [done|].
  by destruct (negb (bool_decide (status r = Pending))).
Qed.

Lemma adminDelete_effects env req db :
  effects db (snd (adminDeleteClassRequest env req db)).
Proof.
  destruct (find_request db (requestId req)) as [r|] eqn:Hfind;
    [|rewrite adminDelete_not_found by done; apply effects_same; by split].
  destruct (decide (resolved db r)) as [[[c Hc] [s Hs]]|Hdang].
  - rewrite (adminDelete_resolved env req db r c s) by done. cbn [snd].
    destruct (bool_decide (status r = Approved)).
    + apply effects_one. apply (effect_unenrol _ _ r c s); try done;
        unfold delete_db, set_requests; cbn [classes students];
        by rewrite ?swallow_classes, ?swallow_students.
    + apply effects_same. split; unfold delete_db, set_requests; cbn [classes students];
        by rewrite ?swallow_classes, ?swallow_students.
  - rewrite (adminDelete_dangling env req db r) by done. cbn [snd].
    apply effects_same. split; unfold delete_db, set_requests; cbn [classes students];
      by rewrite ?swallow_classes, ?swallow_students.
Qed.

Lemma approveOne_effects env req r acc db :
  effects db (snd (approveOne env req r acc db)).
Proof.
  destruct (resolved_dec_cases db r) as [(c & s & Hc & Hs)|Hdang].
  - rewrite (approveOne_resolved env req r acc db c s) by done.
    destruct (is_full r c) eqn:Hfull; [apply effects_same; by split|].
    cbn [snd]. apply effects_one. apply (effect_enrol _ _ r c s); try done;
      unfold bulk_approved_db; by rewrite ?swallow_classes, ?swallow_students.
  - rewrite approveOne_dangling by done. apply effects_same. by split.
Qed.

Lemma approveEach_effects env req l acc db :
  effects db (snd (approveEach env req l acc db)).
Proof.
  revert acc db. induction l as [|r l IH]; intros acc db.
  - apply effects_same. by split.
  - cbn [approveEach]. unfold bind.
    pose proof (approveOne_effects env req r acc db) as H1.
    destruct (approveOne env req r acc db) as [[acc'|] db1]; cbn [snd] in *.
    + etrans; [exact H1|]. apply IH.
    + exact H1.
Qed.

Lemma approveAll_effects env req db :
  effects db (snd (approveAllPendingRequests env req db)).
Proof.
  destruct (decide (validationErrors req = [])) as [Hval|Hval];
    [|rewrite approveAll_invalid by done; apply effects_same; by split].
  rewrite approveAll_unfold by done.
  destruct (pending_requests db) as [|r l]; [apply effects_same; by split|].
  pose proof (approveEach_effects env req (r :: l) bulk0 db) as H.
  by destruct (approveEach env req (r :: l) bulk0 db) as [[acc|] db'].
Qed.

Lemma step_effects db call : effects db (snd (step db call)).
Proof.
  destruct call; cbn [step].
  - apply create_effects.
  - apply approve_effects.
  - apply reject_effects.
  - apply changeStatus_effects.
  - apply approveAll_effects.
  - apply delete_effects.
  - apply adminDelete_effects.
Qed.

Lemma run_effects calls db : effects db (run db calls).
Proof.
  revert db. induction calls as [|call calls IH]; intros db.
  - apply effects_same. by split.
  - cbn [run fold_left]. etrans; [apply (step_effects db call)|]. apply IH.
Qed.

(** ** The capacity bound under the effects *)

Lemma within_capacity_views db cid :
  within_capacity db cid ↔
  ∀ k, class_capacity db cid = Some k → (Z.of_nat (length (class_students db cid)) <= k)%Z.
Proof.
  unfold within_capacity, class_capacity, class_students.
  destruct (classes db !! cid) as [c|]; cbn.
  - assert (length (default [] (enrolledStudents c)) = length_or_0 (enrolledStudents c)) as ->
      by by destruct (enrolledStudents c).
    split; [intros H k [= <-]; by apply H|intros H c' [= <-]; by apply H].
  - split; intros H ?; done.
Qed.

Lemma class_views_ext db1 db2 cid :
  classes db1 = classes db2 →
  class_students db1 cid = class_students db2 cid
  ∧ class_capacity db1 cid = class_capacity db2 cid.
Proof. unfold class_students, class_capacity. by intros ->. Qed.

Lemma student_views_ext db1 db2 sid :
  students db1 = students db2 → student_classes db1 sid = student_classes db2 sid.
Proof. unfold student_classes. by intros ->. Qed.

Lemma is_full_false_room r c :
  is_full r c = false →
  student r ∈ default [] (enrolledStudents c)
  ∨ (Z.of_nat (length (default [] (enrolledStudents c))) < capacity c)%Z.
Proof.
  unfold is_full. case_bool_decide as Hin; [by left|]. cbn [negb andb].
  intros Hlt%Z.leb_gt. right.
  by destruct (enrolledStudents c).
Qed.

Lemma effect_capacity db db' cid :
  effect db db' ∨ same_members db db' →
  class_capacity db' cid = class_capacity db cid
  ∧ (within_capacity db cid → within_capacity db' cid).
Proof.
  intros [Heff|[Hc _]].
  - destruct Heff as [r c s Hc Hs Hfull Hc' _|r c s Hc Hs Hc' _].
    + destruct (class_views_ext db' (enrol_db r c s db) cid Hc') as [Hst Hcap].
      rewrite !within_capacity_views, Hst, Hcap.
      rewrite class_capacity_enrol, class_students_enrol by done.
      split; [done|]. intros Hin k Hk. specialize (Hin k Hk).
      case_decide as Hcid; [|done]. subst cid.
      unfold add_if_absent, push. case_bool_decide as Hmem; [done|].
      rewrite length_app. cbn [length].
      destruct (is_full_false_room r c Hfull) as [Hin'|Hroom].
      * exfalso. apply Hmem. unfold class_students. by rewrite Hc.
      * unfold class_capacity in Hk. rewrite Hc in Hk. injection Hk as <-.
        unfold class_students. rewrite Hc. lia.
    + destruct (class_views_ext db' (unenrol_db r c s db) cid Hc') as [Hst Hcap].
      rewrite !within_capacity_views, Hst, Hcap.
      rewrite class_capacity_unenrol, class_students_unenrol by done.
      split; [done|]. intros Hin k Hk. specialize (Hin k Hk).
      case_decide; [|done].
      pose proof (length_remove_id (student r) (class_students db cid)). lia.
  - destruct (class_views_ext db' db cid Hc) as [Hst Hcap].
    rewrite !within_capacity_views, Hst, Hcap. done.
Qed.

Lemma effects_capacity db db' cid :
  effects db db' →
  class_capacity db' cid = class_capacity db cid
  ∧ (within_capacity db cid → within_capacity db' cid).
Proof.
  induction 1 as [db|db db1 db2 H1 _ IH]; [done|].
  destruct (effect_capacity db db1 cid H1) as [Hcap Hin].
  destruct IH as [Hcap' Hin']. split; [congruence|tauto].
Qed.

(** ** Occurrence counts under the effects *)

Lemma effect_counts db db' :
  effect db db' ∨ same_members db db' →
  (∀ cid x, occurrences x (class_students db' cid)
            <= Nat.max 1 (occurrences x (class_students db cid)))
  ∧ (∀ sid x, occurrences x (student_classes db' sid)
              <= Nat.max 1 (occurrences x (student_classes db sid))).
Proof.
  intros [Heff|[Hc Hs]].
  - destruct Heff as [r c s Hc Hs Hfull Hc' Hs'|r c s Hc Hs Hc' Hs']; split.
    + intros cid x. destruct (class_views_ext db' _ cid Hc') as [-> _].
      rewrite class_students_enrol by done. case_decide; [|lia].
      rewrite count_occ_add_if_absent. case_decide; lia.
    + intros sid x. rewrite (student_views_ext db' _ sid Hs').
      rewrite student_classes_enrol by done. case_decide; [|lia].
      rewrite count_occ_add_if_absent. case_decide; lia.
    + intros cid x. destruct (class_views_ext db' _ cid Hc') as [-> _].
      rewrite class_students_unenrol by done. case_decide; [|lia].
      rewrite count_occ_remove_id. case_decide; lia.
    + intros sid x. rewrite (student_views_ext db' _ sid Hs').
      rewrite student_classes_unenrol by done. case_decide; [|lia].
      rewrite count_occ_remove_id. case_decide; lia.
  - split.
    + intros cid x. destruct (class_views_ext db' db cid Hc) as [-> _]. lia.
    + intros sid x. rewrite (student_views_ext db' db sid Hs). lia.
Qed.

Lemma effects_counts db db' :
  effects db db' →
  (∀ cid x, occurrences x (class_students db' cid)
            <= Nat.max 1 (occurrences x (class_students db cid)))
  ∧ (∀ sid x, occurrences x (student_classes db' sid)
              <= Nat.max 1 (occurrences x (student_classes db sid))).
Proof.
  induction 1 as [db|db db1 db2 H1 _ [IHc IHs]]; [split; intros; lia|].
  destruct (effect_counts db db1 H1) as [Hc Hs]. split.
  - intros cid x. specialize (IHc cid x). specialize (Hc cid x). lia.
  - intros sid x. specialize (IHs sid x). specialize (Hs sid x). lia.
Qed.

Lemma add_if_absent_present i arr : i ∈ arr → add_if_absent i arr = arr.
Proof. intros H. unfold add_if_absent. by rewrite bool_decide_eq_true_2. Qed.

(** ** Finding a request again after a transition *)

Lemma find_request_id db rid r : find_request db rid = Some r → r_id r = rid.
Proof.
  unfold find_request. intros H. apply find_some in H as [_ H]. by apply Nat.eqb_eq.
Qed.

Lemma find_replace_request r r' rid l :
  List.find (fun d => Nat.eqb (r_id d) rid) l = Some r →
  r_id r' = rid →
  List.find (fun d => Nat.eqb (r_id d) rid) (replace_request r' l) = Some r'.
Proof.
  intros Hfind Hid. subst rid. induction l as [|d l IH]; [done|].
  cbn [replace_request List.map List.find] in *.
  destruct (Nat.eqb (r_id d) (r_id r')) eqn:E.
  - by rewrite Nat.eqb_refl.
  - rewrite E. by apply IH.
Qed.

Lemma find_request_committed env payload r r' db0 db :
  requests db = replace_request r' (requests db0) →
  find_request db0 (r_id r') = Some r →
  find_request (after (swallow env payload) db) (r_id r') = Some r'.
Proof.
  intros Hreq Hfind. unfold find_request in *. rewrite swallow_requests, Hreq.
  by apply (find_replace_request r).
Qed.

Lemma approve_success env req db r :
  find_request db (requestId req) = Some r →
  status r = Pending →
  code (fst (approveClassRequest env req db)) = 200 →
  ∃ c s,
    classes db !! class r = Some c ∧ students db !! student r = Some s
    ∧ is_full r c = false
    ∧ snd (approveClassRequest env req db)
      = after (swallow env (approvedNotification (populated db r) (adminNote req)))
          (enrol_db r c s (save_db (approved_doc env req r) db)).
Proof.
  intros Hfind Hst.
  destruct (decide (validationErrors req = [])) as [Hval|Hval];
    [|by rewrite approve_invalid].
  destruct (resolved_dec_cases db r) as [(c & s & Hc & Hs)|Hdang].
  - rewrite (approve_resolved env req db r c s) by done.
    destruct (is_full r c) eqn:Hfull; [done|]. intros _. by exists c, s.
  - by destruct (approve_dangling env req db r) as [->|[->| ->]].
Qed.

Lemma changeStatus_success_valid env req db :
  code (fst (changeClassRequestStatus env req db)) = 200 → validationErrors req = [].
Proof.
  destruct (decide (validationErrors req = [])) as [Hval|Hval]; [done|].
  by rewrite changeStatus_invalid.
Qed.

Lemma lookup_class_enrol r c s db cid :
  classes db !! class r = Some c →
  is_Some (classes db !! cid) → is_Some (classes (enrol_db r c s db) !! cid).
Proof.
  intros Hc [c0 H]. pose proof (class_capacity_enrol r c s db cid Hc) as Hcap.
  unfold class_capacity in Hcap. rewrite H in Hcap.
  destruct (classes (enrol_db r c s db) !! cid); [by eexists|done].
Qed.

Lemma lookup_class_unenrol r c s db cid :
  classes db !! class r = Some c →
  is_Some (classes db !! cid) → is_Some (classes (unenrol_db r c s db) !! cid).
Proof.
  intros Hc [c0 H]. pose proof (class_capacity_unenrol r c s db cid Hc) as Hcap.
  unfold class_capacity in Hcap. rewrite H in Hcap.
  destruct (classes (unenrol_db r c s db) !! cid); [by eexists|done].
Qed.

(** ** The bulk loop against the spec's sequential reading *)



(** *** One approval of the loop, seen through the views *)

Lemma bulk_approved_requests env req r c s db :
  requests (bulk_approved_db env req r c s db)
  = replace_request (bulk_doc env req r) (requests db).
Proof. unfold bulk_approved_db. by rewrite swallow_requests. Qed.




Lemma bulk_approved_resolved env req r c s db r' :
  classes db !! class r = Some c → students db !! student r = Some s →
  resolved db r' → resolved (bulk_approved_db env req r c s db) r'.
Proof.
  intros Hc Hs [Hc' Hs']. unfold resolved, bulk_approved_db.
  rewrite swallow_classes, swallow_students. split.
  - by apply lookup_class_enrol.
  - by apply (students_dom_enrol r c s).
Qed.

Lemma elem_of_replace_request r' d l :
  d ∈ replace_request r' l →
  (d = r' ∧ ∃ d0, d0 ∈ l ∧ r_id d0 = r_id r') ∨ (d ∈ l ∧ r_id d ≠ r_id r').
Proof.
  unfold replace_request. rewrite list_elem_of_In, in_map_iff.
  intros (d0 & Hd & Hin%list_elem_of_In).
  destruct (Nat.eqb_spec (r_id d0) (r_id r')) as [E|E]; subst d.
  - left. split; [done|]. by exists d0.
  - right. by split.
Qed.








(** ** Approved requests and their memberships *)

Lemma linked_ext db1 db2 r :
  classes db1 = classes db2 → students db1 = students db2 →
  linked db1 r ↔ linked db2 r.
Proof.
  intros Hc Hs. unfold linked.
  destruct (class_views_ext db1 db2 (class r) Hc) as [-> _].
  by rewrite (student_views_ext db1 db2 (student r) Hs).
Qed.

Lemma linked_enrol r c s db r0 :
  classes db !! class r = Some c → students db !! student r = Some s →
  linked db r0 → linked (enrol_db r c s db) r0.
Proof.
  intros Hc Hs [H1 H2]. unfold linked.
  rewrite class_students_enrol, student_classes_enrol by done. split.
  - case_decide; [|done]. apply elem_of_add_if_absent. by right.
  - case_decide; [|done]. apply elem_of_add_if_absent. by right.
Qed.

Lemma linked_enrol_self r c s db r0 :
  classes db !! class r = Some c → students db !! student r = Some s →
  student r0 = student r → class r0 = class r →
  linked (enrol_db r c s db) r0.
Proof.
  intros Hc Hs Es Ec. unfold linked. rewrite Es, Ec.
  rewrite class_students_enrol, student_classes_enrol by done.
  rewrite !decide_True by done. split; apply elem_of_add_if_absent; by left.
Qed.

Lemma linked_unenrol r c s db r0 :
  classes db !! class r = Some c → students db !! student r = Some s →
  ¬ (student r0 = student r ∧ class r0 = class r) →
  linked db r0 → linked (unenrol_db r c s db) r0.
Proof.
  intros Hc Hs Hne [H1 H2]. unfold linked.
  rewrite class_students_unenrol, student_classes_unenrol by done. split.
  - case_decide as Ec; [|done]. apply elem_of_remove_id. split; [done|]. tauto.
  - case_decide as Es; [|done]. apply elem_of_remove_id. split; [done|]. tauto.
Qed.

Lemma unlinked_unenrol r c s db :
  classes db !! class r = Some c → students db !! student r = Some s →
  (student r ∉ class_students (unenrol_db r c s db) (class r))
  ∧ class r ∉ student_classes (unenrol_db r c s db) (student r).
Proof.
  intros Hc Hs.
  rewrite class_students_unenrol, student_classes_unenrol by done.
  rewrite !decide_True by done. rewrite !elem_of_remove_id. tauto.
Qed.

Lemma find_request_elem db rid r : find_request db rid = Some r → r ∈ requests db.
Proof.
  unfold find_request. intros H. apply find_some in H as [H _]. by apply list_elem_of_In.
Qed.

Lemma elem_of_delete_db d rid db :
  d ∈ requests (delete_db rid db) → d ∈ requests db ∧ r_id d ≠ rid.
Proof.
  unfold delete_db, set_requests. cbn [requests].
  rewrite list_elem_of_In, filter_In, <- list_elem_of_In.
  intros [Hin Hne]. split; [done|].
  destruct (Nat.eqb_spec (r_id d) rid); [done|done].
Qed.

(** The shape shared by every successful transition: the request is
    replaced by a document for the same pair, and the memberships are
    those of [mid]. *)
Lemma approved_linked_commit env payload r r' mid db :
  r ∈ requests db →
  requests mid = requests db →
  r_id r' = r_id r → student r' = student r → class r' = class r →
  (status r' = Approved → linked mid r') →
  (∀ d, d ∈ requests db → r_id d ≠ r_id r → status d = Approved → linked mid d) →
  approved_linked (after (swallow env payload) (save_db r' mid)).
Proof.
  intros Hr Hreq Hid Es Ec Hself Hothers d.
  rewrite swallow_requests. unfold save_db, set_requests. cbn [requests].
  rewrite Hreq.
  intros [[-> _]|[Hin Hne]]%elem_of_replace_request Hst.
  - apply (linked_ext _ mid); [by rewrite swallow_classes|by rewrite swallow_students|].
    by apply Hself.
  - apply (linked_ext _ mid); [by rewrite swallow_classes|by rewrite swallow_students|].
    apply Hothers; [done| |done]. by rewrite <- Hid.
Qed.

Lemma enrol_save_commute r c s r' db :
  enrol_db r c s (save_db r' db) = save_db r' (enrol_db r c s db).
Proof. reflexivity. Qed.

Lemma approve_keeps_linked env req db :
  all_resolved db → approved_linked db →
  approved_linked (snd (approveClassRequest env req db)).
Proof.
  intros Hres Hinv.
  destruct (decide (validationErrors req = [])) as [Hval|Hval];
    [|by rewrite approve_invalid].
  destruct (find_request db (requestId req)) as [r|] eqn:Hfind;
    [|by rewrite approve_not_found].
  destruct (decide (status r = Pending)) as [Hst|Hst];
    [|by rewrite (approve_not_pending env req db r)].
  pose proof (find_request_elem _ _ _ Hfind) as Hin.
  destruct (Hres r Hin) as [[c Hc] [s Hs]].
  rewrite (approve_resolved env req db r c s) by done.
  destruct (is_full r c); [done|]. cbn [snd]. rewrite enrol_save_commute.
  apply (approved_linked_commit _ _ r _ _ db); try done.
  - intros _. by apply linked_enrol_self.
  - intros d Hd _ Hsd. apply linked_enrol; [done..|]. by apply Hinv.
Qed.

Lemma reject_keeps_linked env req db :
  approved_linked db → approved_linked (snd (rejectClassRequest env req db)).
Proof.
  intros Hinv.
  destruct (decide (validationErrors req = [])) as [Hval|Hval];
    [|by rewrite reject_invalid].
  destruct (find_request db (requestId req)) as [r|] eqn:Hfind;
    [|by rewrite reject_not_found].
  destruct (decide (status r = Pending)) as [Hst|Hst];
    [|by rewrite (reject_not_pending env req db r)].
  rewrite (reject_pending env req db r) by done.
  assert (approved_linked (save_db (rejected_doc env req r) db)) as Hsaved.
  { intros d. unfold save_db, set_requests. cbn [requests].
    intros [[-> _]|[Hd Hne]]%elem_of_replace_request Hsd; [done|].
    apply (linked_ext _ db); [done..|]. by apply Hinv. }
  destruct (rejectedNotification (populated db r) (adminNote req)) as [n|]; [|done].
  by destruct (notification_ok env n).
Qed.

Lemma changeStatus_keeps_linked env req db :
  all_resolved db → unique_approved_pairs db → approved_linked db →
  approved_linked (snd (changeClassRequestStatus env req db)).
Proof.
  intros Hres Huniq Hinv.
  destruct (decide (validationErrors req = [])) as [Hval|Hval];
    [|by rewrite changeStatus_invalid].
  destruct (find_request db (requestId req)) as [r|] eqn:Hfind;
    [|by rewrite changeStatus_not_found].
  pose proof (find_request_elem _ _ _ Hfind) as Hin.
  destruct (Hres r Hin) as [[c Hc] [s Hs]].
  destruct (decide (status r = Approved)) as [Hold|Hold],
           (decide (body_status req = Approved)) as [Hnew|Hnew].
  - rewrite (changeStatus_same_side env req db r) by tauto. cbn [snd].
    apply (approved_linked_commit _ _ r _ _ db); try done.
    + intros _. by apply (Hinv r).
    + intros d Hd _ Hsd. by apply Hinv.
  - rewrite (changeStatus_leave_resolved env req db r c s) by done. cbn [snd].
    apply (approved_linked_commit _ _ r _ _ db); try done.
    intros d Hd Hne Hsd. apply linked_unenrol; [done..| |by apply Hinv].
    intros [Es Ec]. apply Hne. by apply Huniq.
  - rewrite (changeStatus_enter_resolved env req db r c s) by done.
    destruct (is_full r c); [done|]. cbn [snd].
    apply (approved_linked_commit _ _ r _ _ db); try done.
    + intros _. by apply linked_enrol_self.
    + intros d Hd _ Hsd. apply linked_enrol; [done..|]. by apply Hinv.
  - rewrite (changeStatus_same_side env req db r) by tauto. cbn [snd].
    apply (approved_linked_commit _ _ r _ _ db); try done.
    intros d Hd _ Hsd. by apply Hinv.
Qed.

Lemma delete_keeps_linked req db :
  approved_linked db → approved_linked (snd (deleteClassRequest req db)).
Proof.
  intros Hinv. rewrite delete_cases.
  destruct (student_of_user db (user_id req)) as [[sid s]|]; [|done].
  destruct (find_request db (requestId req)) as [r|]; [|done].
  destruct (negb (id_equals (student r) sid)); [done|].
  destruct (negb (bool_decide (status r = Pending))); [done|]. cbn [snd].
  intros d [Hd _]%elem_of_delete_db Hsd.
  apply (linked_ext _ db); [done..|]. by apply Hinv.
Qed.

Lemma adminDelete_keeps_linked env req db :
  all_resolved db → unique_approved_pairs db → approved_linked db →
  approved_linked (snd (adminDeleteClassRequest env req db)).
Proof.
  intros Hres Huniq Hinv.
  destruct (find_request db (requestId req)) as [r|] eqn:Hfind;
    [|by rewrite adminDelete_not_found].
  pose proof (find_request_elem _ _ _ Hfind) as Hin.
  pose proof (find_request_id _ _ _ Hfind) as Hid.
  destruct (Hres r Hin) as [[c Hc] [s Hs]].
  rewrite (adminDelete_resolved env req db r c s) by done. cbn [snd].
  intros d [Hd Hne]%elem_of_delete_db Hsd.
  rewrite swallow_requests in Hd.
  case_bool_decide as Hold.
  - apply (linked_ext _ (unenrol_db r c s db));
      [unfold delete_db, set_requests; cbn [classes]; by rewrite swallow_classes
      |unfold delete_db, set_requests; cbn [students]; by rewrite swallow_students|].
    apply linked_unenrol; [done..| |by apply Hinv].
    intros [Es Ec]. apply Hne. rewrite <- Hid. by apply Huniq.
  - apply (linked_ext _ db);
      [unfold delete_db, set_requests; cbn [classes]; by rewrite swallow_classes
      |unfold delete_db, set_requests; cbn [students]; by rewrite swallow_students|].
    by apply Hinv.
Qed.

Lemma create_keeps_linked env req db :
  approved_linked db → approved_linked (snd (createClassRequest env req db)).
Proof.
  intros Hinv. destruct (create_frame env req db) as (Hc & Hs & [Hr|(r & Hst & Hr)]);
    intros d; rewrite Hr.
  - intros Hd Hsd. apply (linked_ext _ db); [done..|]. by apply Hinv.
  - rewrite elem_of_app, list_elem_of_singleton. intros [Hd| ->] Hsd.
    + apply (linked_ext _ db); [done..|]. by apply Hinv.
    + congruence.
Qed.

Lemma approveOne_keeps_linked env req r acc db :
  resolved db r → approved_linked db →
  approved_linked (snd (approveOne env req r acc db)).
Proof.
  intros [[c Hc] [s Hs]] Hinv.
  rewrite (approveOne_resolved env req r acc db c s) by done.
  destruct (is_full r c); [done|]. cbn [snd]. unfold bulk_approved_db.
  intros d. rewrite swallow_requests. unfold save_db, set_requests. cbn [requests].
  intros [[-> _]|[Hd Hne]]%elem_of_replace_request Hsd.
  - apply (linked_ext _ (enrol_db r c s db));
      [by rewrite swallow_classes|by rewrite swallow_students|].
    by apply linked_enrol_self.
  - apply (linked_ext _ (enrol_db r c s db));
      [by rewrite swallow_classes|by rewrite swallow_students|].
    apply linked_enrol; [done..|]. by apply Hinv.
Qed.

Lemma approveEach_keeps_linked env req l :
  ∀ acc db, Forall (resolved db) l → approved_linked db →
  approved_linked (snd (approveEach env req l acc db)).
Proof.
  induction l as [|r l IH]; intros acc db Hres Hinv; [done|].
  apply Forall_cons in Hres as [Hr Hres].
  cbn [approveEach]. unfold bind.
  pose proof (approveOne_keeps_linked env req r acc db Hr Hinv) as H1.
  destruct Hr as [[c Hc] [s Hs]].
  rewrite (approveOne_resolved env req r acc db c s) in H1 |- * by done.
  destruct (is_full r c); cbn [snd] in H1.
  - by apply IH.
  - apply IH; [|done].
    eapply Forall_impl; [exact Hres|]. intros r'. by apply bulk_approved_resolved.
Qed.

Lemma approveAll_keeps_linked env req db :
  all_resolved db → approved_linked db →
  approved_linked (snd (approveAllPendingRequests env req db)).
Proof.
  intros Hres Hinv.
  destruct (decide (validationErrors req = [])) as [Hval|Hval];
    [|by rewrite approveAll_invalid].
  rewrite approveAll_unfold by done.
  assert (Forall (resolved db) (pending_requests db)) as Hp.
  { apply Forall_forall. intros r Hr. apply Hres. unfold pending_requests in Hr.
    apply list_elem_of_In, filter_In in Hr as [Hr _]. by apply list_elem_of_In. }
  pose proof (approveEach_keeps_linked env req (pending_requests db) bulk0 db Hp Hinv) as H.
  destruct (pending_requests db) as [|r l]; [done|].
  by destruct (approveEach env req (r :: l) bulk0 db) as [[acc|] db'].
Qed.

(** * The claims *)

(** ** C1 *)

Lemma within_capacity_db1 : within_capacity db1 20.
Proof.
  intros c Hc. vm_compute in Hc. injection Hc as <-. vm_compute. discriminate.
Qed.

(** C1. Take any database and any class of it whose enrolledStudents list
    is no longer than its capacity.  After any sequence of coordinator
    calls - approve and changeStatus into Approved among them - the class
    has the same capacity K and its enrolledStudents list still has at most
    K entries.  The two operations that add a member refuse to do so with
    400 "Class is at full capacity" and change nothing when the student is
    not yet a member and the enrolled count has reached the capacity. *)
Theorem capacity_invariant (calls : list Call) (db : DB) (cid : ObjectId) :
  within_capacity db cid →
  within_capacity (run db calls) cid
  ∧ class_capacity (run db calls) cid = class_capacity db cid
  ∧ ∀ env req r c s,
      validationErrors req = [] →
      find_request db (requestId req) = Some r →
      classes db !! class r = Some c →
      students db !! student r = Some s →
      student r ∉ default [] (enrolledStudents c) →
      (capacity c <= Z.of_nat (length_or_0 (enrolledStudents c)))%Z →
      (status r = Pending →
       approveClassRequest env req db = (capacity_response, db))
      ∧ (status r ≠ Approved → body_status req = Approved →
         changeClassRequestStatus env req db = (capacity_response, db)).
Proof.
  intros Hin. destruct (effects_capacity db (run db calls) cid (run_effects calls db))
    as [Hcap Hpres].
  split; [by apply Hpres|]. split; [done|].
  intros env req r c s Hval Hfind Hc Hs Hni Hfull.
  assert (is_full r c = true) as Hf.
  { unfold is_full. rewrite (bool_decide_eq_false_2 _ Hni).
    apply Z.leb_le in Hfull. by rewrite Hfull. }
  split.
  - intros Hst. by rewrite (approve_resolved env req db r c s), Hf.
  - intros Hold Hnew. by rewrite (changeStatus_enter_resolved env req db r c s), Hf.
Qed.

Lemma capacity_invariant_witness :
  within_capacity (run db1 calls1) 20
  ∧ class_capacity (run db1 calls1) 20 = Some 1%Z
  ∧ approveClassRequest env_ok (admin_req 2 Approved) db1 = (capacity_response, db1)
  ∧ changeClassRequestStatus env_ok (admin_req 2 Approved) db1 = (capacity_response, db1).
Proof.
  destruct (capacity_invariant calls1 db1 20 within_capacity_db1) as (Hin & Hcap & Hrefuse).
  split; [exact Hin|]. split; [exact Hcap|].
  assert (student (pending_request 2 12 20)
          ∉ default [] (enrolledStudents (set_enrolledStudents grade9 [11]))) as Hni.
  { vm_compute. intros H. apply list_elem_of_In in H. simpl in H. intuition lia. }
  destruct (Hrefuse env_ok (admin_req 2 Approved) (pending_request 2 12 20)
              (set_enrolledStudents grade9 [11]) nimal
              eq_refl eq_refl eq_refl eq_refl Hni) as [Happ Hch].
  { vm_compute. discriminate. }
  split; [by apply Happ|]. apply Hch; [discriminate|reflexivity].
Defined.

(** ** C2 *)

Lemma approved_linked_db3 : approved_linked db3.
Proof.
  intros r Hin Hst. list_cases Hin; try (vm_compute in Hst; discriminate Hst);
    split; vm_compute; apply list_elem_of_In; simpl; auto.
Qed.

(** C2, as stated, fails.  Student 11 is rejected on request 1, applies
    again (request 3) and is approved; request 1 is then moved to Approved
    as well and back to Rejected.  That last call removes the membership,
    and request 3 is left Approved without it. *)
Lemma approved_request_loses_membership :
  approved_linked db3
  ∧ ∃ r, r ∈ requests db4 ∧ r_id r = 3 ∧ status r = Approved
         ∧ (student r ∉ class_students db4 (class r))
         ∧ (class r ∉ student_classes db4 (student r))
         ∧ ¬ approved_linked db4.
Proof.
  split; [exact approved_linked_db3|].
  assert (∃ r, r ∈ requests db4 ∧ r_id r = 3 ∧ status r = Approved
               ∧ (student r ∉ class_students db4 (class r))
               ∧ class r ∉ student_classes db4 (student r)) as (r & Hin & Hid & Hst & H1 & H2).
  { eexists. split; [|split; [|split; [|split]]].
    - apply list_elem_of_In. vm_compute. right. right. left. reflexivity.
    - reflexivity.
    - reflexivity.
    - vm_compute. intros H. apply list_elem_of_In in H. destruct H.
    - vm_compute. intros H. apply list_elem_of_In in H. destruct H. }
  exists r. repeat (split; [done|]).
  intros Hinv. by destruct (Hinv r Hin Hst).
Qed.

(** C2, amended.  Take a database whose requests all resolve.  When no two
    of its Approved requests are for the same (student, class) pair -
    requests of other statuses may share a pair with an Approved one -
    every coordinator call keeps the relation "each Approved request has
    its student in the class's enrolledStudents and its class in the
    student's enrolledClasses".  And, with no condition on pairs, a
    changeStatus that moves a request away from Approved leaves the student
    absent from the class's list and the class absent from the student's
    list. *)
Theorem approved_linked_preserved (call : Call) (db : DB) :
  all_resolved db →
  (unique_approved_pairs db → approved_linked db → approved_linked (snd (step db call)))
  ∧ ∀ env req r,
      call = ChangeStatus env req →
      validationErrors req = [] →
      find_request db (requestId req) = Some r →
      status r = Approved → body_status req ≠ Approved →
      (student r ∉ class_students (snd (step db call)) (class r))
      ∧ class r ∉ student_classes (snd (step db call)) (student r).
Proof.
  intros Hres. split.
  - intros Huniq Hinv. destruct call; cbn [step].
    + by apply create_keeps_linked.
    + by apply approve_keeps_linked.
    + by apply reject_keeps_linked.
    + by apply changeStatus_keeps_linked.
    + by apply approveAll_keeps_linked.
    + by apply delete_keeps_linked.
    + by apply adminDelete_keeps_linked.
  - intros env req r -> Hval Hfind Hold Hnew. cbn [step].
    destruct (Hres r (find_request_elem _ _ _ Hfind)) as [[c Hc] [s Hs]].
    rewrite (changeStatus_leave_resolved env req db r c s) by done. cbn [snd].
    destruct (unlinked_unenrol r c s db Hc Hs) as [H1 H2].
    set (db' := after _ _).
    destruct (class_views_ext db' (unenrol_db r c s db) (class r)) as [-> _];
      [subst db'; by rewrite swallow_classes|].
    rewrite (student_views_ext db' (unenrol_db r c s db) (student r));
      [|subst db'; by rewrite swallow_students].
    done.
Qed.

(** In [db2] requests 1 and 3 are for the same pair; only request 3 is
    Approved. *)
Lemma all_resolved_db2 : all_resolved db2.
Proof. intros r Hin. list_cases Hin; split; vm_compute; by eexists. Qed.

Lemma unique_approved_pairs_db2 : unique_approved_pairs db2.
Proof.
  intros r1 r2 H1 H2 S1 S2.
  list_cases H1; try (vm_compute in S1; discriminate S1);
    list_cases H2; try (vm_compute in S2; discriminate S2); reflexivity.
Qed.

Lemma shared_pair_db2 :
  ∃ r1 r2, r1 ∈ requests db2 ∧ r2 ∈ requests db2
           ∧ student r1 = student r2 ∧ class r1 = class r2 ∧ r_id r1 ≠ r_id r2.
Proof.
  exists request1_again, approved3. split; [|split].
  - apply list_elem_of_In. vm_compute. left. reflexivity.
  - apply list_elem_of_In. vm_compute. right. right. left. reflexivity.
  - split; [reflexivity|]. split; [reflexivity|]. vm_compute. lia.
Qed.

Lemma approved_linked_db2 : approved_linked db2.
Proof.
  intros r Hin Hst. list_cases Hin; try (vm_compute in Hst; discriminate Hst);
    split; vm_compute; apply list_elem_of_In; simpl; auto.
Qed.

Lemma approved_linked_preserved_witness :
  approved_linked (snd (step db2 (ChangeStatus env_ok (admin_req 3 Rejected))))
  ∧ (11 ∉ (class_students (snd (step db2 (ChangeStatus env_ok (admin_req 3 Rejected)))) 20))
  ∧ 20 ∉ (student_classes (snd (step db2 (ChangeStatus env_ok (admin_req 3 Rejected)))) 11).
Proof.
  destruct (approved_linked_preserved (ChangeStatus env_ok (admin_req 3 Rejected)) db2
              all_resolved_db2) as [Hkeep Hleave].
  split; [exact (Hkeep unique_approved_pairs_db2 approved_linked_db2)|].
  apply (Hleave env_ok (admin_req 3 Rejected) approved3).
  - reflexivity.
  - reflexivity.
  - vm_compute. reflexivity.
  - reflexivity.
  - discriminate.
Defined.

(** ** C3 *)




(** ** C4 *)

(** C4. No coordinator call ever inserts a duplicate: after any sequence of
    calls, an id occurs in a class's enrolledStudents (and in a student's
    enrolledClasses) at most once, or at most as often as it did before.
    In particular approve and changeStatus into Approved on a request whose
    student is already in the class's list return that list unchanged, and
    likewise the student's list when the class is already in it. *)
Theorem membership_add_idempotent (env : Env) (req : Req) (db : DB) (r : ClassRequest) :
  find_request db (requestId req) = Some r →
  (∀ calls cid x,
     occurrences x (class_students (run db calls) cid)
     <= Nat.max 1 (occurrences x (class_students db cid)))
  ∧ (∀ calls sid x,
       occurrences x (student_classes (run db calls) sid)
       <= Nat.max 1 (occurrences x (student_classes db sid)))
  ∧ (student r ∈ class_students db (class r) →
     class_students (snd (approveClassRequest env req db)) (class r)
     = class_students db (class r)
     ∧ (body_status req = Approved →
        class_students (snd (changeClassRequestStatus env req db)) (class r)
        = class_students db (class r)))
  ∧ (class r ∈ student_classes db (student r) →
     student_classes (snd (approveClassRequest env req db)) (student r)
     = student_classes db (student r)
     ∧ (body_status req = Approved →
        student_classes (snd (changeClassRequestStatus env req db)) (student r)
        = student_classes db (student r))).
Proof.
  intros Hfind. split; [|split; [|split]].
  - intros calls. apply (effects_counts db (run db calls) (run_effects calls db)).
  - intros calls. apply (effects_counts db (run db calls) (run_effects calls db)).
  - intros Hin. split.
    + destruct (approve_members env req db)
        as [[Hc _]|(r' & c & s & Hfind' & Hc & Hs & _ & Hc' & _)].
      * by destruct (class_views_ext _ db (class r) Hc) as [-> _].
      * assert (r' = r) as -> by congruence.
        destruct (class_views_ext _ _ (class r) Hc') as [-> _].
        rewrite class_students_enrol, decide_True by done.
        by apply add_if_absent_present.
    + intros Hnew. destruct (changeStatus_members env req db)
        as [[Hc _]|(r' & c & s & Hfind' & Hc & Hs & [(_ & _ & Hc' & _)|(Hne & _)])].
      * by destruct (class_views_ext _ db (class r) Hc) as [-> _].
      * assert (r' = r) as -> by congruence.
        destruct (class_views_ext _ _ (class r) Hc') as [-> _].
        rewrite class_students_enrol, decide_True by done.
        by apply add_if_absent_present.
      * done.
  - intros Hin. split.
    + destruct (approve_members env req db)
        as [[_ Hs]|(r' & c & s & Hfind' & Hc & Hs & _ & _ & Hs')].
      * by rewrite (student_views_ext _ db (student r) Hs).
      * assert (r' = r) as -> by congruence.
        rewrite (student_views_ext _ _ (student r) Hs').
        rewrite student_classes_enrol, decide_True by done.
        by apply add_if_absent_present.
    + intros Hnew. destruct (changeStatus_members env req db)
        as [[_ Hs]|(r' & c & s & Hfind' & Hc & Hs & [(_ & _ & _ & Hs')|(Hne & _)])].
      * by rewrite (student_views_ext _ db (student r) Hs).
      * assert (r' = r) as -> by congruence.
        rewrite (student_views_ext _ _ (student r) Hs').
        rewrite student_classes_enrol, decide_True by done.
        by apply add_if_absent_present.
      * done.
Qed.

Lemma membership_add_idempotent_witness :
  (∀ calls cid x,
     occurrences x (class_students (run db2 calls) cid)
     <= Nat.max 1 (occurrences x (class_students db2 cid)))
  ∧ (∀ calls sid x,
       occurrences x (student_classes (run db2 calls) sid)
       <= Nat.max 1 (occurrences x (student_classes db2 sid)))
  ∧ (class_students (snd (approveClassRequest env_ok (admin_req 1 Approved) db2)) 20 = [11]
     ∧ class_students (snd (changeClassRequestStatus env_ok (admin_req 1 Approved) db2)) 20
       = [11])
  ∧ (student_classes (snd (approveClassRequest env_ok (admin_req 1 Approved) db2)) 11 = [20]
     ∧ student_classes (snd (changeClassRequestStatus env_ok (admin_req 1 Approved) db2)) 11
       = [20]).
Proof.
  assert (find_request db2 (requestId (admin_req 1 Approved)) = Some request1_again)
    as Hfind by (vm_compute; reflexivity).
  destruct (membership_add_idempotent env_ok (admin_req 1 Approved) db2 request1_again Hfind)
    as (Hc & Hs & Hclass & Hstudent).
  split; [exact Hc|]. split; [exact Hs|]. split.
  - destruct Hclass as [Ha Hch].
    { vm_compute. apply list_elem_of_In. simpl. lia. }
    split; [exact Ha|]. apply Hch. reflexivity.
  - destruct Hstudent as [Ha Hch].
    { vm_compute. apply list_elem_of_In. simpl. lia. }
    split; [exact Ha|]. apply Hch. reflexivity.
Defined.

(** ** C5 *)

(** C5. Take a Pending request and run approve, then changeStatus to
    Rejected, then changeStatus to Approved on it, each call answering 200.
    Afterwards the student occurs exactly once in the class's
    enrolledStudents, the class occurs exactly once in the student's
    enrolledClasses, and the request is Approved. *)
Theorem approve_reject_reapprove (env1 env2 env3 : Env) (req1 req2 req3 : Req)
    (db : DB) (r : ClassRequest) :
  find_request db (requestId req1) = Some r →
  status r = Pending →
  requestId req2 = requestId req1 → body_status req2 = Rejected →
  requestId req3 = requestId req1 → body_status req3 = Approved →
  let out1 := approveClassRequest env1 req1 db in
  let out2 := changeClassRequestStatus env2 req2 (snd out1) in
  let out3 := changeClassRequestStatus env3 req3 (snd out2) in
  code (fst out1) = 200 → code (fst out2) = 200 → code (fst out3) = 200 →
  occurrences (student r) (class_students (snd out3) (class r)) = 1
  ∧ occurrences (class r) (student_classes (snd out3) (student r)) = 1
  ∧ status <$> find_request (snd out3) (requestId req1) = Some Approved.
Proof.
  intros Hfind Hst Hid2 Hnew2 Hid3 Hnew3 out1 out2 out3 H1 H2 H3.
  pose proof (find_request_id _ _ _ Hfind) as Hrid.
  (* approve *)
  destruct (approve_success env1 req1 db r Hfind Hst H1) as (c & s & Hc & Hs & _ & E1).
  set (r1 := approved_doc env1 req1 r) in *.
  assert (find_request (snd out1) (requestId req2) = Some r1) as Hfind1.
  { subst out1. rewrite E1, Hid2, <- Hrid.
    apply (find_request_committed _ _ r r1 db); [done|].
    rewrite <- Hrid in Hfind. exact Hfind. }
  destruct (lookup_class_enrol r c s (save_db r1 db) (class r) Hc) as [c1 Hc1];
    [by eexists|].
  destruct (proj2 (students_dom_enrol r c s (save_db r1 db) (student r) Hs)) as [s1 Hs1];
    [by eexists|].
  assert (classes (snd out1) !! class r1 = Some c1) as Hc1'.
  { subst out1. by rewrite E1, swallow_classes. }
  assert (students (snd out1) !! student r1 = Some s1) as Hs1'.
  { subst out1. by rewrite E1, swallow_students. }
  (* changeStatus to Rejected *)
  pose proof (changeStatus_success_valid _ _ _ H2) as Hval2.
  assert (body_status req2 ≠ Approved) as Hne2 by (rewrite Hnew2; discriminate).
  pose proof (changeStatus_leave_resolved env2 req2 (snd out1) r1 c1 s1
                Hval2 Hfind1 eq_refl Hne2 Hc1' Hs1') as E2.
  fold out2 in E2.
  set (r2 := changed_doc env2 req2 r1) in *.
  assert (find_request (snd out2) (requestId req3) = Some r2) as Hfind2.
  { rewrite E2. cbn [snd]. rewrite Hid3, <- Hrid.
    apply (find_request_committed _ _ r1 r2 (snd out1)); [done|].
    change (r_id r2) with (r_id r). by rewrite Hrid, <- Hid2. }
  destruct (lookup_class_unenrol r1 c1 s1 (snd out1) (class r) Hc1') as [c2 Hc2];
    [by eexists|].
  destruct (proj2 (students_dom_unenrol r1 c1 s1 (snd out1) (student r) Hs1'))
    as [s2 Hs2]; [by eexists|].
  assert (classes (snd out2) !! class r2 = Some c2) as Hc2'.
  { rewrite E2. cbn [snd]. by rewrite swallow_classes. }
  assert (students (snd out2) !! student r2 = Some s2) as Hs2'.
  { rewrite E2. cbn [snd]. by rewrite swallow_students. }
  assert (class_students (snd out2) (class r) = remove_id (student r)
            (class_students (snd out1) (class r))) as Hcls2.
  { rewrite E2. cbn [snd].
    destruct (class_views_ext
                (after (swallow env2 (statusChangeNotification (populated (snd out1) r1)
                          (adminNote req2) (status r1) (body_status req2)))
                   (save_db r2 (unenrol_db r1 c1 s1 (snd out1))))
                (unenrol_db r1 c1 s1 (snd out1)) (class r)) as [-> _];
      [by rewrite swallow_classes|].
    rewrite class_students_unenrol by done. by rewrite decide_True. }
  assert (student_classes (snd out2) (student r) = remove_id (class r)
            (student_classes (snd out1) (student r))) as Hstu2.
  { rewrite E2. cbn [snd].
    rewrite (student_views_ext
               (after (swallow env2 (statusChangeNotification (populated (snd out1) r1)
                         (adminNote req2) (status r1) (body_status req2)))
                  (save_db r2 (unenrol_db r1 c1 s1 (snd out1))))
               (unenrol_db r1 c1 s1 (snd out1)) (student r));
      [|by rewrite swallow_students].
    rewrite student_classes_unenrol by done. by rewrite decide_True. }
  (* changeStatus to Approved *)
  pose proof (changeStatus_success_valid _ _ _ H3) as Hval3.
  assert (status r2 ≠ Approved) as Hold3.
  { change (status r2) with (body_status req2). by rewrite Hnew2. }
  pose proof (changeStatus_enter_resolved env3 req3 (snd out2) r2 c2 s2
                Hval3 Hfind2 Hold3 Hnew3 Hc2' Hs2') as E3.
  fold out3 in E3.
  destruct (is_full r2 c2); [by rewrite E3 in H3|].
  rewrite E3. cbn [snd]. split; [|split].
  - destruct (class_views_ext
                (after (swallow env3 (statusChangeNotification (populated (snd out2) r2)
                          (adminNote req3) (status r2) (body_status req3)))
                   (save_db (changed_doc env3 req3 r2) (enrol_db r2 c2 s2 (snd out2))))
                (enrol_db r2 c2 s2 (snd out2)) (class r)) as [-> _];
      [by rewrite swallow_classes|].
    rewrite class_students_enrol by done. rewrite decide_True by done.
    rewrite count_occ_add_if_absent, decide_True by done.
    rewrite Hcls2, count_occ_remove_id, decide_True by done. done.
  - rewrite (student_views_ext
               (after (swallow env3 (statusChangeNotification (populated (snd out2) r2)
                         (adminNote req3) (status r2) (body_status req3)))
                  (save_db (changed_doc env3 req3 r2) (enrol_db r2 c2 s2 (snd out2))))
               (enrol_db r2 c2 s2 (snd out2)) (student r));
      [|by rewrite swallow_students].
    rewrite student_classes_enrol by done. rewrite decide_True by done.
    rewrite count_occ_add_if_absent, decide_True by done.
    rewrite Hstu2, count_occ_remove_id, decide_True by done. done.
  - rewrite <- Hrid.
    rewrite (find_request_committed _ _ r2 (changed_doc env3 req3 r2) (snd out2)).
    + cbn. by rewrite Hnew3.
    + done.
    + change (r_id (changed_doc env3 req3 r2)) with (r_id r). by rewrite Hrid, <- Hid3.
Qed.

Lemma approve_reject_reapprove_witness :
  let out1 := approveClassRequest env_ok (admin_req 1 Approved) db0 in
  let out2 := changeClassRequestStatus env_down (admin_req 1 Rejected) (snd out1) in
  let out3 := changeClassRequestStatus env_ok (admin_req 1 Approved) (snd out2) in
  occurrences 11 (class_students (snd out3) 20) = 1
  ∧ occurrences 20 (student_classes (snd out3) 11) = 1
  ∧ status <$> find_request (snd out3) 1 = Some Approved.
Proof.
  apply (approve_reject_reapprove env_ok env_down env_ok
           (admin_req 1 Approved) (admin_req 1 Rejected) (admin_req 1 Approved)
           db0 (pending_request 1 11 20)).
  - vm_compute. reflexivity.
  - reflexivity.
  - reflexivity.
  - reflexivity.
  - reflexivity.
  - reflexivity.
  - vm_compute. reflexivity.
  - vm_compute. reflexivity.
  - vm_compute. reflexivity.
Defined.

(** ** C6 *)

(** C6. changeStatus into Approved on a request that is not Approved, when
    the student is not yet in the class's enrolledStudents and the enrolled
    count has reached the capacity: the handler answers 400 "Class is at
    full capacity" (CapacityExceeded) and the database is exactly the one it
    was given, so the request's status and adminResponse and both
    membership lists are untouched. *)
Theorem changeStatus_capacity_abort (env : Env) (req : Req) (db : DB)
    (r : ClassRequest) (c : ClassDoc) (s : Student) :
  validationErrors req = [] →
  body_status req = Approved →
  find_request db (requestId req) = Some r →
  status r ≠ Approved →
  classes db !! class r = Some c →
  students db !! student r = Some s →
  student r ∉ default [] (enrolledStudents c) →
  (capacity c <= Z.of_nat (length_or_0 (enrolledStudents c)))%Z →
  changeClassRequestStatus env req db = (json 400 (BMessage "Class is at full capacity"), db)
  ∧ kind_of (fst (changeClassRequestStatus env req db)) = CapacityExceeded.
Proof.
  intros Hval Hnew Hfind Hold Hc Hs Hni Hcap.
  rewrite (changeStatus_enter_resolved env req db r c s Hval Hfind Hold Hnew Hc Hs).
  unfold is_full. rewrite (bool_decide_eq_false_2 _ Hni).
  apply Z.leb_le in Hcap. rewrite Hcap. cbn [negb andb]. done.
Qed.

Lemma changeStatus_capacity_abort_witness :
  changeClassRequestStatus env_ok (admin_req 2 Approved) db1
  = (json 400 (BMessage "Class is at full capacity"), db1)
  ∧ kind_of (fst (changeClassRequestStatus env_ok (admin_req 2 Approved) db1))
    = CapacityExceeded.
Proof.
  apply (changeStatus_capacity_abort env_ok (admin_req 2 Approved) db1
           (pending_request 2 12 20) (set_enrolledStudents grade9 [11]) nimal).
  - reflexivity.
  - reflexivity.
  - vm_compute. reflexivity.
  - discriminate.
  - vm_compute. reflexivity.
  - vm_compute. reflexivity.
  - vm_compute. intros H. apply list_elem_of_In in H. simpl in H. intuition lia.
  - vm_compute. discriminate.
Defined.

(** ** C7 *)

(** C7. In rejectClassRequest the notification is created outside any
    inner try/catch: when the sink rejects, the handler answers 500 "Server
    error" although the request has already been saved as Rejected, while
    with a working sink the same call answers 200.  The primary result
    therefore depends on the notification.  The four other handlers that
    notify answer 200 on the same database with the same failing sink. *)
Theorem reject_notification_failure_propagates :
  rejectClassRequest env_down (admin_req 1 Rejected) db0
  = (json 500 (BServerError "Server error"),
     save_db (rejected_doc env_down (admin_req 1 Rejected) (pending_request 1 11 20)) db0)
  ∧ kind_of (fst (rejectClassRequest env_down (admin_req 1 Rejected) db0)) = InternalFailure
  ∧ fst (rejectClassRequest env_ok (admin_req 1 Rejected) db0)
    = json 200 (BRequest "Class request rejected"
                  (rejected_doc env_ok (admin_req 1 Rejected) (pending_request 1 11 20)))
  ∧ requests (snd (rejectClassRequest env_down (admin_req 1 Rejected) db0))
    = requests (snd (rejectClassRequest env_ok (admin_req 1 Rejected) db0))
  ∧ code (fst (approveClassRequest env_down (admin_req 1 Approved) db0)) = 200
  ∧ code (fst (changeClassRequestStatus env_down (admin_req 1 Rejected) db0)) = 200
  ∧ code (fst (approveAllPendingRequests env_down (admin_req 0 Approved) db0)) = 200
  ∧ code (fst (adminDeleteClassRequest env_down (admin_req 1 Approved) db0)) = 200.
Proof. vm_compute. repeat split; reflexivity. Qed.

(** ** C8 *)



(** ** C9 *)

(** C9. On a validated call, approveAllPending answers with kind
    InvalidState exactly when no request is Pending at call time; in that
    case the answer is the 400 "No pending class requests found" error and
    the database is untouched, so an empty pending set is never reported
    as a success with zero counts. *)
Theorem approveAll_empty_is_error (env : Env) (req : Req) (db : DB) :
  validationErrors req = [] →
  (kind_of (fst (approveAllPendingRequests env req db)) = InvalidState
   ↔ pending_requests db = [])
  ∧ (pending_requests db = [] →
     approveAllPendingRequests env req db
     = (json 400 (BMessage "No pending class requests found"), db)
     ∧ kind_of (fst (approveAllPendingRequests env req db)) ≠ Success).
Proof.
  intros Hval. rewrite (approveAll_unfold env req db Hval).
  destruct (pending_requests db) as [|r l] eqn:Hp.
  - split; [done|]. intros _. split; [done|]. discriminate.
  - split; [|done].
    destruct (approveEach env req (r :: l) bulk0 db) as [[acc|] db']; cbn [fst];
      split; discriminate.
Qed.

Lemma approveAll_empty_is_error_witness :
  (kind_of (fst (approveAllPendingRequests env_ok (admin_req 0 Approved)
                   (delete_db 1 (delete_db 2 db0)))) = InvalidState
   ↔ pending_requests (delete_db 1 (delete_db 2 db0)) = [])
  ∧ (pending_requests (delete_db 1 (delete_db 2 db0)) = [] →
     approveAllPendingRequests env_ok (admin_req 0 Approved) (delete_db 1 (delete_db 2 db0))
     = (json 400 (BMessage "No pending class requests found"), delete_db 1 (delete_db 2 db0))
     ∧ kind_of (fst (approveAllPendingRequests env_ok (admin_req 0 Approved)
                       (delete_db 1 (delete_db 2 db0)))) ≠ Success).
Proof.
  apply (approveAll_empty_is_error env_ok (admin_req 0 Approved)
           (delete_db 1 (delete_db 2 db0))).
  reflexivity.
Defined.

(** ** C10 *)

(** C10. changeStatus takes a request in any status: its answer is never
    of kind InvalidState, whatever the old and the new status are.  When
    the old and the new status are both Approved or both not Approved, the
    handler answers 200, the Class and Student collections (hence every
    enrolledStudents and enrolledClasses list) are left as they were, and
    the request collection differs only in that the addressed request now
    carries the new status and a new adminResponse; its id, student, class
    and reason are kept. *)
Theorem changeStatus_any_status (env : Env) (req : Req) (db : DB) :
  kind_of (fst (changeClassRequestStatus env req db)) ≠ InvalidState
  ∧ ∀ r : ClassRequest,
      validationErrors req = [] →
      find_request db (requestId req) = Some r →
      (status r = Approved ↔ body_status req = Approved) →
      let out := changeClassRequestStatus env req db in
      code (fst out) = 200
      ∧ classes (snd out) = classes db
      ∧ students (snd out) = students db
      ∧ requests (snd out) = replace_request (changed_doc env req r) (requests db)
      ∧ status (changed_doc env req r) = body_status req
      ∧ (r_id (changed_doc env req r), student (changed_doc env req r),
         class (changed_doc env req r), reason (changed_doc env req r))
        = (r_id r, student r, class r, reason r).
Proof.
  split.
  - destruct (changeStatus_cases env req db) as [[b ->]|[H|[H|[->| ->]]]];
      try done; unfold kind_of; by rewrite H.
  - intros r Hval Hfind Hside out. subst out.
    rewrite (changeStatus_same_side env req db r Hval Hfind Hside). cbn [fst snd].
    destruct (swallow_frame env
                (statusChangeNotification (populated db r) (adminNote req)
                   (status r) (body_status req))
                (save_db (changed_doc env req r) db)) as (Hr & Hc & Hs).
    rewrite Hr, Hc, Hs. done.
Qed.

Lemma changeStatus_any_status_witness :
  let out := changeClassRequestStatus env_ok (admin_req 2 Rejected) db1 in
  code (fst out) = 200
  ∧ classes (snd out) = classes db1
  ∧ students (snd out) = students db1
  ∧ requests (snd out)
    = replace_request (changed_doc env_ok (admin_req 2 Rejected) (pending_request 2 12 20))
        (requests db1)
  ∧ status (changed_doc env_ok (admin_req 2 Rejected) (pending_request 2 12 20)) = Rejected
  ∧ (r_id (changed_doc env_ok (admin_req 2 Rejected) (pending_request 2 12 20)),
     student (changed_doc env_ok (admin_req 2 Rejected) (pending_request 2 12 20)),
     class (changed_doc env_ok (admin_req 2 Rejected) (pending_request 2 12 20)),
     reason (changed_doc env_ok (admin_req 2 Rejected) (pending_request 2 12 20)))
    = (2, 12, 20, "Please enrol me").
Proof.
  apply (proj2 (changeStatus_any_status env_ok (admin_req 2 Rejected) db1)
           (pending_request 2 12 20)).
  - reflexivity.
  - vm_compute. reflexivity.
  - simpl. split; discriminate.
Defined.

(** * Further properties of the handlers *)

(** ** createClassRequest *)

Lemma find_pending_for db sid cid :
  List.find (fun r => Nat.eqb (student r) sid && Nat.eqb (class r) cid
                      && bool_decide (status r = Pending)) (requests db)
  = head (pending_for db sid cid).
Proof.
  unfold pending_for. induction (requests db) as [|d l IH]; [done|].
  cbn [List.find List.filter]. by destruct (_ && _).
Qed.

(** Every way the handler can end. *)
Lemma create_cases env req db :
  (createClassRequest env req db = (json 400 (BErrors (validationErrors req)), db)
   ∧ validationErrors req ≠ [])
  ∨ createClassRequest env req db = (json 404 (BMessage "Student profile not found"), db)
  ∨ createClassRequest env req db
    = (json 400 (BMessage
         "Student registration must be approved before requesting class enrollment"), db)
  ∨ createClassRequest env req db = (json 404 (BMessage "Class not found"), db)
  ∨ createClassRequest env req db
    = (json 400 (BMessage "Class is not available for enrollment"), db)
  ∨ createClassRequest env req db = (json 400 (BMessage "Already enrolled in this class"), db)
  ∨ createClassRequest env req db = (duplicate_pending_response, db)
  ∨ ∃ sid s c,
      validationErrors req = []
      ∧ student_of_user db (user_id req) = Some (sid, s)
      ∧ s_status s = "Approved"
      ∧ classes db !! body_classId req = Some c
      ∧ isActive c = true ∧ c_type c = "Normal"
      ∧ (body_classId req ∉ default [] (enrolledClasses s))
      ∧ pending_for db sid (body_classId req) = []
      ∧ createClassRequest env req db
        = (created_response env req sid,
           set_requests (requests db ++ [new_request env req sid]) db).
Proof.
  unfold createClassRequest.
  destruct (validationErrors req) as [|e es] eqn:Hval; cbn [is_empty negb];
    [|left; by split].
  right.
  unfold handler, bind, findStudentByUser, findClass, findPendingFor, insertRequest, ret.
  cbn beta iota. fold (student_of_user db (user_id req)).
  destruct (student_of_user db (user_id req)) as [[sid s]|]; [|by left].
  right.
  destruct (String.eqb_spec (s_status s) "Approved") as [Hst|Hst]; cbn [negb];
    [|by left].
  right. cbn beta iota.
  destruct (classes db !! body_classId req) as [c|]; [|by left].
  right.
  destruct (isActive c) eqn:Hact; cbn [negb orb]; [|by left].
  destruct (String.eqb_spec (c_type c) "Normal") as [Hty|Hty]; cbn [negb];
    [|by left].
  right.
  assert ((match enrolledClasses s with
           | Some arr => existsb (fun id => id_equals id (body_classId req)) arr
           | None => false
           end) = bool_decide (body_classId req ∈ default [] (enrolledClasses s))) as ->.
  { destruct (enrolledClasses s) as [arr|]; cbn [default].
    - apply existsb_id_equals.
    - symmetry. apply bool_decide_eq_false_2, not_elem_of_nil. }
  case_bool_decide as Henr; [by left|].
  right. cbn beta iota. rewrite find_pending_for.
  destruct (pending_for db sid (body_classId req)) as [|d l] eqn:Hp; cbn [head];
    [|by left].
  right. exists sid, s, c. by repeat (split; [done|]).
Qed.

(** X1. createClassRequest is all-or-nothing.  It answers 201 only to a
    requester who has a student profile with registration status
    "Approved", for an existing class that is active and of type "Normal",
    in which the student is not enrolled and for which the student has no
    Pending request; the database then gains exactly one Pending request
    for that student and class, without admin response, and nothing else
    changes.  In every other case the answer is a 400 or a 404 and the
    database is returned as it was. *)
Theorem create_all_or_nothing (env : Env) (req : Req) (db : DB) :
  (∃ sid s c,
     validationErrors req = []
     ∧ student_of_user db (user_id req) = Some (sid, s)
     ∧ s_status s = "Approved"
     ∧ classes db !! body_classId req = Some c
     ∧ isActive c = true ∧ c_type c = "Normal"
     ∧ (body_classId req ∉ default [] (enrolledClasses s))
     ∧ pending_for db sid (body_classId req) = []
     ∧ fst (createClassRequest env req db)
       = json 201 (BRequest "Class enrollment request submitted successfully"
                     (new_request env req sid))
     ∧ requests (snd (createClassRequest env req db))
       = (requests db ++ [new_request env req sid])%list
     ∧ status (new_request env req sid) = Pending
     ∧ classes (snd (createClassRequest env req db)) = classes db
     ∧ students (snd (createClassRequest env req db)) = students db
     ∧ notifications (snd (createClassRequest env req db)) = notifications db)
  ∨ (snd (createClassRequest env req db) = db
     ∧ (code (fst (createClassRequest env req db)) = 400
        ∨ code (fst (createClassRequest env req db)) = 404)).
Proof.
  destruct (create_cases env req db)
    as [[-> _]|[->|[->|[->|[->|[->|[->|(sid & s & c & Hv & Hu & Hs & Hc & Ha & Ht & He & Hp & ->)]]]]]]];
    try (right; split; [done|]; cbn; auto; fail).
  left. exists sid, s, c. by repeat (split; [done|]).
Qed.

Lemma find_app_fresh {A} (P : A → bool) (l : list A) (x : A) :
  List.find P l = None → P x = true → List.find P (l ++ [x]) = Some x.
Proof.
  intros Hl Hx. induction l as [|a l IH]; cbn [app List.find] in *.
  - by rewrite Hx.
  - destruct (P a); [done|]. by apply IH.
Qed.

Lemma head_nil_find {A} (P : A → bool) (l : list A) :
  List.filter P l = [] → List.find P l = None.
Proof.
  induction l as [|a l IH]; [done|]. cbn [List.filter List.find].
  destruct (P a); [done|]. exact IH.
Qed.

(** The last gate, once the others are passed. *)
Lemma create_gated env req db sid s c :
  validationErrors req = [] →
  student_of_user db (user_id req) = Some (sid, s) →
  s_status s = "Approved" →
  classes db !! body_classId req = Some c →
  isActive c = true → c_type c = "Normal" →
  body_classId req ∉ default [] (enrolledClasses s) →
  createClassRequest env req db =
  match pending_for db sid (body_classId req) with
  | [] => (created_response env req sid,
           set_requests (requests db ++ [new_request env req sid]) db)
  | _ => (duplicate_pending_response, db)
  end.
Proof.
  intros Hval Hu Hs Hc Ha Ht He.
  unfold createClassRequest. rewrite Hval. cbn [is_empty negb].
  unfold handler, bind, findStudentByUser, findClass, findPendingFor, insertRequest, ret.
  cbn beta iota. fold (student_of_user db (user_id req)). rewrite Hu, Hs.
  rewrite String.eqb_refl. cbn [negb]. cbn beta iota.
  rewrite Hc, Ha, Ht, String.eqb_refl. cbn [negb orb].
  assert ((match enrolledClasses s with
           | Some arr => existsb (fun id => id_equals id (body_classId req)) arr
           | None => false
           end) = false) as ->.
  { destruct (enrolledClasses s) as [arr|]; [|done]. cbn [default] in He.
    rewrite existsb_id_equals. by apply bool_decide_eq_false_2. }
  cbn beta iota. rewrite find_pending_for.
  by destruct (pending_for db sid (body_classId req)).
Qed.

(** X2. A second createClassRequest by the same user for the same class,
    right after one that answered 201, is refused with 400 "You already
    have a pending request for this class" and changes nothing. *)
Theorem create_twice_refused (env1 env2 : Env) (req1 req2 : Req) (db : DB) :
  code (fst (createClassRequest env1 req1 db)) = 201 →
  validationErrors req2 = [] →
  user_id req2 = user_id req1 →
  body_classId req2 = body_classId req1 →
  createClassRequest env2 req2 (snd (createClassRequest env1 req1 db))
  = (json 400 (BMessage "You already have a pending request for this class"),
     snd (createClassRequest env1 req1 db)).
Proof.
  intros H201 Hval Hu Hc.
  destruct (create_cases env1 req1 db)
    as [[E _]|[E|[E|[E|[E|[E|[E|(sid & s & c & Hv & Hus & Hs & Hcl & Ha & Ht & He & Hp & E)]]]]]]];
    rewrite E in H201 |- *; try discriminate H201.
  cbn [snd]. set (db1 := set_requests _ db).
  rewrite (create_gated env2 req2 db1 sid s c); try done.
  - unfold pending_for, db1, set_requests. cbn [requests].
    rewrite List.filter_app. fold (pending_for db sid (body_classId req2)).
    rewrite Hc, Hp. cbn [app List.filter new_request student class status default_status].
    rewrite !Nat.eqb_refl. by rewrite bool_decide_eq_true_2.
  - by rewrite Hu.
  - by rewrite Hc.
  - by rewrite Hc.
Qed.

Lemma filter_fresh_id (l : list ClassRequest) (x : ClassRequest) :
  (∀ d, d ∈ l → r_id d ≠ r_id x) →
  List.filter (fun d => negb (Nat.eqb (r_id d) (r_id x))) (l ++ [x]) = l.
Proof.
  intros Hfresh. rewrite List.filter_app. cbn [List.filter].
  rewrite Nat.eqb_refl. cbn [negb]. rewrite app_nil_r.
  induction l as [|a l IH]; [done|]. cbn [List.filter].
  destruct (Nat.eqb_spec (r_id a) (r_id x)) as [E|E].
  - exfalso. apply (Hfresh a); [by left|done].
  - cbn [negb]. f_equal. apply IH. intros d Hd. apply Hfresh. by right.
Qed.

Lemma find_fresh_id (l : list ClassRequest) (x : ClassRequest) :
  (∀ d, d ∈ l → r_id d ≠ r_id x) →
  List.find (fun d => Nat.eqb (r_id d) (r_id x)) (l ++ [x]) = Some x.
Proof.
  intros Hfresh. apply find_app_fresh; [|apply Nat.eqb_refl].
  induction l as [|a l IH]; [done|]. cbn [List.find].
  destruct (Nat.eqb_spec (r_id a) (r_id x)) as [E|E].
  - exfalso. apply (Hfresh a); [by left|done].
  - apply IH. intros d Hd. apply Hfresh. by right.
Qed.

(** X3. Create and withdraw: when the id given to the new request is not
    in use, a createClassRequest that answered 201 followed by the same
    user's deleteClassRequest of that id answers 200 and leaves exactly the
    database the two calls started from. *)
Theorem create_then_delete_restores (env : Env) (req dreq : Req) (db : DB) :
  (∀ d, d ∈ requests db → r_id d ≠ fresh_id env) →
  code (fst (createClassRequest env req db)) = 201 →
  user_id dreq = user_id req →
  requestId dreq = fresh_id env →
  deleteClassRequest dreq (snd (createClassRequest env req db))
  = (json 200 (BMessage "Class request deleted successfully"), db).
Proof.
  intros Hfresh H201 Hu Hid.
  destruct (create_cases env req db)
    as [[E _]|[E|[E|[E|[E|[E|[E|(sid & s & c & Hv & Hus & Hs & Hcl & Ha & Ht & He & Hp & E)]]]]]]];
    rewrite E in H201 |- *; try discriminate H201.
  cbn [snd]. rewrite delete_cases.
  unfold student_of_user, find_request, set_requests. cbn [students requests].
  fold (student_of_user db (user_id dreq)). rewrite Hu, Hus, Hid.
  change (fresh_id env) with (r_id (new_request env req sid)).
  rewrite find_fresh_id by done.
  cbn [new_request student status default_status]. unfold id_equals.
  rewrite Nat.eqb_refl. cbn [negb]. rewrite bool_decide_eq_true_2 by done. cbn [negb].
  unfold delete_db, set_requests. cbn [requests classes students notifications].
  change (fresh_id env) with (r_id (new_request env req sid)).
  rewrite filter_fresh_id by done. by rewrite db_eta.
Qed.

Lemma create_twice_refused_witness :
  createClassRequest env_down (create_req 101 20)
    (snd (createClassRequest env_ok (create_req 101 20) db_rejected))
  = (json 400 (BMessage "You already have a pending request for this class"),
     snd (createClassRequest env_ok (create_req 101 20) db_rejected)).
Proof.
  apply (create_twice_refused env_ok env_down (create_req 101 20) (create_req 101 20)
           db_rejected).
  - vm_compute. reflexivity.
  - reflexivity.
  - reflexivity.
  - reflexivity.
Defined.

Lemma create_then_delete_restores_witness :
  deleteClassRequest (student_req 101 3)
    (snd (createClassRequest env_ok (create_req 101 20) db_rejected))
  = (json 200 (BMessage "Class request deleted successfully"), db_rejected).
Proof.
  apply (create_then_delete_restores env_ok (create_req 101 20) (student_req 101 3)
           db_rejected).
  - intros d Hd. list_cases Hd; vm_compute; lia.
  - vm_compute. reflexivity.
  - reflexivity.
  - reflexivity.
Defined.

(** ** At most one Pending request per pair *)

Lemma pending_for_ext db1 db2 sid cid :
  requests db1 = requests db2 → pending_for db1 sid cid = pending_for db2 sid cid.
Proof. unfold pending_for. by intros ->. Qed.

Lemma filter_replace_decided (P : ClassRequest → bool) r' l :
  P r' = false →
  length (List.filter P (replace_request r' l)) <= length (List.filter P l).
Proof.
  intros Hr'. induction l as [|d l IH]; [done|].
  cbn [replace_request List.map List.filter]. fold (replace_request r' l).
  destruct (Nat.eqb (r_id d) (r_id r')).
  - rewrite Hr'. destruct (P d); cbn [length]; lia.
  - destruct (P d); cbn [length]; lia.
Qed.

Lemma filter_filter_length {A} (P Q : A → bool) l :
  length (List.filter P (List.filter Q l)) <= length (List.filter P l).
Proof.
  induction l as [|d l IH]; [done|]. cbn [List.filter].
  destruct (Q d); cbn [List.filter]; destruct (P d); cbn [length]; lia.
Qed.

Lemma requests_step_pending db db' sid cid :
  requests_step db db' →
  length (pending_for db' sid cid) <= Nat.max 1 (length (pending_for db sid cid)).
Proof.
  intros [Hsame|r' Hst Hrep|rid Hdel|r Hnone Happ]; unfold pending_for in *.
  - rewrite Hsame. lia.
  - rewrite Hrep.
    etrans; [apply filter_replace_decided|lia].
    rewrite (bool_decide_eq_false_2 _ Hst). by rewrite andb_false_r.
  - rewrite Hdel. etrans; [apply filter_filter_length|lia].
  - rewrite Happ, List.filter_app, length_app. cbn [List.filter].
    destruct (Nat.eqb_spec (student r) sid) as [<-|]; cbn [andb length]; [|lia].
    destruct (Nat.eqb_spec (class r) cid) as [<-|]; cbn [andb length]; [|lia].
    rewrite Hnone. destruct (bool_decide (status r = Pending)); cbn [length]; lia.
Qed.

Lemma requests_steps_pending db db' sid cid :
  requests_steps db db' →
  length (pending_for db' sid cid) <= Nat.max 1 (length (pending_for db sid cid)).
Proof.
  induction 1 as [db|db db1 db2 H1 _ IH]; [lia|].
  pose proof (requests_step_pending db db1 sid cid H1). lia.
Qed.

Lemma approve_requests_step env req db :
  requests_step db (snd (approveClassRequest env req db)).
Proof.
  destruct (decide (validationErrors req = [])) as [Hval|Hval];
    [|rewrite approve_invalid by done; by apply requests_same].
  destruct (find_request db (requestId req)) as [r|] eqn:Hfind;
    [|rewrite approve_not_found by done; by apply requests_same].
  destruct (decide (status r = Pending)) as [Hst|Hst];
    [|rewrite (approve_not_pending env req db r) by done; by apply requests_same].
  destruct (resolved_dec_cases db r) as [(c & s & Hc & Hs)|Hdang].
  - rewrite (approve_resolved env req db r c s) by done.
    destruct (is_full r c); [by apply requests_same|]. cbn [snd].
    apply (requests_decide _ _ (approved_doc env req r)); [done|].
    by rewrite swallow_requests.
  - destruct (approve_dangling env req db r) as [->|[->| ->]]; try done;
      try (by apply requests_same).
    by apply (requests_decide _ _ (approved_doc env req r)).
Qed.

Lemma reject_requests_step env req db :
  requests_step db (snd (rejectClassRequest env req db)).
Proof.
  destruct (decide (validationErrors req = [])) as [Hval|Hval];
    [|rewrite reject_invalid by done; by apply requests_same].
  destruct (find_request db (requestId req)) as [r|] eqn:Hfind;
    [|rewrite reject_not_found by done; by apply requests_same].
  destruct (decide (status r = Pending)) as [Hst|Hst];
    [|rewrite (reject_not_pending env req db r) by done; by apply requests_same].
  rewrite (reject_pending env req db r) by done.
  apply (requests_decide _ _ (rejected_doc env req r)); [done|].
  destruct (rejectedNotification (populated db r) (adminNote req)) as [n|]; [|done].
  by destruct (notification_ok env n).
Qed.

Lemma changeStatus_requests_step env req db :
  body_status req ≠ Pending →
  requests_step db (snd (changeClassRequestStatus env req db)).
Proof.
  intros Hnp.
  destruct (decide (validationErrors req = [])) as [Hval|Hval];
    [|rewrite changeStatus_invalid by done; by apply requests_same].
  destruct (find_request db (requestId req)) as [r|] eqn:Hfind;
    [|rewrite changeStatus_not_found by done; by apply requests_same].
  destruct (decide (status r = Approved)) as [Hold|Hold],
           (decide (body_status req = Approved)) as [Hnew|Hnew].
  - rewrite (changeStatus_same_side env req db r) by tauto. cbn [snd].
    apply (requests_decide _ _ (changed_doc env req r)); [done|].
    by rewrite swallow_requests.
  - destruct (resolved_dec_cases db r) as [(c & s & Hc & Hs)|Hdang].
    + rewrite (changeStatus_leave_resolved env req db r c s) by done. cbn [snd].
      apply (requests_decide _ _ (changed_doc env req r)); [done|].
      by rewrite swallow_requests.
    + rewrite (changeStatus_leave_dangling env req db r) by done. cbn [snd].
      apply (requests_decide _ _ (changed_doc env req r)); [done|].
      by rewrite swallow_requests.
  - destruct (resolved_dec_cases db r) as [(c & s & Hc & Hs)|Hdang].
    + rewrite (changeStatus_enter_resolved env req db r c s) by done.
      destruct (is_full r c); [by apply requests_same|]. cbn [snd].
      apply (requests_decide _ _ (changed_doc env req r)); [done|].
      by rewrite swallow_requests.
    + destruct (changeStatus_enter_dangling env req db r) as [->| ->]; try done;
        by apply requests_same.
  - rewrite (changeStatus_same_side env req db r) by tauto. cbn [snd].
    apply (requests_decide _ _ (changed_doc env req r)); [done|].
    by rewrite swallow_requests.
Qed.

Lemma delete_requests_step req db :
  requests_step db (snd (deleteClassRequest req db)).
Proof.
  rewrite delete_cases.
  destruct (student_of_user db (user_id req)) as [[sid s]|]; [|by apply requests_same].
  destruct (find_request db (requestId req)) as [r|]; [|by apply requests_same].
  destruct (negb (id_equals (student r) sid)); [by apply requests_same|].
  destruct (negb (bool_decide (status r = Pending))); [by apply requests_same|].
  by apply (requests_delete _ _ (requestId req)).
Qed.

Lemma adminDelete_requests_step env req db :
  requests_step db (snd (adminDeleteClassRequest env req db)).
Proof.
  destruct (find_request db (requestId req)) as [r|] eqn:Hfind;
    [|rewrite adminDelete_not_found by done; by apply requests_same].
  apply (requests_delete _ _ (requestId req)).
  destruct (resolved_dec_cases db r) as [(c & s & Hc & Hs)|Hdang].
  - rewrite (adminDelete_resolved env req db r c s) by done. cbn [snd].
    unfold delete_db, set_requests. cbn [requests]. rewrite swallow_requests.
    by destruct (bool_decide (status r = Approved)).
  - rewrite (adminDelete_dangling env req db r) by done. cbn [snd].
    unfold delete_db, set_requests. cbn [requests]. by rewrite swallow_requests.
Qed.

Lemma create_requests_step env req db :
  requests_step db (snd (createClassRequest env req db)).
Proof.
  destruct (create_cases env req db)
    as [[-> _]|[->|[->|[->|[->|[->|[->|(sid & s & c & _ & _ & _ & _ & _ & _ & _ & Hp & ->)]]]]]]];
    try (by apply requests_same).
  by apply (requests_create _ _ (new_request env req sid)).
Qed.

Lemma approveOne_requests_step env req r acc db :
  requests_step db (snd (approveOne env req r acc db)).
Proof.
  destruct (resolved_dec_cases db r) as [(c & s & Hc & Hs)|Hdang].
  - rewrite (approveOne_resolved env req r acc db c s) by done.
    destruct (is_full r c); [by apply requests_same|]. cbn [snd].
    apply (requests_decide _ _ (bulk_doc env req r)); [done|].
    apply bulk_approved_requests.
  - rewrite approveOne_dangling by done. by apply requests_same.
Qed.

Lemma approveEach_requests_steps env req l acc db :
  requests_steps db (snd (approveEach env req l acc db)).
Proof.
  revert acc db. induction l as [|r l IH]; intros acc db; [done|].
  cbn [approveEach]. unfold bind.
  pose proof (approveOne_requests_step env req r acc db) as H1.
  destruct (approveOne env req r acc db) as [[acc'|] db1]; cbn [snd] in *.
  - eapply rtc_l; [exact H1|apply IH].
  - by apply rtc_once.
Qed.

Lemma approveAll_requests_steps env req db :
  requests_steps db (snd (approveAllPendingRequests env req db)).
Proof.
  destruct (decide (validationErrors req = [])) as [Hval|Hval];
    [|by rewrite approveAll_invalid].
  rewrite approveAll_unfold by done.
  destruct (pending_requests db) as [|r l]; [done|].
  pose proof (approveEach_requests_steps env req (r :: l) bulk0 db) as H.
  by destruct (approveEach env req (r :: l) bulk0 db) as [[acc|] db'].
Qed.

Lemma step_requests_steps db call :
  reopens call = false → requests_steps db (snd (step db call)).
Proof.
  intros Hre. destruct call; cbn [step].
  - apply rtc_once, create_requests_step.
  - apply rtc_once, approve_requests_step.
  - apply rtc_once, reject_requests_step.
  - apply rtc_once, changeStatus_requests_step.
    cbn in Hre. by apply bool_decide_eq_false in Hre.
  - apply approveAll_requests_steps.
  - apply rtc_once, delete_requests_step.
  - apply rtc_once, adminDelete_requests_step.
Qed.

Lemma run_requests_steps calls db :
  Forall (fun c => reopens c = false) calls → requests_steps db (run db calls).
Proof.
  revert db. induction calls as [|call calls IH]; intros db Hall; [done|].
  apply Forall_cons in Hall as [Hc Hall]. cbn [run fold_left].
  etrans; [by apply step_requests_steps|]. by apply IH.
Qed.

(** X4. No duplicate Pending requests.  Over any sequence of coordinator
    calls none of which is a changeStatus to Pending, the number of Pending
    requests stored for a (student, class) pair never grows beyond one (or
    beyond what it was): a pair that has at most one Pending request keeps
    at most one. *)
Theorem one_pending_per_pair (calls : list Call) (db : DB) (sid cid : ObjectId) :
  Forall (fun c => reopens c = false) calls →
  length (pending_for (run db calls) sid cid)
  <= Nat.max 1 (length (pending_for db sid cid)).
Proof. intros Hall. by apply requests_steps_pending, run_requests_steps. Qed.

Lemma one_pending_per_pair_witness :
  length (pending_for (run db0 reapply_twice) 11 20)
  <= Nat.max 1 (length (pending_for db0 11 20)).
Proof.
  apply (one_pending_per_pair reapply_twice db0 11 20).
  repeat constructor.
Defined.

(** The restriction to calls that do not reopen a request is needed: once
    the student has applied again, moving the rejected request back to
    Pending leaves two Pending requests for the pair. *)
Lemma reopening_duplicates_pending :
  length (pending_for
            (run db0 [ Reject env_ok (admin_req 1 Rejected);
                       Create env_ok (create_req 101 20);
                       ChangeStatus env_ok (admin_req 1 Pending) ]) 11 20) = 2.
Proof. vm_compute. reflexivity. Qed.

(** ** What rejectClassRequest does *)

(** X5. rejectClassRequest never changes a Class or a Student document.  It
    answers 200 only for a stored Pending request whose notification could
    be built and was stored; the database is then the old one with the
    request saved as Rejected and that notification appended.  When it
    answers 400 or 404 the database is unchanged. *)
Theorem reject_outcome (env : Env) (req : Req) (db : DB) :
  classes (snd (rejectClassRequest env req db)) = classes db
  ∧ students (snd (rejectClassRequest env req db)) = students db
  ∧ (code (fst (rejectClassRequest env req db)) = 200 →
     ∃ r n, find_request db (requestId req) = Some r ∧ status r = Pending
       ∧ rejectedNotification (populated db r) (adminNote req) = Some n
       ∧ notification_ok env n = true
       ∧ fst (rejectClassRequest env req db)
         = json 200 (BRequest "Class request rejected" (rejected_doc env req r))
       ∧ snd (rejectClassRequest env req db)
         = add_notification n (save_db (rejected_doc env req r) db))
  ∧ (code (fst (rejectClassRequest env req db)) = 400
     ∨ code (fst (rejectClassRequest env req db)) = 404 →
     snd (rejectClassRequest env req db) = db).
Proof.
  destruct (decide (validationErrors req = [])) as [Hval|Hval].
  2:{ rewrite reject_invalid by done. cbn [fst snd code json]. by intuition. }
  destruct (find_request db (requestId req)) as [r|] eqn:Hfind.
  2:{ rewrite reject_not_found by done. cbn [fst snd code json]. by intuition. }
  destruct (decide (status r = Pending)) as [Hst|Hst].
  2:{ rewrite (reject_not_pending env req db r) by done.
      cbn [fst snd code json not_pending_response]. by intuition. }
  rewrite (reject_pending env req db r) by done.
  destruct (rejectedNotification (populated db r) (adminNote req)) as [n|] eqn:Hn.
  - destruct (notification_ok env n) eqn:Hok; cbn [fst snd code json server_error].
    + split; [done|]. split; [done|]. split; [|by intros [|]].
      intros _. by exists r, n.
    + split; [done|]. split; [done|]. split; [done|]. by intros [|].
  - cbn [fst snd code json server_error].
    split; [done|]. split; [done|]. split; [done|]. by intros [|].
Qed.

(** ** Decisions are final for approve and reject *)

Lemma find_request_save_db r r' db :
  find_request db (r_id r') = Some r → find_request (save_db r' db) (r_id r') = Some r'.
Proof.
  intros Hfind. unfold find_request, save_db, set_requests in *. cbn [requests].
  by apply (find_replace_request r).
Qed.

Lemma find_request_ext db db' rid :
  requests db' = requests db → find_request db' rid = find_request db rid.
Proof. unfold find_request. by intros ->. Qed.

Lemma not_pending_refused env req db r :
  validationErrors req = [] →
  find_request db (requestId req) = Some r →
  status r ≠ Pending →
  approveClassRequest env req db = (not_pending_response, db)
  ∧ rejectClassRequest env req db = (not_pending_response, db).
Proof.
  intros Hval Hfind Hst. split.
  - by apply (approve_not_pending env req db r).
  - by apply (reject_not_pending env req db r).
Qed.

Lemma find_replace_other r' rid l :
  r_id r' ≠ rid →
  List.find (fun d => Nat.eqb (r_id d) rid) (replace_request r' l)
  = List.find (fun d => Nat.eqb (r_id d) rid) l.
Proof.
  intros Hne. induction l as [|d l IH]; [done|].
  unfold replace_request in *. cbn [List.map List.find]. rewrite IH.
  destruct (Nat.eqb_spec (r_id d) (r_id r')) as [E|E]; [|done].
  rewrite E. by destruct (Nat.eqb_spec (r_id r') rid).
Qed.

Lemma decided_ext db db' rid :
  requests db' = requests db → decided db rid → decided db' rid.
Proof. intros Hreq (d & Hfind & Hst). exists d. by rewrite (find_request_ext db db'). Qed.

Lemma decided_replace r' db db' rid :
  requests db' = replace_request r' (requests db) →
  status r' ≠ Pending ∨ r_id r' ≠ rid →
  decided db rid → decided db' rid.
Proof.
  intros Hreq Hr' (d & Hfind & Hst). unfold decided, find_request in *. rewrite Hreq.
  destruct (decide (r_id r' = rid)) as [E|E].
  - exists r'. split; [by apply (find_replace_request d)|]. by destruct Hr'.
  - exists d. by rewrite find_replace_other.
Qed.

Lemma decided_delete rid' db db' rid :
  requests db' = List.filter (fun d => negb (Nat.eqb (r_id d) rid')) (requests db) →
  rid' ≠ rid →
  decided db rid → decided db' rid.
Proof.
  intros Hreq Hne (d & Hfind & Hst). exists d. split; [|done].
  unfold find_request in *. rewrite Hreq. clear Hreq.
  induction (requests db) as [|x l IH]; [done|].
  cbn [List.find List.filter] in *.
  destruct (Nat.eqb_spec (r_id x) rid) as [E|E].
  - destruct (Nat.eqb_spec (r_id x) rid') as [E'|E']; [congruence|].
    cbn [negb List.find]. by rewrite (proj2 (Nat.eqb_eq _ _) E).
  - destruct (negb (Nat.eqb (r_id x) rid')); [|by apply IH].
    cbn [List.find]. rewrite (proj2 (Nat.eqb_neq _ _) E). by apply IH.
Qed.

Lemma decided_append x db db' rid :
  requests db' = (requests db ++ [x])%list → decided db rid → decided db' rid.
Proof.
  intros Hreq (d & Hfind & Hst). exists d. split; [|done].
  unfold find_request in *. rewrite Hreq. clear Hreq.
  induction (requests db) as [|y l IH]; [done|].
  cbn [app List.find] in *. destruct (Nat.eqb (r_id y) rid); [done|]. by apply IH.
Qed.

Lemma approve_keeps_decided env req db rid :
  decided db rid → decided (snd (approveClassRequest env req db)) rid.
Proof.
  intros Hdec.
  destruct (decide (validationErrors req = [])) as [Hval|Hval];
    [|by rewrite approve_invalid].
  destruct (find_request db (requestId req)) as [r|] eqn:Hfind;
    [|by rewrite approve_not_found].
  destruct (decide (status r = Pending)) as [Hst|Hst];
    [|by rewrite (approve_not_pending env req db r)].
  destruct (resolved_dec_cases db r) as [(c & s & Hc & Hs)|Hdang].
  - rewrite (approve_resolved env req db r c s) by done.
    destruct (is_full r c); [done|]. cbn [snd].
    apply (decided_replace (approved_doc env req r) db); [|by left|done].
    by rewrite swallow_requests.
  - destruct (approve_dangling env req db r) as [->|[->| ->]]; try done.
    apply (decided_replace (approved_doc env req r) db); [done|by left|done].
Qed.

Lemma reject_keeps_decided env req db rid :
  decided db rid → decided (snd (rejectClassRequest env req db)) rid.
Proof.
  intros Hdec.
  destruct (decide (validationErrors req = [])) as [Hval|Hval];
    [|by rewrite reject_invalid].
  destruct (find_request db (requestId req)) as [r|] eqn:Hfind;
    [|by rewrite reject_not_found].
  destruct (decide (status r = Pending)) as [Hst|Hst];
    [|by rewrite (reject_not_pending env req db r)].
  rewrite (reject_pending env req db r) by done.
  apply (decided_replace (rejected_doc env req r) db); [|by left|done].
  destruct (rejectedNotification (populated db r) (adminNote req)) as [n|]; [|done].
  by destruct (notification_ok env n).
Qed.

Lemma changeStatus_keeps_decided env req db rid :
  undoes rid (ChangeStatus env req) = false →
  decided db rid → decided (snd (changeClassRequestStatus env req db)) rid.
Proof.
  intros Hundo Hdec.
  destruct (decide (validationErrors req = [])) as [Hval|Hval];
    [|by rewrite changeStatus_invalid].
  destruct (find_request db (requestId req)) as [r|] eqn:Hfind;
    [|by rewrite changeStatus_not_found].
  assert (status (changed_doc env req r) ≠ Pending ∨ r_id (changed_doc env req r) ≠ rid)
    as Hnew'.
  { cbn [changed_doc set_status status r_id]. rewrite (find_request_id _ _ _ Hfind).
    cbn [undoes] in Hundo. apply andb_false_iff in Hundo as [Hundo|Hundo].
    - right. by apply Nat.eqb_neq.
    - left. by apply bool_decide_eq_false in Hundo. }
  destruct (decide (status r = Approved)) as [Hold|Hold],
           (decide (body_status req = Approved)) as [Hnew|Hnew].
  - rewrite (changeStatus_same_side env req db r) by tauto. cbn [snd].
    apply (decided_replace (changed_doc env req r) db); [|done..].
    by rewrite swallow_requests.
  - destruct (resolved_dec_cases db r) as [(c & s & Hc & Hs)|Hdang].
    + rewrite (changeStatus_leave_resolved env req db r c s) by done. cbn [snd].
      apply (decided_replace (changed_doc env req r) db); [|done..].
      by rewrite swallow_requests.
    + rewrite (changeStatus_leave_dangling env req db r) by done. cbn [snd].
      apply (decided_replace (changed_doc env req r) db); [|done..].
      by rewrite swallow_requests.
  - destruct (resolved_dec_cases db r) as [(c & s & Hc & Hs)|Hdang].
    + rewrite (changeStatus_enter_resolved env req db r c s) by done.
      destruct (is_full r c); [done|]. cbn [snd].
      apply (decided_replace (changed_doc env req r) db); [|done..].
      by rewrite swallow_requests.
    + by destruct (changeStatus_enter_dangling env req db r) as [->| ->].
  - rewrite (changeStatus_same_side env req db r) by tauto. cbn [snd].
    apply (decided_replace (changed_doc env req r) db); [|done..].
    by rewrite swallow_requests.
Qed.

Lemma delete_keeps_decided req db rid :
  decided db rid → decided (snd (deleteClassRequest req db)) rid.
Proof.
  intros Hdec. rewrite delete_cases.
  destruct (student_of_user db (user_id req)) as [[sid s]|]; [|done].
  destruct (find_request db (requestId req)) as [r|] eqn:Hfind; [|done].
  destruct (negb (id_equals (student r) sid)); [done|].
  case_bool_decide as Hst; [|done]. cbn [negb snd].
  apply (decided_delete (requestId req) db); [done| |done].
  intros E. destruct Hdec as (d & Hd & Hnp). rewrite E in Hfind. congruence.
Qed.

Lemma adminDelete_keeps_decided env req db rid :
  undoes rid (AdminDelete env req) = false →
  decided db rid → decided (snd (adminDeleteClassRequest env req db)) rid.
Proof.
  intros Hundo Hdec. cbn [undoes] in Hundo. apply Nat.eqb_neq in Hundo.
  destruct (find_request db (requestId req)) as [r|] eqn:Hfind;
    [|by rewrite adminDelete_not_found].
  apply (decided_delete (requestId req) db); [|done..].
  destruct (resolved_dec_cases db r) as [(c & s & Hc & Hs)|Hdang].
  - rewrite (adminDelete_resolved env req db r c s) by done. cbn [snd].
    unfold delete_db, set_requests. cbn [requests]. rewrite swallow_requests.
    by destruct (bool_decide (status r = Approved)).
  - rewrite (adminDelete_dangling env req db r) by done. cbn [snd].
    unfold delete_db, set_requests. cbn [requests]. by rewrite swallow_requests.
Qed.

Lemma create_keeps_decided env req db rid :
  decided db rid → decided (snd (createClassRequest env req db)) rid.
Proof.
  intros Hdec.
  destruct (create_frame env req db) as (_ & _ & [Hr|(r & _ & Hr)]).
  - by apply (decided_ext db).
  - by apply (decided_append r db).
Qed.

Lemma approveEach_keeps_decided env req l rid :
  ∀ acc db, decided db rid → decided (snd (approveEach env req l acc db)) rid.
Proof.
  induction l as [|r l IH]; intros acc db Hdec; [done|].
  cbn [approveEach]. unfold bind.
  destruct (resolved_dec_cases db r) as [(c & s & Hc & Hs)|Hdang].
  - rewrite (approveOne_resolved env req r acc db c s) by done.
    destruct (is_full r c); [by apply IH|]. apply IH.
    apply (decided_replace (bulk_doc env req r) db); [|by left|done].
    apply bulk_approved_requests.
  - by rewrite approveOne_dangling.
Qed.

Lemma approveAll_keeps_decided env req db rid :
  decided db rid → decided (snd (approveAllPendingRequests env req db)) rid.
Proof.
  intros Hdec.
  destruct (decide (validationErrors req = [])) as [Hval|Hval];
    [|by rewrite approveAll_invalid].
  rewrite approveAll_unfold by done.
  destruct (pending_requests db) as [|r l]; [done|].
  pose proof (approveEach_keeps_decided env req (r :: l) rid bulk0 db Hdec) as H.
  by destruct (approveEach env req (r :: l) bulk0 db) as [[acc|] db'].
Qed.

Lemma step_keeps_decided rid call db :
  undoes rid call = false → decided db rid → decided (snd (step db call)) rid.
Proof.
  intros Hundo Hdec. destruct call; cbn [step].
  - by apply create_keeps_decided.
  - by apply approve_keeps_decided.
  - by apply reject_keeps_decided.
  - by apply changeStatus_keeps_decided.
  - by apply approveAll_keeps_decided.
  - by apply delete_keeps_decided.
  - by apply adminDelete_keeps_decided.
Qed.

Lemma run_keeps_decided rid calls :
  ∀ db, Forall (fun c => undoes rid c = false) calls →
        decided db rid → decided (run db calls) rid.
Proof.
  induction calls as [|call calls IH]; intros db Hall Hdec; [done|].
  apply Forall_cons in Hall as [Hc Hall]. cbn [run fold_left].
  apply IH; [done|]. by apply step_keeps_decided.
Qed.

Lemma decided_refused env req db :
  validationErrors req = [] →
  decided db (requestId req) →
  approveClassRequest env req db = (not_pending_response, db)
  ∧ rejectClassRequest env req db = (not_pending_response, db).
Proof. intros Hval (d & Hfind & Hst). by apply (not_pending_refused env req db d). Qed.

(** X6. An approval is final for approve and reject.  Once
    approveClassRequest has answered 200 for a request, run any sequence of
    coordinator calls in which no changeClassRequestStatus moves that
    request to Pending and no adminDeleteClassRequest deletes it: every
    validated approveClassRequest or rejectClassRequest of the request made
    afterwards answers 400 "Class request is not pending" and changes
    nothing. *)
Theorem approved_is_final (env env' : Env) (req req' : Req) (calls : list Call) (db : DB) :
  code (fst (approveClassRequest env req db)) = 200 →
  Forall (fun c => undoes (requestId req) c = false) calls →
  validationErrors req' = [] →
  requestId req' = requestId req →
  approveClassRequest env' req' (run (snd (approveClassRequest env req db)) calls)
  = (not_pending_response, run (snd (approveClassRequest env req db)) calls)
  ∧ rejectClassRequest env' req' (run (snd (approveClassRequest env req db)) calls)
    = (not_pending_response, run (snd (approveClassRequest env req db)) calls).
Proof.
  intros Hcode Hcalls Hval' Hid.
  destruct (decide (validationErrors req = [])) as [Hval|Hval];
    [|by rewrite approve_invalid in Hcode].
  destruct (find_request db (requestId req)) as [r|] eqn:Hfind;
    [|by rewrite approve_not_found in Hcode].
  destruct (decide (status r = Pending)) as [Hst|Hst];
    [|by rewrite (approve_not_pending env req db r) in Hcode].
  destruct (approve_success env req db r Hfind Hst Hcode) as (c & s & Hc & Hs & Hfull & ->).
  pose proof (find_request_id _ _ _ Hfind) as Hrid.
  apply decided_refused; [done|]. rewrite Hid.
  apply run_keeps_decided; [done|].
  exists (approved_doc env req r). split; [|done].
  rewrite <- Hrid. change (r_id r) with (r_id (approved_doc env req r)).
  apply (find_request_committed _ _ r (approved_doc env req r) db); [done|].
  cbn [approved_doc set_status r_id]. by rewrite Hrid.
Qed.

Lemma approved_is_final_witness :
  approveClassRequest env_down (admin_req 1 Approved)
    (run (snd (approveClassRequest env_ok (admin_req 1 Approved) db0)) settle_calls)
  = (not_pending_response,
     run (snd (approveClassRequest env_ok (admin_req 1 Approved) db0)) settle_calls)
  ∧ rejectClassRequest env_down (admin_req 1 Approved)
      (run (snd (approveClassRequest env_ok (admin_req 1 Approved) db0)) settle_calls)
    = (not_pending_response,
       run (snd (approveClassRequest env_ok (admin_req 1 Approved) db0)) settle_calls).
Proof.
  apply (approved_is_final env_ok env_down (admin_req 1 Approved) (admin_req 1 Approved)
           settle_calls db0).
  - vm_compute. reflexivity.
  - repeat constructor.
  - reflexivity.
  - reflexivity.
Defined.

(** The restriction is needed: once a status change has moved the approved
    request back to Pending, it can be approved, or rejected, again. *)
Lemma reopened_request_is_decided_again :
  code (fst (approveClassRequest env_ok (admin_req 1 Approved) db0)) = 200
  ∧ code (fst (approveClassRequest env_ok (admin_req 1 Approved)
                 (run db1 [ChangeStatus env_ok (admin_req 1 Pending)]))) = 200
  ∧ code (fst (rejectClassRequest env_ok (admin_req 1 Rejected)
                 (run db1 [ChangeStatus env_ok (admin_req 1 Pending)]))) = 200.
Proof. vm_compute. repeat split. Qed.

(** X7. A rejection is final for approve and reject, whatever the handler
    answered.  rejectClassRequest saves a Pending request as Rejected
    before it creates the notification, so the stored request is the
    rejected one even when the answer is 500.  After that, and after any
    sequence of coordinator calls in which no changeClassRequestStatus
    moves the request to Pending and no adminDeleteClassRequest deletes it,
    every validated approveClassRequest or rejectClassRequest of the
    request answers 400 "Class request is not pending" and changes
    nothing. *)
Theorem rejected_is_final (env env' : Env) (req req' : Req) (calls : list Call) (db : DB)
    (r : ClassRequest) :
  validationErrors req = [] →
  find_request db (requestId req) = Some r →
  status r = Pending →
  Forall (fun c => undoes (requestId req) c = false) calls →
  validationErrors req' = [] →
  requestId req' = requestId req →
  find_request (snd (rejectClassRequest env req db)) (requestId req)
  = Some (rejected_doc env req r)
  ∧ approveClassRequest env' req' (run (snd (rejectClassRequest env req db)) calls)
    = (not_pending_response, run (snd (rejectClassRequest env req db)) calls)
  ∧ rejectClassRequest env' req' (run (snd (rejectClassRequest env req db)) calls)
    = (not_pending_response, run (snd (rejectClassRequest env req db)) calls).
Proof.
  intros Hval Hfind Hst Hcalls Hval' Hid.
  pose proof (find_request_id _ _ _ Hfind) as Hrid.
  assert (find_request (snd (rejectClassRequest env req db)) (requestId req)
          = Some (rejected_doc env req r)) as Hfind'.
  { rewrite (reject_pending env req db r) by done.
    assert (find_request (save_db (rejected_doc env req r) db) (requestId req)
            = Some (rejected_doc env req r)) as Hsaved.
    { rewrite <- Hrid. change (r_id r) with (r_id (rejected_doc env req r)).
      apply (find_request_save_db r). cbn [rejected_doc set_status r_id]. by rewrite Hrid. }
    destruct (rejectedNotification (populated db r) (adminNote req)) as [n|]; [|done].
    by destruct (notification_ok env n). }
  split; [done|].
  apply decided_refused; [done|]. rewrite Hid.
  apply run_keeps_decided; [done|]. by exists (rejected_doc env req r).
Qed.

Lemma rejected_is_final_witness :
  find_request (snd (rejectClassRequest env_down (admin_req 1 Rejected) db0)) 1
  = Some (rejected_doc env_down (admin_req 1 Rejected) (pending_request 1 11 20))
  ∧ approveClassRequest env_ok (admin_req 1 Approved)
      (run (snd (rejectClassRequest env_down (admin_req 1 Rejected) db0)) settle_calls)
    = (not_pending_response,
       run (snd (rejectClassRequest env_down (admin_req 1 Rejected) db0)) settle_calls)
  ∧ rejectClassRequest env_ok (admin_req 1 Approved)
      (run (snd (rejectClassRequest env_down (admin_req 1 Rejected) db0)) settle_calls)
    = (not_pending_response,
       run (snd (rejectClassRequest env_down (admin_req 1 Rejected) db0)) settle_calls).
Proof.
  apply (rejected_is_final env_down env_ok (admin_req 1 Rejected) (admin_req 1 Approved)
           settle_calls db0 (pending_request 1 11 20)).
  - reflexivity.
  - reflexivity.
  - reflexivity.
  - repeat constructor.
  - reflexivity.
  - reflexivity.
Defined.

(** ** An approval that fails while enrolling *)

(** With a dangling reference the outcome is decided by the capacity check. *)
Lemma approve_dangling_closed env req db r :
  validationErrors req = [] →
  find_request db (requestId req) = Some r →
  status r = Pending →
  ¬ resolved db r →
  approveClassRequest env req db =
  match fst (capacityCheck (populated db r) db) with
  | Ret true => (capacity_response, db)
  | Ret false => (enrol_error, save_db (approved_doc env req r) db)
  | Throw => (server_error, db)
  end.
Proof.
  intros Hval Hfind Hst Hdang. unfold find_request in Hfind.
  unfold approveClassRequest. rewrite Hval. cbn [is_empty negb].
  run_handler. rewrite Hfind. cbn beta iota.
  rewrite (bool_decide_eq_true_2 _ Hst). cbn [negb].
  pose proof (capacityCheck_frame (populated db r) db) as Hfr.
  destruct (capacityCheck (populated db r) db) as [[[|]|] db1]; cbn [snd fst] in *; subst db1.
  - done.
  - by rewrite (addMembership_dangling db r _ Hdang).
  - done.
Qed.

Lemma changeStatus_enter_dangling_closed env req db r :
  validationErrors req = [] →
  find_request db (requestId req) = Some r →
  status r ≠ Approved → body_status req = Approved →
  ¬ resolved db r →
  changeClassRequestStatus env req db =
  match fst (capacityCheck (populated db r) db) with
  | Ret true => (capacity_response, db)
  | _ => (enrol_error, db)
  end.
Proof.
  intros Hval Hfind Hold Hnew Hdang. unfold find_request in Hfind.
  unfold changeClassRequestStatus. rewrite Hval. cbn [is_empty negb].
  run_handler. rewrite Hfind. cbn beta iota zeta.
  rewrite (bool_decide_eq_false_2 _ Hold), (bool_decide_eq_true_2 _ Hnew).
  cbn [negb andb].
  pose proof (capacityCheck_frame (populated db r) db) as Hfr.
  destruct (capacityCheck (populated db r) db) as [[[|]|] db1]; cbn [snd fst] in *; subst db1.
  - done.
  - by rewrite (addMembership_dangling db r db Hdang).
  - done.
Qed.

Lemma capacityCheck_empty_roster db r c :
  classes db !! class r = Some c →
  students db !! student r = None →
  default [] (enrolledStudents c) = [] →
  (0 < capacity c)%Z →
  capacityCheck (populated db r) db = (Ret false, db).
Proof.
  intros Hc Hs Hempty Hroom.
  unfold capacityCheck, bind, deref, ret, populated. cbn [p_class p_student doc].
  rewrite Hc. cbn beta iota.
  assert ((capacity c <=? 0)%Z = false) as Hlt by by apply Z.leb_gt.
  destruct (enrolledStudents c) as [[|a arr]|]; cbn [default] in Hempty; try done;
    unfold some_equals, ret; cbn beta iota zeta;
    cbn [length_or_0 length negb andb]; by rewrite Nat2Z.inj_0, Hlt.
Qed.

(** X8. approveClassRequest saves the request as Approved before it touches
    the membership lists.  Take a Pending request whose class exists, has
    nobody enrolled and has room, and whose student document does not
    exist.  A validated approveClassRequest answers 500 "Error enrolling
    student in class" and leaves the request stored as Approved with no
    Class or Student document changed, so that a later validated approve
    of it is refused as not pending.  changeClassRequestStatus, which saves
    last, answers the same 500 to a request for Approved and leaves the
    database untouched. *)
Theorem approve_enrol_error_keeps_approval (env env' : Env) (req req' : Req) (db : DB)
    (r : ClassRequest) (c : ClassDoc) :
  validationErrors req = [] →
  find_request db (requestId req) = Some r →
  status r = Pending →
  classes db !! class r = Some c →
  students db !! student r = None →
  default [] (enrolledStudents c) = [] →
  (0 < capacity c)%Z →
  validationErrors req' = [] →
  requestId req' = requestId req →
  body_status req' = Approved →
  approveClassRequest env req db = (enrol_error, save_db (approved_doc env req r) db)
  ∧ find_request (save_db (approved_doc env req r) db) (requestId req)
    = Some (approved_doc env req r)
  ∧ classes (save_db (approved_doc env req r) db) = classes db
  ∧ students (save_db (approved_doc env req r) db) = students db
  ∧ approveClassRequest env' req' (save_db (approved_doc env req r) db)
    = (not_pending_response, save_db (approved_doc env req r) db)
  ∧ changeClassRequestStatus env' req' db = (enrol_error, db).
Proof.
  intros Hval Hfind Hst Hc Hs Hempty Hroom Hval' Hid Hnew.
  pose proof (find_request_id _ _ _ Hfind) as Hrid.
  assert (¬ resolved db r) as Hdang.
  { intros [_ [s' Hs']]. congruence. }
  assert (find_request (save_db (approved_doc env req r) db) (requestId req)
          = Some (approved_doc env req r)) as Hsaved.
  { rewrite <- Hrid. change (r_id r) with (r_id (approved_doc env req r)).
    apply (find_request_save_db r). cbn [approved_doc set_status r_id]. by rewrite Hrid. }
  split.
  { rewrite (approve_dangling_closed env req db r) by done.
    by rewrite (capacityCheck_empty_roster db r c). }
  split; [done|]. split; [done|]. split; [done|]. split.
  - apply (approve_not_pending env' req' _ (approved_doc env req r)); [done| |done].
    by rewrite Hid.
  - rewrite <- Hid in Hfind.
    rewrite (changeStatus_enter_dangling_closed env' req' db r); try done;
      [|by rewrite Hst].
    by rewrite (capacityCheck_empty_roster db r c).
Qed.

Lemma approve_enrol_error_keeps_approval_witness :
  approveClassRequest env_ok (admin_req 1 Approved) db_orphan
  = (enrol_error,
     save_db (approved_doc env_ok (admin_req 1 Approved) (pending_request 1 11 20)) db_orphan)
  ∧ find_request
      (save_db (approved_doc env_ok (admin_req 1 Approved) (pending_request 1 11 20))
         db_orphan) 1
    = Some (approved_doc env_ok (admin_req 1 Approved) (pending_request 1 11 20))
  ∧ classes (save_db (approved_doc env_ok (admin_req 1 Approved) (pending_request 1 11 20))
               db_orphan) = classes db_orphan
  ∧ students (save_db (approved_doc env_ok (admin_req 1 Approved) (pending_request 1 11 20))
                db_orphan) = students db_orphan
  ∧ approveClassRequest env_down (admin_req 1 Approved)
      (save_db (approved_doc env_ok (admin_req 1 Approved) (pending_request 1 11 20))
         db_orphan)
    = (not_pending_response,
       save_db (approved_doc env_ok (admin_req 1 Approved) (pending_request 1 11 20))
         db_orphan)
  ∧ changeClassRequestStatus env_down (admin_req 1 Approved) db_orphan
    = (enrol_error, db_orphan).
Proof.
  apply (approve_enrol_error_keeps_approval env_ok env_down (admin_req 1 Approved)
           (admin_req 1 Approved) db_orphan (pending_request 1 11 20) grade9).
  - reflexivity.
  - reflexivity.
  - reflexivity.
  - reflexivity.
  - reflexivity.
  - reflexivity.
  - reflexivity.
  - reflexivity.
  - reflexivity.
  - reflexivity.
Defined.

(** ** What adminDeleteClassRequest does *)

(** X9. adminDeleteClassRequest answers 404 and changes nothing when the
    request does not exist.  Otherwise the request is removed, whatever the
    answer, and every other request is kept as it was; the answer is 500
    exactly when a reference of the request dangles (the response is built
    after the deletion) and 200 otherwise; and when the request is not
    Approved, or a reference dangles, no Class or Student document
    changes. *)
Theorem adminDelete_outcome (env : Env) (req : Req) (db : DB) :
  (find_request db (requestId req) = None →
   adminDeleteClassRequest env req db
   = (json 404 (BMessage "Class request not found"), db))
  ∧ (∀ r, find_request db (requestId req) = Some r →
       find_request (snd (adminDeleteClassRequest env req db)) (requestId req) = None
       ∧ requests (snd (adminDeleteClassRequest env req db))
         = List.filter (fun d => negb (Nat.eqb (r_id d) (requestId req))) (requests db)
       ∧ (resolved db r → code (fst (adminDeleteClassRequest env req db)) = 200)
       ∧ (¬ resolved db r → fst (adminDeleteClassRequest env req db) = server_error)
       ∧ (status r ≠ Approved ∨ ¬ resolved db r →
          classes (snd (adminDeleteClassRequest env req db)) = classes db
          ∧ students (snd (adminDeleteClassRequest env req db)) = students db)).
Proof.
  split; [apply adminDelete_not_found|].
  intros r Hfind.
  destruct (resolved_dec_cases db r) as [(c & s & Hc & Hs)|Hdang].
  - rewrite (adminDelete_resolved env req db r c s) by done. cbn [fst snd].
    split; [apply find_request_delete_db|].
    split.
    { unfold delete_db, set_requests. cbn [requests]. rewrite swallow_requests.
      by destruct (bool_decide (status r = Approved)). }
    split; [done|]. split.
    { intros Hn. exfalso. apply Hn. split; by eexists. }
    intros [Hst|Hn].
    + rewrite (bool_decide_eq_false_2 _ Hst).
      unfold delete_db, set_requests. cbn [classes students].
      by rewrite swallow_classes, swallow_students.
    + exfalso. apply Hn. split; by eexists.
  - rewrite (adminDelete_dangling env req db r) by done. cbn [fst snd].
    split; [apply find_request_delete_db|].
    split.
    { unfold delete_db, set_requests. cbn [requests]. by rewrite swallow_requests. }
    split; [done|]. split; [done|].
    intros _. unfold delete_db, set_requests. cbn [classes students].
    by rewrite swallow_classes, swallow_students.
Qed.

(** ** approveClassRequest against changeClassRequestStatus *)

(** X10. On a Pending request whose references resolve, approveClassRequest
    and changeClassRequestStatus to Approved agree: they answer with the
    same code (200, or 400 when the class is full), leave the same Class and
    Student collections, and on success both store the request as
    Approved. *)
Theorem approve_agrees_with_changeStatus (env : Env) (req : Req) (db : DB)
    (r : ClassRequest) :
  validationErrors req = [] →
  find_request db (requestId req) = Some r →
  status r = Pending →
  body_status req = Approved →
  resolved db r →
  code (fst (approveClassRequest env req db))
  = code (fst (changeClassRequestStatus env req db))
  ∧ classes (snd (approveClassRequest env req db))
    = classes (snd (changeClassRequestStatus env req db))
  ∧ students (snd (approveClassRequest env req db))
    = students (snd (changeClassRequestStatus env req db))
  ∧ (code (fst (approveClassRequest env req db)) = 200 →
     status <$> find_request (snd (approveClassRequest env req db)) (requestId req)
     = Some Approved
     ∧ status <$> find_request (snd (changeClassRequestStatus env req db)) (requestId req)
       = Some Approved).
Proof.
  intros Hval Hfind Hst Hnew [[c Hc] [s Hs]].
  pose proof (find_request_id _ _ _ Hfind) as Hrid.
  rewrite (approve_resolved env req db r c s) by done.
  rewrite (changeStatus_enter_resolved env req db r c s) by (done || by rewrite Hst).
  destruct (is_full r c); [done|]. cbn [fst snd code json changed_response].
  rewrite !swallow_classes, !swallow_students. split; [done|].
  split; [done|]. split; [done|]. intros _. split.
  - rewrite <- Hrid. change (r_id r) with (r_id (approved_doc env req r)).
    rewrite (find_request_committed _ _ r (approved_doc env req r) db); [done|done|].
    cbn [approved_doc set_status r_id]. by rewrite Hrid.
  - rewrite <- Hrid. change (r_id r) with (r_id (changed_doc env req r)).
    rewrite (find_request_committed _ _ r (changed_doc env req r) (enrol_db r c s db));
      [by cbn; rewrite Hnew|done|].
    cbn [changed_doc set_status r_id]. unfold find_request, enrol_db. cbn [requests].
    fold (find_request db (r_id r)). by rewrite Hrid.
Qed.

Lemma approve_agrees_with_changeStatus_witness :
  code (fst (approveClassRequest env_ok (admin_req 1 Approved) db0))
  = code (fst (changeClassRequestStatus env_ok (admin_req 1 Approved) db0))
  ∧ classes (snd (approveClassRequest env_ok (admin_req 1 Approved) db0))
    = classes (snd (changeClassRequestStatus env_ok (admin_req 1 Approved) db0))
  ∧ students (snd (approveClassRequest env_ok (admin_req 1 Approved) db0))
    = students (snd (changeClassRequestStatus env_ok (admin_req 1 Approved) db0))
  ∧ (code (fst (approveClassRequest env_ok (admin_req 1 Approved) db0)) = 200 →
     status <$> find_request (snd (approveClassRequest env_ok (admin_req 1 Approved) db0)) 1
     = Some Approved
     ∧ status <$> find_request
                    (snd (changeClassRequestStatus env_ok (admin_req 1 Approved) db0)) 1
       = Some Approved).
Proof.
  apply (approve_agrees_with_changeStatus env_ok (admin_req 1 Approved) db0
           (pending_request 1 11 20)).
  - reflexivity.
  - reflexivity.
  - reflexivity.
  - reflexivity.
  - split; eexists; vm_compute; reflexivity.
Defined.

(** ** Only the membership lists of classes and students change *)

Lemma effect_frame db db' :
  effect db db' ∨ same_members db db' →
  (∀ cid, class_frame <$> classes db' !! cid = class_frame <$> classes db !! cid)
  ∧ (∀ sid, student_frame <$> students db' !! sid = student_frame <$> students db !! sid).
Proof.
  intros [Heff|[Hc Hs]]; [|by rewrite Hc, Hs].
  destruct Heff as [r c s Hc Hs Hfull -> ->|r c s Hc Hs -> ->];
    unfold enrol_db, unenrol_db; cbn [classes students]; split.
  - intros cid. case_bool_decide; [done|].
    destruct (decide (cid = class r)) as [->|Hne];
      [by rewrite lookup_insert_eq, Hc|by rewrite lookup_insert_ne].
  - intros sid. case_bool_decide; [done|].
    destruct (decide (sid = student r)) as [->|Hne];
      [by rewrite lookup_insert_eq, Hs|by rewrite lookup_insert_ne].
  - intros cid. destruct (enrolledStudents c) as [arr|]; [|done].
    destruct (negb _); [|done].
    destruct (decide (cid = class r)) as [->|Hne];
      [by rewrite lookup_insert_eq, Hc|by rewrite lookup_insert_ne].
  - intros sid. destruct (enrolledClasses s) as [arr|]; [|done].
    destruct (negb _); [|done].
    destruct (decide (sid = student r)) as [->|Hne];
      [by rewrite lookup_insert_eq, Hs|by rewrite lookup_insert_ne].
Qed.

Lemma effects_frame db db' :
  effects db db' →
  (∀ cid, class_frame <$> classes db' !! cid = class_frame <$> classes db !! cid)
  ∧ (∀ sid, student_frame <$> students db' !! sid = student_frame <$> students db !! sid).
Proof.
  induction 1 as [db|db db1 db2 H1 _ [IHc IHs]]; [done|].
  destruct (effect_frame db db1 H1) as [Hc Hs].
  split; intros x; [by rewrite IHc, Hc|by rewrite IHs, Hs].
Qed.

Lemma effects_resolved db db' r : effects db db' → resolved db' r ↔ resolved db r.
Proof.
  intros [Hc Hs]%effects_frame. unfold resolved.
  rewrite <- !fmap_is_Some with (f := class_frame), Hc.
  assert (is_Some (students db' !! student r) ↔ is_Some (students db !! student r)) as ->; [|done].
  rewrite <- (fmap_is_Some student_frame (students db' !! student r)), Hs.
  apply fmap_is_Some.
Qed.

(** X11. No sequence of coordinator calls creates or deletes a Class or a
    Student document, and none changes any of their fields other than the
    membership lists: type, grade, category, isActive and capacity of every
    class, and userId, names and registration status of every student, are
    what they were. *)
Theorem only_membership_lists_change (calls : list Call) (db : DB) :
  (∀ cid, class_frame <$> classes (run db calls) !! cid = class_frame <$> classes db !! cid)
  ∧ (∀ sid, student_frame <$> students (run db calls) !! sid
            = student_frame <$> students db !! sid).
Proof. apply effects_frame, run_effects. Qed.

(** ** The bulk approval as a sequence of single approvals *)

Lemma map_r_id_replace r' l : List.map r_id (replace_request r' l) = List.map r_id l.
Proof.
  induction l as [|d l IH]; [done|]. unfold replace_request in *. cbn [List.map].
  rewrite IH. f_equal. by destruct (Nat.eqb_spec (r_id d) (r_id r')).
Qed.

Lemma replace_request_keeps r' d l :
  d ∈ l → r_id d ≠ r_id r' → d ∈ replace_request r' l.
Proof.
  intros Hin Hne. unfold replace_request. apply list_elem_of_In, in_map_iff.
  exists d. split; [|by apply list_elem_of_In].
  by destruct (Nat.eqb_spec (r_id d) (r_id r')).
Qed.

Lemma map_key_replace r1 r2 l1 l2 :
  List.map request_key l1 = List.map request_key l2 →
  request_key r1 = request_key r2 →
  List.map request_key (replace_request r1 l1) = List.map request_key (replace_request r2 l2).
Proof.
  intros Hl Hr. revert l2 Hl. induction l1 as [|d1 l1 IH]; intros [|d2 l2] Hl; try done.
  unfold replace_request in *. cbn [List.map] in *.
  pose proof (f_equal head Hl) as Hd. pose proof (f_equal tail Hl) as Ht.
  cbn [head tail] in Hd, Ht. apply (inj Some) in Hd.
  rewrite (IH l2 Ht). f_equal.
  assert (r_id d1 = r_id d2) as -> by (unfold request_key in Hd; congruence).
  assert (r_id r1 = r_id r2) as -> by (unfold request_key in Hr; congruence).
  by destruct (Nat.eqb (r_id d2) (r_id r2)).
Qed.

Lemma find_request_unique db r :
  unique_ids db → r ∈ requests db → find_request db (r_id r) = Some r.
Proof.
  unfold unique_ids, find_request. induction (requests db) as [|d l IH]; intros Hnd Hin.
  - by apply elem_of_nil in Hin.
  - cbn [List.map] in Hnd. apply NoDup_cons in Hnd as [Hd Hnd]. cbn [List.find].
    apply elem_of_cons in Hin as [->|Hin]; [by rewrite Nat.eqb_refl|].
    destruct (Nat.eqb_spec (r_id d) (r_id r)) as [E|E]; [|by apply IH].
    exfalso. apply Hd. rewrite E. apply list_elem_of_In, in_map, list_elem_of_In, Hin.
Qed.

Lemma unique_ids_pending db : unique_ids db → NoDup (List.map r_id (pending_requests db)).
Proof.
  unfold unique_ids, pending_requests. induction (requests db) as [|d l IH]; [done|].
  cbn [List.map List.filter]. intros [Hd Hnd]%NoDup_cons.
  destruct (bool_decide (status d = Pending)); [|by apply IH].
  cbn [List.map]. apply NoDup_cons. split; [|by apply IH].
  intros Hin. apply Hd.
  apply list_elem_of_In, in_map_iff in Hin as (x & Hx & Hin%filter_In).
  apply list_elem_of_In, in_map_iff. exists x. tauto.
Qed.

Lemma pending_requests_spec db r :
  r ∈ pending_requests db ↔ r ∈ requests db ∧ status r = Pending.
Proof.
  unfold pending_requests. rewrite !list_elem_of_In, filter_In, bool_decide_eq_true. done.
Qed.

Lemma approveEach_simulation env req l :
  validationErrors req = [] →
  ∀ acc dbB dbS,
    classes dbB = classes dbS → students dbB = students dbS → same_requests dbB dbS →
    unique_ids dbS → NoDup (List.map r_id l) →
    (∀ r, r ∈ l → r ∈ requests dbS ∧ status r = Pending) →
    Forall (resolved dbB) l →
    ∃ acc' dbB',
      approveEach env req l acc dbB = (Ret acc', dbB')
      ∧ classes dbB' = classes (run dbS (List.map (approve_call env req) l))
      ∧ students dbB' = students (run dbS (List.map (approve_call env req) l))
      ∧ same_requests dbB' (run dbS (List.map (approve_call env req) l)).
Proof.
  intros Hval. induction l as [|r l IH]; intros acc dbB dbS Hc Hs Hk Huniq Hnd Hin Hres.
  { exists acc, dbB. by cbn. }
  apply Forall_cons in Hres as [[[c Hcl] [s Hst]] Hres].
  cbn [List.map] in Hnd. apply NoDup_cons in Hnd as [Hr Hnd].
  destruct (Hin r) as [Hrin Hpend]; [by left|].
  cbn [approveEach List.map run fold_left]. unfold bind.
  rewrite (approveOne_resolved env req r acc dbB c s Hcl Hst).
  fold (run (snd (step dbS (approve_call env req r))) (List.map (approve_call env req) l)).
  cbn [approve_call step].
  rewrite (approve_resolved env (for_request req (r_id r)) dbS r c s);
    [|done|by apply find_request_unique|done|by rewrite <- Hc|by rewrite <- Hs].
  destruct (is_full r c).
  - cbn [snd]. apply IH; try done. intros r2 H2. apply Hin. by right.
  - cbn [snd]. apply IH.
    + unfold bulk_approved_db. rewrite !swallow_classes.
      unfold save_db, set_requests, enrol_db. cbn [classes]. by rewrite Hc.
    + unfold bulk_approved_db. rewrite !swallow_students.
      unfold save_db, set_requests, enrol_db. cbn [students]. by rewrite Hs.
    + unfold same_requests. rewrite bulk_approved_requests, swallow_requests.
      unfold enrol_db, save_db, set_requests. cbn [requests].
      by apply map_key_replace.
    + unfold unique_ids. rewrite swallow_requests.
      unfold enrol_db, save_db, set_requests. cbn [requests].
      by rewrite map_r_id_replace.
    + done.
    + intros r2 H2. destruct (Hin r2) as [H2in H2p]; [by right|]. split; [|done].
      rewrite swallow_requests. unfold enrol_db, save_db, set_requests. cbn [requests].
      apply replace_request_keeps; [done|].
      cbn [approved_doc set_status r_id]. intros E. apply Hr. rewrite <- E.
      apply list_elem_of_In, in_map, list_elem_of_In, H2.
    + eapply Forall_impl; [exact Hres|]. intros r2. by apply bulk_approved_resolved.
Qed.

(** X12. When every request has its own id and the references of the
    Pending requests resolve, approveAllPendingRequests leaves the Class and
    Student collections exactly as approveClassRequest would, called once
    for each Pending request in the order of the snapshot, and the stored
    requests agree up to their admin responses. *)
Theorem bulk_is_sequence_of_approvals (env : Env) (req : Req) (db : DB) :
  validationErrors req = [] →
  unique_ids db →
  Forall (resolved db) (pending_requests db) →
  classes (snd (approveAllPendingRequests env req db))
  = classes (run db (List.map (approve_call env req) (pending_requests db)))
  ∧ students (snd (approveAllPendingRequests env req db))
    = students (run db (List.map (approve_call env req) (pending_requests db)))
  ∧ same_requests (snd (approveAllPendingRequests env req db))
      (run db (List.map (approve_call env req) (pending_requests db))).
Proof.
  intros Hval Huniq Hres.
  destruct (approveEach_simulation env req (pending_requests db) Hval bulk0 db db)
    as (acc & db' & Heach & Hsim); try done.
  { by apply unique_ids_pending. }
  { intros r. apply pending_requests_spec. }
  rewrite approveAll_unfold by done.
  destruct (pending_requests db) as [|r l] eqn:Hp; [done|].
  by rewrite Heach.
Qed.

Lemma bulk_is_sequence_of_approvals_witness :
  classes (snd (approveAllPendingRequests env_ok (admin_req 0 Approved) db0))
  = classes (run db0 (List.map (approve_call env_ok (admin_req 0 Approved))
                        (pending_requests db0)))
  ∧ students (snd (approveAllPendingRequests env_ok (admin_req 0 Approved) db0))
    = students (run db0 (List.map (approve_call env_ok (admin_req 0 Approved))
                           (pending_requests db0)))
  ∧ same_requests (snd (approveAllPendingRequests env_ok (admin_req 0 Approved) db0))
      (run db0 (List.map (approve_call env_ok (admin_req 0 Approved))
                  (pending_requests db0))).
Proof.
  apply (bulk_is_sequence_of_approvals env_ok (admin_req 0 Approved) db0).
  - reflexivity.
  - unfold unique_ids. apply NoDup_ListNoDup. vm_compute.
    repeat constructor; cbn; intuition lia.
  - vm_compute. repeat constructor; eexists; reflexivity.
Defined.

(** ** A bulk approval that meets a dangling reference *)

Lemma approveEach_app env req l1 l2 acc db :
  approveEach env req (l1 ++ l2) acc db =
  match approveEach env req l1 acc db with
  | (Ret acc', db') => approveEach env req l2 acc' db'
  | (Throw, db') => (Throw, db')
  end.
Proof.
  revert acc db. induction l1 as [|r l1 IH]; intros acc db; [done|].
  cbn [app approveEach]. unfold bind.
  destruct (approveOne env req r acc db) as [[acc1|] db1]; [apply IH|done].
Qed.

(** X13. The bulk approval stops at the first Pending request with a
    dangling reference: it answers 500, the requests after it are not
    looked at, and nothing is rolled back.  The Class and Student
    collections are left as single approvals of the requests before it
    would leave them, and the stored requests agree with theirs up to the
    admin responses. *)
Theorem bulk_stops_at_dangling (env : Env) (req : Req) (db : DB)
    (l1 l2 : list ClassRequest) (r : ClassRequest) :
  validationErrors req = [] →
  unique_ids db →
  pending_requests db = (l1 ++ r :: l2)%list →
  Forall (resolved db) l1 →
  ¬ resolved db r →
  fst (approveAllPendingRequests env req db) = server_error
  ∧ classes (snd (approveAllPendingRequests env req db))
    = classes (run db (List.map (approve_call env req) l1))
  ∧ students (snd (approveAllPendingRequests env req db))
    = students (run db (List.map (approve_call env req) l1))
  ∧ same_requests (snd (approveAllPendingRequests env req db))
      (run db (List.map (approve_call env req) l1)).
Proof.
  intros Hval Huniq Hp Hres Hdang.
  pose proof (unique_ids_pending db Huniq) as Hnd. rewrite Hp in Hnd.
  rewrite map_app in Hnd. apply NoDup_app in Hnd as (Hnd1 & _ & _).
  destruct (approveEach_simulation env req l1 Hval bulk0 db db)
    as (acc & db' & Heach & Hsim); try done.
  { intros r1 H1. apply pending_requests_spec. rewrite Hp, elem_of_app. by left. }
  rewrite approveAll_unfold by done. rewrite Hp.
  assert (¬ resolved db' r) as Hdang'.
  { pose proof (approveEach_effects env req l1 bulk0 db) as Heff.
    rewrite Heach in Heff. cbn [snd] in Heff. by rewrite (effects_resolved db db' r Heff). }
  assert (approveEach env req (l1 ++ r :: l2) bulk0 db = (Throw, db')) as Hall.
  { rewrite approveEach_app, Heach. cbn [approveEach]. unfold bind.
    by rewrite approveOne_dangling. }
  rewrite Hall. by destruct (l1 ++ r :: l2)%list.
Qed.

Lemma bulk_stops_at_dangling_witness :
  fst (approveAllPendingRequests env_ok (admin_req 0 Approved) db_gap) = server_error
  ∧ classes (snd (approveAllPendingRequests env_ok (admin_req 0 Approved) db_gap))
    = classes (run db_gap (List.map (approve_call env_ok (admin_req 0 Approved))
                             [pending_request 1 11 20]))
  ∧ students (snd (approveAllPendingRequests env_ok (admin_req 0 Approved) db_gap))
    = students (run db_gap (List.map (approve_call env_ok (admin_req 0 Approved))
                              [pending_request 1 11 20]))
  ∧ same_requests (snd (approveAllPendingRequests env_ok (admin_req 0 Approved) db_gap))
      (run db_gap (List.map (approve_call env_ok (admin_req 0 Approved))
                     [pending_request 1 11 20])).
Proof.
  apply (bulk_stops_at_dangling env_ok (admin_req 0 Approved) db_gap
           [pending_request 1 11 20] [pending_request 3 12 20] (pending_request 2 13 20)).
  - reflexivity.
  - unfold unique_ids. apply NoDup_ListNoDup. vm_compute.
    repeat constructor; cbn; intuition lia.
  - reflexivity.
  - repeat constructor; eexists; vm_compute; reflexivity.
  - intros [_ [s Hs]]. vm_compute in Hs. discriminate Hs.
Defined.

(** ** The count of Pending requests *)

Lemma pending_count_length db : pending_count db = Some (length (pending_requests db)).
Proof. done. Qed.

Lemma getPendingClassRequestsCount_frame db : snd (getPendingClassRequestsCount db) = db.
Proof. done. Qed.

Lemma pending_length_decide r r' l :
  NoDup (List.map r_id l) → r ∈ l → status r = Pending → status r' ≠ Pending →
  r_id r' = r_id r →
  length (List.filter (fun d => bool_decide (status d = Pending)) (replace_request r' l)) + 1
  = length (List.filter (fun d => bool_decide (status d = Pending)) l).
Proof.
  intros Hnd Hin Hst Hst' Hid. induction l as [|d l IH]; [by apply elem_of_nil in Hin|].
  unfold replace_request in *. cbn [List.map] in *.
  apply NoDup_cons in Hnd as [Hd Hnd]. cbn [List.filter].
  apply elem_of_cons in Hin as [<-|Hin].
  - rewrite Hid, Nat.eqb_refl. rewrite (bool_decide_eq_false_2 _ Hst').
    rewrite (bool_decide_eq_true_2 _ Hst). cbn [length].
    assert (List.map (λ d, if Nat.eqb (r_id d) (r_id r) then r' else d) l = l) as ->; [|lia].
    rewrite <- (map_id l) at 2. apply map_ext_in. intros d Hdin.
    destruct (Nat.eqb_spec (r_id d) (r_id r)) as [E|E]; [|done].
    exfalso. apply Hd. rewrite <- E. apply list_elem_of_In, in_map, Hdin.
  - destruct (Nat.eqb_spec (r_id d) (r_id r')) as [E|E].
    + exfalso. apply Hd. rewrite E, Hid. apply list_elem_of_In, in_map, list_elem_of_In, Hin.
    + specialize (IH Hnd Hin). destruct (bool_decide (status d = Pending)); cbn [length]; lia.
Qed.

Lemma pending_length_delete r l :
  NoDup (List.map r_id l) → r ∈ l → status r = Pending →
  length (List.filter (fun d => bool_decide (status d = Pending))
            (List.filter (fun d => negb (Nat.eqb (r_id d) (r_id r))) l)) + 1
  = length (List.filter (fun d => bool_decide (status d = Pending)) l).
Proof.
  intros Hnd Hin Hst. induction l as [|d l IH]; [by apply elem_of_nil in Hin|].
  cbn [List.map] in *. apply NoDup_cons in Hnd as [Hd Hnd]. cbn [List.filter].
  apply elem_of_cons in Hin as [<-|Hin].
  - rewrite Nat.eqb_refl. cbn [negb]. rewrite (bool_decide_eq_true_2 _ Hst). cbn [length].
    assert (List.filter (λ d, negb (Nat.eqb (r_id d) (r_id r))) l = l) as ->; [|lia].
    apply forallb_filter_id, forallb_forall. intros d Hdin.
    destruct (Nat.eqb_spec (r_id d) (r_id r)) as [E|E]; [|done].
    exfalso. apply Hd. rewrite <- E. apply list_elem_of_In, in_map, Hdin.
  - destruct (Nat.eqb_spec (r_id d) (r_id r)) as [E|E].
    + exfalso. apply Hd. rewrite E. apply list_elem_of_In, in_map, list_elem_of_In, Hin.
    + cbn [negb List.filter]. specialize (IH Hnd Hin).
      destruct (bool_decide (status d = Pending)); cbn [length]; lia.
Qed.

Lemma find_request_elem_of db rid r : find_request db rid = Some r → r ∈ requests db.
Proof. unfold find_request. intros H. apply find_some in H as [H _]. by apply list_elem_of_In. Qed.

(** X14. The count of getPendingClassRequestsCount follows the write
    handlers.  In a database whose requests have distinct ids, a create
    that answers 201 raises it by one; an approve that answers 200, a
    validated reject of a Pending request (whatever it answers) and a
    student delete that answers 200 each lower it by one.  The handler
    itself changes nothing. *)
Theorem pending_count_bookkeeping (env : Env) (req : Req) (db : DB) (n : nat) :
  unique_ids db →
  pending_count db = Some n →
  snd (getPendingClassRequestsCount db) = db
  ∧ (code (fst (createClassRequest env req db)) = 201 →
     pending_count (snd (createClassRequest env req db)) = Some (n + 1))
  ∧ (code (fst (approveClassRequest env req db)) = 200 →
     ∃ m, n = m + 1 ∧ pending_count (snd (approveClassRequest env req db)) = Some m)
  ∧ (validationErrors req = [] →
     (∃ r, find_request db (requestId req) = Some r ∧ status r = Pending) →
     ∃ m, n = m + 1 ∧ pending_count (snd (rejectClassRequest env req db)) = Some m)
  ∧ (code (fst (deleteClassRequest req db)) = 200 →
     ∃ m, n = m + 1 ∧ pending_count (snd (deleteClassRequest req db)) = Some m).
Proof.
  intros Huniq Hn. rewrite pending_count_length in Hn. injection Hn as <-.
  split; [done|]. split; [|split; [|split]].
  - intros Hcode. rewrite pending_count_length. f_equal.
    destruct (create_cases env req db)
      as [[E _]|[E|[E|[E|[E|[E|[E|(sid & s & c & _ & _ & _ & _ & _ & _ & _ & _ & E)]]]]]]];
      rewrite E in Hcode |- *; try done.
    unfold pending_requests. cbn [snd insertRequest requests set_requests].
    rewrite List.filter_app, length_app. done.
  - intros Hcode.
    destruct (decide (validationErrors req = [])) as [Hval|Hval];
      [|by rewrite approve_invalid in Hcode].
    destruct (find_request db (requestId req)) as [r|] eqn:Hfind;
      [|by rewrite approve_not_found in Hcode].
    destruct (decide (status r = Pending)) as [Hst|Hst];
      [|by rewrite (approve_not_pending env req db r) in Hcode].
    destruct (approve_success env req db r Hfind Hst Hcode) as (c & s & _ & _ & _ & ->).
    exists (length (pending_requests
                      (after (swallow env (approvedNotification (populated db r) (adminNote req)))
                         (enrol_db r c s (save_db (approved_doc env req r) db))))).
    split; [|done]. unfold pending_requests. rewrite swallow_requests.
    unfold enrol_db, save_db, set_requests. cbn [requests]. symmetry.
    apply (pending_length_decide r); try done. by apply (find_request_elem_of _ (requestId req)).
  - intros Hval (r & Hfind & Hst).
    exists (length (pending_requests (snd (rejectClassRequest env req db)))).
    split; [|done].
    assert (requests (snd (rejectClassRequest env req db))
            = replace_request (rejected_doc env req r) (requests db)) as Hreq.
    { rewrite (reject_pending env req db r) by done.
      destruct (rejectedNotification (populated db r) (adminNote req)) as [k|]; [|done].
      by destruct (notification_ok env k). }
    unfold pending_requests. rewrite Hreq. symmetry.
    apply (pending_length_decide r); try done. by apply (find_request_elem_of _ (requestId req)).
  - intros Hcode. rewrite delete_cases in Hcode |- *.
    destruct (student_of_user db (user_id req)) as [[sid s]|]; [|done].
    destruct (find_request db (requestId req)) as [r|] eqn:Hfind; [|done].
    destruct (negb (id_equals (student r) sid)); [done|].
    destruct (bool_decide (status r = Pending)) eqn:Hst; [|done].
    apply bool_decide_eq_true in Hst. cbn [negb snd].
    exists (length (pending_requests (delete_db (requestId req) db))).
    split; [|done]. unfold pending_requests, delete_db, set_requests. cbn [requests].
    rewrite <- (find_request_id _ _ _ Hfind). symmetry.
    apply pending_length_delete; try done. by apply (find_request_elem_of _ (requestId req)).
Qed.

Lemma pending_count_bookkeeping_witness :
  snd (getPendingClassRequestsCount db_rejected) = db_rejected
  ∧ (code (fst (createClassRequest env_ok (create_req 101 20) db_rejected)) = 201 →
     pending_count (snd (createClassRequest env_ok (create_req 101 20) db_rejected))
     = Some (1 + 1))
  ∧ (code (fst (approveClassRequest env_ok (create_req 101 20) db_rejected)) = 200 →
     ∃ m, 1 = m + 1
          ∧ pending_count (snd (approveClassRequest env_ok (create_req 101 20) db_rejected))
            = Some m)
  ∧ (validationErrors (create_req 101 20) = [] →
     (∃ r, find_request db_rejected (requestId (create_req 101 20)) = Some r
           ∧ status r = Pending) →
     ∃ m, 1 = m + 1
          ∧ pending_count (snd (rejectClassRequest env_ok (create_req 101 20) db_rejected))
            = Some m)
  ∧ (code (fst (deleteClassRequest (create_req 101 20) db_rejected)) = 200 →
     ∃ m, 1 = m + 1
          ∧ pending_count (snd (deleteClassRequest (create_req 101 20) db_rejected)) = Some m).
Proof.
  apply (pending_count_bookkeeping env_ok (create_req 101 20) db_rejected 1).
  - unfold unique_ids. apply NoDup_ListNoDup. vm_compute.
    repeat constructor; cbn; intuition lia.
  - vm_compute. reflexivity.
Defined.

(** ** The bulk approval and the count *)

Lemma approveEach_pending_count env req l :
  ∀ acc db acc' db',
    approveEach env req l acc db = (Ret acc', db') →
    unique_ids db → NoDup (List.map r_id l) →
    (∀ r, r ∈ l → r ∈ requests db ∧ status r = Pending) →
    approvedCount acc' + failedCount acc' = approvedCount acc + failedCount acc + length l
    ∧ length (pending_requests db') + approvedCount acc'
      = length (pending_requests db) + approvedCount acc.
Proof.
  induction l as [|r l IH]; intros acc db acc' db' Heach Huniq Hnd Hin.
  { cbn in Heach. injection Heach as <- <-. cbn [length]. lia. }
  cbn [List.map] in Hnd. apply NoDup_cons in Hnd as [Hr Hnd].
  destruct (Hin r) as [Hrin Hpend]; [by left|].
  cbn [approveEach] in Heach. unfold bind in Heach.
  destruct (resolved_dec_cases db r) as [(c & s & Hc & Hs)|Hdang];
    [|by rewrite approveOne_dangling in Heach].
  rewrite (approveOne_resolved env req r acc db c s Hc Hs) in Heach.
  destruct (is_full r c).
  - apply IH in Heach; try done.
    + cbn [record_failure approvedCount failedCount length] in *. lia.
    + intros r2 H2. apply Hin. by right.
  - apply IH in Heach; try done.
    + cbn [record_approval approvedCount failedCount length] in *.
      assert (length (pending_requests (bulk_approved_db env req r c s db)) + 1
              = length (pending_requests db)) as Hone; [|lia].
      unfold pending_requests. rewrite bulk_approved_requests.
      by apply (pending_length_decide r).
    + unfold unique_ids. by rewrite bulk_approved_requests, map_r_id_replace.
    + intros r2 H2. destruct (Hin r2) as [H2in H2p]; [by right|]. split; [|done].
      rewrite bulk_approved_requests. apply replace_request_keeps; [done|].
      cbn [bulk_doc set_status r_id]. intros E. apply Hr. rewrite <- E.
      apply list_elem_of_In, in_map, list_elem_of_In, H2.
Qed.

(** X15. When approveAllPendingRequests answers 200 on a database whose
    requests have distinct ids, its two counters add up to the count of
    Pending requests before the call, and the requests still Pending after
    it are exactly as many as failedCount: the count endpoint then reports
    failedCount. *)
Theorem bulk_leaves_failures_pending (env : Env) (req : Req) (db : DB) :
  unique_ids db →
  code (fst (approveAllPendingRequests env req db)) = 200 →
  ∃ msg approved failed fl,
    body (fst (approveAllPendingRequests env req db)) = BBulk msg approved failed fl
    ∧ pending_count db = Some (approved + failed)
    ∧ pending_count (snd (approveAllPendingRequests env req db)) = Some failed.
Proof.
  intros Huniq Hcode.
  destruct (decide (validationErrors req = [])) as [Hval|Hval];
    [|by rewrite approveAll_invalid in Hcode].
  rewrite approveAll_unfold in Hcode |- * by done.
  destruct (pending_requests db) as [|r0 l0] eqn:Hp; [done|]. rewrite <- Hp in *.
  destruct (approveEach env req (pending_requests db) bulk0 db) as [[acc|] db'] eqn:Heach;
    [|done].
  destruct (approveEach_pending_count env req _ _ _ _ _ Heach Huniq) as [Hsum Hleft].
  { by apply unique_ids_pending. }
  { intros r. apply pending_requests_spec. }
  cbn [bulk0 approvedCount failedCount] in Hsum, Hleft.
  unfold bulk_summary. cbn [fst snd body json].
  eexists _, (approvedCount acc), (failedCount acc), _. split; [done|].
  rewrite !pending_count_length. split; f_equal; lia.
Qed.

Lemma bulk_leaves_failures_pending_witness :
  ∃ msg approved failed fl,
    body (fst (approveAllPendingRequests env_ok (admin_req 0 Approved) db0))
    = BBulk msg approved failed fl
    ∧ pending_count db0 = Some (approved + failed)
    ∧ pending_count (snd (approveAllPendingRequests env_ok (admin_req 0 Approved) db0))
      = Some failed.
Proof.
  apply (bulk_leaves_failures_pending env_ok (admin_req 0 Approved) db0).
  - unfold unique_ids. apply NoDup_ListNoDup. vm_compute.
    repeat constructor; cbn; intuition lia.
  - vm_compute. reflexivity.
Defined.

(** ** Notifications are write-only, and their failure is invisible
    outside rejectClassRequest *)

Lemma same_data_swallow env1 env2 p1 p2 db1 db2 :
  same_data db1 db2 →
  same_data (after (swallow env1 p1) db1) (after (swallow env2 p2) db2).
Proof.
  intros (Hr & Hc & Hs). unfold same_data.
  by rewrite !swallow_requests, !swallow_classes, !swallow_students.
Qed.

Lemma same_data_save r' db1 db2 :
  same_data db1 db2 → same_data (save_db r' db1) (save_db r' db2).
Proof.
  intros (Hr & Hc & Hs). unfold same_data, save_db, set_requests.
  cbn [requests classes students]. by rewrite Hr.
Qed.

Lemma same_data_delete rid db1 db2 :
  same_data db1 db2 → same_data (delete_db rid db1) (delete_db rid db2).
Proof.
  intros (Hr & Hc & Hs). unfold same_data, delete_db, set_requests.
  cbn [requests classes students]. by rewrite Hr.
Qed.

Lemma same_data_enrol r c s db1 db2 :
  same_data db1 db2 → same_data (enrol_db r c s db1) (enrol_db r c s db2).
Proof.
  intros (Hr & Hc & Hs). unfold same_data, enrol_db.
  cbn [requests classes students]. by rewrite Hr, Hc, Hs.
Qed.

Lemma same_data_unenrol r c s db1 db2 :
  same_data db1 db2 → same_data (unenrol_db r c s db1) (unenrol_db r c s db2).
Proof.
  intros (Hr & Hc & Hs). unfold same_data, unenrol_db.
  cbn [requests classes students]. by rewrite Hr, Hc, Hs.
Qed.

Lemma same_data_add_notification n db1 db2 :
  same_data db1 db2 → same_data (add_notification n db1) db2.
Proof. by intros (Hr & Hc & Hs). Qed.

Lemma same_data_sym db1 db2 : same_data db1 db2 → same_data db2 db1.
Proof. by intros (Hr & Hc & Hs). Qed.

Lemma same_data_find db1 db2 rid :
  same_data db1 db2 → find_request db1 rid = find_request db2 rid.
Proof. intros (Hr & _). unfold find_request. by rewrite Hr. Qed.

Lemma same_data_populated db1 db2 r :
  same_data db1 db2 → populated db1 r = populated db2 r.
Proof. intros (_ & Hc & Hs). unfold populated. by rewrite Hc, Hs. Qed.

Lemma same_data_resolved db1 db2 r :
  same_data db1 db2 → resolved db1 r ↔ resolved db2 r.
Proof. intros (_ & Hc & Hs). unfold resolved. by rewrite Hc, Hs. Qed.

Lemma capacityCheck_reads_nothing p db1 db2 :
  fst (capacityCheck p db1) = fst (capacityCheck p db2).
Proof.
  unfold capacityCheck, bind, deref, ret, throw.
  destruct (p_class p) as [c|]; [|done].
  destruct (enrolledStudents c) as [arr|]; [|done].
  unfold some_equals. destruct arr as [|a arr]; [done|].
  unfold bind, deref, ret, throw. by destruct (student_id p).
Qed.

Lemma approve_same_data env req db1 db2 :
  same_data db1 db2 →
  fst (approveClassRequest (mute env) req db1) = fst (approveClassRequest env req db2)
  ∧ same_data (snd (approveClassRequest (mute env) req db1))
      (snd (approveClassRequest env req db2)).
Proof.
  intros Hsame.
  pose proof (same_data_find db1 db2 (requestId req) Hsame) as Hfeq.
  destruct (decide (validationErrors req = [])) as [Hval|Hval];
    [|by rewrite !approve_invalid].
  destruct (find_request db2 (requestId req)) as [r|] eqn:Hfind;
    [|by rewrite !approve_not_found].
  destruct (decide (status r = Pending)) as [Hst|Hst];
    [|by rewrite (approve_not_pending (mute env) req db1 r),
                 (approve_not_pending env req db2 r)].
  destruct (resolved_dec_cases db2 r) as [(c & s & Hc & Hs)|Hdang].
  - destruct Hsame as (Hr' & Hc' & Hs').
    rewrite (approve_resolved (mute env) req db1 r c s), (approve_resolved env req db2 r c s);
      try done; try (by rewrite Hc'); try (by rewrite Hs').
    destruct (is_full r c); [done|]. split; [done|].
    by apply same_data_swallow, same_data_enrol, same_data_save.
  - rewrite (approve_dangling_closed (mute env) req db1 r),
            (approve_dangling_closed env req db2 r); try done;
      [|by rewrite (same_data_resolved db1 db2 r Hsame)].
    rewrite (same_data_populated db1 db2 r Hsame).
    rewrite (capacityCheck_reads_nothing _ db1 db2).
    destruct (fst (capacityCheck (populated db2 r) db2)) as [[|]|]; try done.
    split; [done|]. by apply same_data_save.
Qed.

Lemma reject_same_data env req db1 db2 :
  same_data db1 db2 →
  same_data (snd (rejectClassRequest (mute env) req db1))
    (snd (rejectClassRequest env req db2)).
Proof.
  intros Hsame.
  pose proof (same_data_find db1 db2 (requestId req) Hsame) as Hfeq.
  destruct (decide (validationErrors req = [])) as [Hval|Hval];
    [|by rewrite !reject_invalid].
  destruct (find_request db2 (requestId req)) as [r|] eqn:Hfind;
    [|by rewrite !reject_not_found].
  destruct (decide (status r = Pending)) as [Hst|Hst];
    [|by rewrite (reject_not_pending (mute env) req db1 r),
                 (reject_not_pending env req db2 r)].
  rewrite (reject_pending (mute env) req db1 r), (reject_pending env req db2 r) by done.
  pose proof (same_data_save (rejected_doc env req r) db1 db2 Hsame) as Hsaved.
  assert (same_data (snd (match rejectedNotification (populated db1 r) (adminNote req) with
                          | Some n =>
                              if notification_ok (mute env) n
                              then (json 200 (BRequest "Class request rejected"
                                                (rejected_doc (mute env) req r)),
                                    add_notification n
                                      (save_db (rejected_doc (mute env) req r) db1))
                              else (server_error, save_db (rejected_doc (mute env) req r) db1)
                          | None => (server_error, save_db (rejected_doc (mute env) req r) db1)
                          end))
            (save_db (rejected_doc env req r) db2)) as H1.
  { by destruct (rejectedNotification (populated db1 r) (adminNote req)). }
  destruct H1 as (H1r & H1c & H1s). unfold same_data. rewrite H1r, H1c, H1s.
  destruct (rejectedNotification (populated db2 r) (adminNote req)) as [n|]; [|done].
  by destruct (notification_ok env n).
Qed.

Lemma changeStatus_same_data env req db1 db2 :
  same_data db1 db2 →
  fst (changeClassRequestStatus (mute env) req db1)
  = fst (changeClassRequestStatus env req db2)
  ∧ same_data (snd (changeClassRequestStatus (mute env) req db1))
      (snd (changeClassRequestStatus env req db2)).
Proof.
  intros Hsame.
  pose proof (same_data_find db1 db2 (requestId req) Hsame) as Hfeq.
  pose proof Hsame as (Hr' & Hc' & Hs').
  destruct (decide (validationErrors req = [])) as [Hval|Hval];
    [|by rewrite !changeStatus_invalid].
  destruct (find_request db2 (requestId req)) as [r|] eqn:Hfind;
    [|by rewrite !changeStatus_not_found].
  assert (∀ c s, classes db2 !! class r = Some c → students db2 !! student r = Some s →
                 classes db1 !! class r = Some c ∧ students db1 !! student r = Some s) as Hres
    by (intros c s; by rewrite Hc', Hs').
  destruct (decide (status r = Approved)) as [Hold|Hold],
           (decide (body_status req = Approved)) as [Hnew|Hnew].
  - rewrite (changeStatus_same_side (mute env) req db1 r),
            (changeStatus_same_side env req db2 r) by tauto.
    split; [done|]. by apply same_data_swallow, same_data_save.
  - destruct (resolved_dec_cases db2 r) as [(c & s & Hc & Hs)|Hdang].
    + destruct (Hres c s Hc Hs) as [Hc1 Hs1].
      rewrite (changeStatus_leave_resolved (mute env) req db1 r c s),
              (changeStatus_leave_resolved env req db2 r c s) by done.
      split; [done|]. by apply same_data_swallow, same_data_save, same_data_unenrol.
    + rewrite (changeStatus_leave_dangling (mute env) req db1 r),
              (changeStatus_leave_dangling env req db2 r); try done;
        [|by rewrite (same_data_resolved db1 db2 r Hsame)].
      split; [done|]. by apply same_data_swallow, same_data_save.
  - destruct (resolved_dec_cases db2 r) as [(c & s & Hc & Hs)|Hdang].
    + destruct (Hres c s Hc Hs) as [Hc1 Hs1].
      rewrite (changeStatus_enter_resolved (mute env) req db1 r c s),
              (changeStatus_enter_resolved env req db2 r c s) by done.
      destruct (is_full r c); [done|]. split; [done|].
      by apply same_data_swallow, same_data_save, same_data_enrol.
    + rewrite (changeStatus_enter_dangling_closed (mute env) req db1 r),
              (changeStatus_enter_dangling_closed env req db2 r); try done;
        [|by rewrite (same_data_resolved db1 db2 r Hsame)].
      rewrite (same_data_populated db1 db2 r Hsame).
      rewrite (capacityCheck_reads_nothing _ db1 db2).
      by destruct (fst (capacityCheck (populated db2 r) db2)) as [[|]|].
  - rewrite (changeStatus_same_side (mute env) req db1 r),
            (changeStatus_same_side env req db2 r) by tauto.
    split; [done|]. by apply same_data_swallow, same_data_save.
Qed.

Lemma delete_same_data req db1 db2 :
  same_data db1 db2 →
  fst (deleteClassRequest req db1) = fst (deleteClassRequest req db2)
  ∧ same_data (snd (deleteClassRequest req db1)) (snd (deleteClassRequest req db2)).
Proof.
  intros Hsame. rewrite !delete_cases.
  rewrite (same_data_find db1 db2 _ Hsame).
  assert (student_of_user db1 (user_id req) = student_of_user db2 (user_id req)) as ->.
  { destruct Hsame as (_ & _ & Hs). unfold student_of_user. by rewrite Hs. }
  destruct (student_of_user db2 (user_id req)) as [[sid s]|]; [|done].
  destruct (find_request db2 (requestId req)) as [r|]; [|done].
  destruct (negb (id_equals (student r) sid)); [done|].
  destruct (negb (bool_decide (status r = Pending))); [done|].
  split; [done|]. by apply same_data_delete.
Qed.

Lemma adminDelete_same_data env req db1 db2 :
  same_data db1 db2 →
  fst (adminDeleteClassRequest (mute env) req db1)
  = fst (adminDeleteClassRequest env req db2)
  ∧ same_data (snd (adminDeleteClassRequest (mute env) req db1))
      (snd (adminDeleteClassRequest env req db2)).
Proof.
  intros Hsame.
  pose proof (same_data_find db1 db2 (requestId req) Hsame) as Hfeq.
  pose proof Hsame as (Hr' & Hc' & Hs').
  destruct (find_request db2 (requestId req)) as [r|] eqn:Hfind;
    [|by rewrite !adminDelete_not_found].
  destruct (resolved_dec_cases db2 r) as [(c & s & Hc & Hs)|Hdang].
  - rewrite (adminDelete_resolved (mute env) req db1 r c s),
            (adminDelete_resolved env req db2 r c s);
      try done; try (by rewrite Hc'); try (by rewrite Hs').
    split; [done|]. apply same_data_delete, same_data_swallow.
    destruct (bool_decide (status r = Approved)); [by apply same_data_unenrol|done].
  - rewrite (adminDelete_dangling (mute env) req db1 r),
            (adminDelete_dangling env req db2 r); try done;
      [|by rewrite (same_data_resolved db1 db2 r Hsame)].
    split; [done|]. by apply same_data_delete, same_data_swallow.
Qed.

Lemma create_same_data env req db1 db2 :
  same_data db1 db2 →
  fst (createClassRequest (mute env) req db1) = fst (createClassRequest env req db2)
  ∧ same_data (snd (createClassRequest (mute env) req db1))
      (snd (createClassRequest env req db2)).
Proof.
  intros (Hr & Hc & Hs). unfold createClassRequest.
  destruct (negb (is_empty (validationErrors req))); [done|].
  unfold handler, bind, findStudentByUser, findClass, findPendingFor, insertRequest, ret.
  cbn beta iota. rewrite Hs.
  destruct (List.find _ (map_to_list (students db2))) as [[sid s]|]; [|done].
  destruct (negb (String.eqb (s_status s) "Approved")); [done|].
  cbn beta iota. rewrite Hc.
  destruct (classes db2 !! body_classId req) as [c|]; [|done].
  destruct (negb (isActive c) || negb (String.eqb (c_type c) "Normal")); [done|].
  destruct (match enrolledClasses s with Some _ => _ | None => _ end); [done|].
  cbn beta iota. rewrite Hr.
  destruct (List.find _ (requests db2)); [done|].
  cbn [fst snd]. split; [done|].
  unfold same_data, set_requests. cbn [requests classes students]. by rewrite Hr.
Qed.

Lemma approveEach_same_data env req l :
  ∀ acc db1 db2,
    same_data db1 db2 →
    fst (approveEach (mute env) req l acc db1) = fst (approveEach env req l acc db2)
    ∧ same_data (snd (approveEach (mute env) req l acc db1))
        (snd (approveEach env req l acc db2)).
Proof.
  induction l as [|r l IH]; intros acc db1 db2 Hsame; [done|].
  pose proof Hsame as (Hr' & Hc' & Hs').
  cbn [approveEach]. unfold bind.
  destruct (resolved_dec_cases db2 r) as [(c & s & Hc & Hs)|Hdang].
  - rewrite (approveOne_resolved (mute env) req r acc db1 c s),
            (approveOne_resolved env req r acc db2 c s);
      try done; try (by rewrite Hc'); try (by rewrite Hs').
    destruct (is_full r c); [by apply IH|].
    apply IH. unfold bulk_approved_db.
    by apply same_data_swallow, same_data_save, same_data_enrol.
  - rewrite (approveOne_dangling (mute env) req r acc db1),
            (approveOne_dangling env req r acc db2); try done.
    by rewrite (same_data_resolved db1 db2 r Hsame).
Qed.

Lemma approveAll_same_data env req db1 db2 :
  same_data db1 db2 →
  fst (approveAllPendingRequests (mute env) req db1)
  = fst (approveAllPendingRequests env req db2)
  ∧ same_data (snd (approveAllPendingRequests (mute env) req db1))
      (snd (approveAllPendingRequests env req db2)).
Proof.
  intros Hsame.
  destruct (decide (validationErrors req = [])) as [Hval|Hval];
    [|by rewrite !approveAll_invalid].
  rewrite !approveAll_unfold by done.
  assert (pending_requests db1 = pending_requests db2) as ->.
  { destruct Hsame as (Hr & _). unfold pending_requests. by rewrite Hr. }
  destruct (pending_requests db2) as [|r l]; [done|].
  destruct (approveEach_same_data env req (r :: l) bulk0 db1 db2 Hsame) as [Hfst Hsnd].
  destruct (approveEach (mute env) req (r :: l) bulk0 db1) as [[acc1|] db1'],
           (approveEach env req (r :: l) bulk0 db2) as [[acc2|] db2'];
    cbn [fst snd] in *; try done.
  by injection Hfst as ->.
Qed.

Lemma step_same_data call db1 db2 :
  same_data db1 db2 →
  same_data (snd (step db1 (mute_call call))) (snd (step db2 call))
  ∧ (is_reject call = false → fst (step db1 (mute_call call)) = fst (step db2 call)).
Proof.
  intros Hsame. destruct call; cbn [mute_call step is_reject].
  - destruct (create_same_data env req db1 db2 Hsame). by split.
  - destruct (approve_same_data env req db1 db2 Hsame). by split.
  - split; [by apply reject_same_data|done].
  - destruct (changeStatus_same_data env req db1 db2 Hsame). by split.
  - destruct (approveAll_same_data env req db1 db2 Hsame). by split.
  - destruct (delete_same_data req db1 db2 Hsame). by split.
  - destruct (adminDelete_same_data env req db1 db2 Hsame). by split.
Qed.

Lemma run_same_data calls :
  ∀ db1 db2, same_data db1 db2 →
             same_data (run db1 (List.map mute_call calls)) (run db2 calls).
Proof.
  induction calls as [|call calls IH]; intros db1 db2 Hsame; [done|].
  cbn [List.map run fold_left]. apply IH. by apply step_same_data.
Qed.

(** X16. A notification service that is down is invisible outside
    rejectClassRequest.  Run any sequence of coordinator calls twice from
    the same database, once as given and once with every notification
    failing: the two runs leave the same requests, classes and students,
    and any further call other than a reject gets the same response in
    both.  (No handler reads the notification collection.) *)
Theorem notification_outage_is_invisible (calls : list Call) (call : Call) (db : DB) :
  same_data (run db (List.map mute_call calls)) (run db calls)
  ∧ same_data (snd (step (run db (List.map mute_call calls)) (mute_call call)))
      (snd (step (run db calls) call))
  ∧ (is_reject call = false →
     fst (step (run db (List.map mute_call calls)) (mute_call call))
     = fst (step (run db calls) call)).
Proof.
  assert (same_data (run db (List.map mute_call calls)) (run db calls)) as Hsame
    by by apply run_same_data.
  split; [done|]. by apply step_same_data.
Qed.

(** ** The listing of a student's requests *)

Lemma is_sort_stored_order : is_sort stored_order.
Proof.
  split; [|split]; intros l; cbn; [apply Permutation_sym, Permutation_rev|done|done].
Qed.

Lemma getStudentClassRequests_unfold o req db :
  getStudentClassRequests o req db =
  match student_of_user db (user_id req) with
  | None => (view 404 (VMessage "Student profile not found"), db)
  | Some (sid, _) =>
      (view 200 (VRequests
         (List.map (request_view db)
            (newest_first o (List.filter (fun r => Nat.eqb (student r) sid) (requests db))))),
       db)
  end.
Proof.
  unfold getStudentClassRequests, view_handler, bind, findStudentByUser, findByStudent, ret.
  cbn beta iota. fold (student_of_user db (user_id req)).
  by destruct (student_of_user db (user_id req)) as [[sid s]|].
Qed.

Lemma listed_requests_unfold o req db :
  listed_requests o req db =
  match student_of_user db (user_id req) with
  | None => []
  | Some (sid, _) =>
      newest_first o (List.filter (fun r => Nat.eqb (student r) sid) (requests db))
  end.
Proof.
  unfold listed_requests. rewrite getStudentClassRequests_unfold.
  destruct (student_of_user db (user_id req)) as [[sid s]|]; [|done].
  cbn [fst v_body view]. rewrite map_map. cbn [request_view rv_request]. apply map_id.
Qed.

(** X17. getStudentClassRequests answers 404 to a user without a student
    profile.  Otherwise it answers 200 with the stored requests of the
    caller's own profile, each one once and no request of anybody else,
    every request carrying the summary of its class when that class
    exists; the database is never changed. *)
Theorem own_requests_only (o : Sort) (req : Req) (db : DB) :
  is_sort o →
  snd (getStudentClassRequests o req db) = db
  ∧ (student_of_user db (user_id req) = None →
     fst (getStudentClassRequests o req db)
     = view 404 (VMessage "Student profile not found"))
  ∧ (∀ sid s, student_of_user db (user_id req) = Some (sid, s) →
       ∃ views,
         fst (getStudentClassRequests o req db) = view 200 (VRequests views)
         ∧ List.map rv_request views
           ≡ₚ List.filter (fun r => Nat.eqb (student r) sid) (requests db)
         ∧ (∀ r, r ∈ List.map rv_request views ↔ r ∈ requests db ∧ student r = sid)
         ∧ (∀ v, v ∈ views →
              rv_class v
              = class_summary (class (rv_request v)) <$> classes db !! class (rv_request v))).
Proof.
  intros [Hsort _]. rewrite getStudentClassRequests_unfold.
  destruct (student_of_user db (user_id req)) as [[sid0 s0]|] eqn:Hu.
  - split; [done|]. split; [done|]. intros sid s [= <- <-]. eexists. split; [done|].
    rewrite map_map. cbn [request_view rv_request]. rewrite map_id.
    split; [apply Hsort|]. split.
    + intros r. rewrite (Hsort _), list_elem_of_In, filter_In, <- list_elem_of_In.
      by rewrite Nat.eqb_eq.
    + intros v Hv. apply list_elem_of_In, in_map_iff in Hv as (r & <- & _). done.
  - split; [done|]. split; [done|]. by intros sid s.
Qed.

Lemma own_requests_only_witness :
  snd (getStudentClassRequests stored_order (student_req 101 1) db0) = db0
  ∧ (student_of_user db0 (user_id (student_req 101 1)) = None →
     fst (getStudentClassRequests stored_order (student_req 101 1) db0)
     = view 404 (VMessage "Student profile not found"))
  ∧ (∀ sid s, student_of_user db0 (user_id (student_req 101 1)) = Some (sid, s) →
       ∃ views,
         fst (getStudentClassRequests stored_order (student_req 101 1) db0)
         = view 200 (VRequests views)
         ∧ List.map rv_request views
           ≡ₚ List.filter (fun r => Nat.eqb (student r) sid) (requests db0)
         ∧ (∀ r, r ∈ List.map rv_request views ↔ r ∈ requests db0 ∧ student r = sid)
         ∧ (∀ v, v ∈ views →
              rv_class v
              = class_summary (class (rv_request v))
                  <$> classes db0 !! class (rv_request v))).
Proof.
  apply (own_requests_only stored_order (student_req 101 1) db0).
  apply is_sort_stored_order.
Defined.

(** X18. What a student may delete is what the listing shows as Pending:
    when the stored requests have distinct ids, deleteClassRequest answers
    200 exactly when the caller's own listing contains a Pending request
    with the given id. *)
Theorem deletable_iff_listed_pending (o : Sort) (req : Req) (db : DB) :
  is_sort o →
  unique_ids db →
  code (fst (deleteClassRequest req db)) = 200
  ↔ ∃ r, r ∈ listed_requests o req db ∧ r_id r = requestId req ∧ status r = Pending.
Proof.
  intros [Hsort _] Huniq. rewrite delete_cases, listed_requests_unfold.
  destruct (student_of_user db (user_id req)) as [[sid s]|] eqn:Hu.
  2:{ split; [done|]. intros (r & Hr & _). by apply elem_of_nil in Hr. }
  assert (∀ r, r ∈ newest_first o (List.filter (λ r, Nat.eqb (student r) sid) (requests db))
               ↔ r ∈ requests db ∧ student r = sid) as Hin.
  { intros r. rewrite (Hsort _), list_elem_of_In, filter_In, <- list_elem_of_In.
    by rewrite Nat.eqb_eq. }
  split.
  - destruct (find_request db (requestId req)) as [r|] eqn:Hfind; [|done].
    unfold id_equals. destruct (Nat.eqb_spec (student r) sid) as [Hs|Hs]; [|done].
    cbn [negb]. case_bool_decide as Hst; [|done]. intros _.
    exists r. split; [|split; [by apply (find_request_id db)|done]].
    apply Hin. split; [by apply (find_request_elem_of _ (requestId req))|done].
  - intros (r & [Hr Hs]%Hin & Hid & Hst).
    rewrite <- Hid, (find_request_unique db r Huniq Hr). unfold id_equals.
    rewrite (proj2 (Nat.eqb_eq _ _) Hs). cbn [negb].
    by rewrite (bool_decide_eq_true_2 _ Hst).
Qed.

Lemma deletable_iff_listed_pending_witness :
  code (fst (deleteClassRequest (student_req 102 2) db1)) = 200
  ↔ ∃ r, r ∈ listed_requests stored_order (student_req 102 2) db1
         ∧ r_id r = requestId (student_req 102 2) ∧ status r = Pending.
Proof.
  apply (deletable_iff_listed_pending stored_order (student_req 102 2) db1).
  - apply is_sort_stored_order.
  - unfold unique_ids. apply NoDup_ListNoDup. vm_compute.
    repeat constructor; cbn; intuition lia.
Defined.

(** ** The listing of available classes *)

Lemma getAvailableClasses_unfold o q db :
  getAvailableClasses o q db =
  (let nin :=
     match student_of_user db (q_user q) with
     | Some (_, s) =>
         match enrolledClasses s with
         | Some (x :: arr) => Some (x :: arr)
         | _ => None
         end
     | None => None
     end in
   let views :=
     List.map with_spots
       (by_schedule o (List.filter (available (q_grade q) nin) (map_to_list (classes db)))) in
   (view 200 (VClasses views (length views)), db)).
Proof.
  unfold getAvailableClasses, view_handler, bind, findStudentByUser, findAvailable, ret.
  cbn beta iota zeta. fold (student_of_user db (q_user q)).
  by destruct (student_of_user db (q_user q)) as [[sid s]|].
Qed.

Lemma nin_spec (s : Student) (cid : ObjectId) :
  match (match enrolledClasses s with
         | Some (x :: arr) => Some (x :: arr)
         | _ => None
         end) with
  | Some arr => negb (existsb (fun id => id_equals id cid) arr)
  | None => true
  end = bool_decide (cid ∉ default [] (enrolledClasses s)).
Proof.
  destruct (enrolledClasses s) as [[|x arr]|]; cbn [default].
  - symmetry. apply bool_decide_eq_true_2, not_elem_of_nil.
  - rewrite existsb_id_equals. by rewrite bool_decide_not.
  - symmetry. apply bool_decide_eq_true_2, not_elem_of_nil.
Qed.

Lemma elem_of_listed_classes o q db v :
  is_sort o →
  v ∈ listed_classes o q db ↔
  ∃ cid c,
    v = with_spots (cid, c)
    ∧ classes db !! cid = Some c
    ∧ available (q_grade q)
        match student_of_user db (q_user q) with
        | Some (_, s) =>
            match enrolledClasses s with
            | Some (x :: arr) => Some (x :: arr)
            | _ => None
            end
        | None => None
        end (cid, c) = true.
Proof.
  intros (_ & Hsort & _). unfold listed_classes. rewrite getAvailableClasses_unfold.
  cbn [fst v_body view]. rewrite list_elem_of_In, in_map_iff. split.
  - intros ([cid c] & <- & Hin). exists cid, c. split; [done|].
    apply list_elem_of_In in Hin. rewrite (Hsort _) in Hin.
    apply list_elem_of_In, filter_In in Hin as [Hin Hav]. split; [|done].
    by apply elem_of_map_to_list, list_elem_of_In.
  - intros (cid & c & -> & Hc & Hav). exists (cid, c). split; [done|].
    apply list_elem_of_In. rewrite (Hsort _). apply list_elem_of_In, filter_In.
    split; [|done]. by apply list_elem_of_In, elem_of_map_to_list.
Qed.

Lemma create_class_gates env req db sid s :
  validationErrors req = [] →
  student_of_user db (user_id req) = Some (sid, s) →
  s_status s = "Approved" →
  (code (fst (createClassRequest env req db)) = 201
   ∨ fst (createClassRequest env req db) = duplicate_pending_response)
  ↔ ∃ c, classes db !! body_classId req = Some c
         ∧ isActive c = true ∧ c_type c = "Normal"
         ∧ (body_classId req ∉ default [] (enrolledClasses s)).
Proof.
  intros Hval Hu Hst. split.
  - unfold createClassRequest. rewrite Hval. cbn [is_empty negb].
    unfold handler, bind, findStudentByUser, findClass, findPendingFor, insertRequest, ret.
    cbn beta iota. fold (student_of_user db (user_id req)). rewrite Hu, Hst.
    rewrite String.eqb_refl. cbn [negb]. cbn beta iota.
    destruct (classes db !! body_classId req) as [c|]; [|by intros [|]].
    destruct (isActive c) eqn:Hact; cbn [negb orb]; [|by intros [|]].
    destruct (String.eqb_spec (c_type c) "Normal") as [Hty|Hty]; cbn [negb];
      [|by intros [|]].
    assert ((match enrolledClasses s with
             | Some arr => existsb (fun id => id_equals id (body_classId req)) arr
             | None => false
             end) = bool_decide (body_classId req ∈ default [] (enrolledClasses s))) as ->.
    { destruct (enrolledClasses s) as [arr|]; cbn [default].
      - apply existsb_id_equals.
      - symmetry. apply bool_decide_eq_false_2, not_elem_of_nil. }
    case_bool_decide as Henr; [by intros [|]|]. intros _. by exists c.
  - intros (c & Hc & Ha & Ht & He).
    rewrite (create_gated env req db sid s c) by done.
    destruct (pending_for db sid (body_classId req)); [by left|by right].
Qed.

(** X19. The listing offers exactly the classes a request can be made
    for.  For a requester whose student profile is approved, a class is in
    the unfiltered listing of getAvailableClasses exactly when a validated
    createClassRequest for it either succeeds (201) or is refused only
    because the student already has a Pending request for it. *)
Theorem listed_iff_requestable (o : Sort) (env : Env) (req : Req) (q : ClassQuery)
    (db : DB) (sid : ObjectId) (s : Student) :
  is_sort o →
  validationErrors req = [] →
  student_of_user db (user_id req) = Some (sid, s) →
  s_status s = "Approved" →
  q_user q = user_id req →
  q_grade q = None →
  (∃ v, v ∈ listed_classes o q db ∧ cv_id v = body_classId req)
  ↔ (code (fst (createClassRequest env req db)) = 201
     ∨ fst (createClassRequest env req db) = duplicate_pending_response).
Proof.
  intros Hsort Hval Hu Hst Hq Hg.
  rewrite (create_class_gates env req db sid s) by done.
  split.
  - intros (v & (cid & c & -> & Hc & Hav)%(elem_of_listed_classes _ _ _ _ Hsort) & Hid).
    cbn [with_spots cv_id fst] in Hid. subst cid. exists c. split; [done|].
    rewrite Hq, Hu, Hg in Hav. unfold available in Hav. cbn [fst snd] in Hav.
    rewrite nin_spec in Hav.
    apply andb_prop in Hav as [Hav Hnin]. apply andb_prop in Hav as [Hav _].
    apply andb_prop in Hav as [Hty Hact].
    apply bool_decide_eq_true in Hnin. by apply String.eqb_eq in Hty.
  - intros (c & Hc & Ha & Ht & He). exists (with_spots (body_classId req, c)).
    split; [|done]. apply (elem_of_listed_classes _ _ _ _ Hsort).
    exists (body_classId req), c. split; [done|]. split; [done|].
    rewrite Hq, Hu, Hg. unfold available. cbn [fst snd].
    rewrite nin_spec, Ht, Ha, String.eqb_refl. cbn [andb].
    by apply bool_decide_eq_true_2.
Qed.

Lemma listed_iff_requestable_witness :
  (∃ v, v ∈ listed_classes stored_order (all_classes 102) db5 ∧ cv_id v = 21)
  ↔ (code (fst (createClassRequest env_ok (create_req 102 21) db5)) = 201
     ∨ fst (createClassRequest env_ok (create_req 102 21) db5) = duplicate_pending_response).
Proof.
  apply (listed_iff_requestable stored_order env_ok (create_req 102 21) (all_classes 102)
           db5 12 nimal).
  - apply is_sort_stored_order.
  - reflexivity.
  - vm_compute. reflexivity.
  - reflexivity.
  - reflexivity.
  - reflexivity.
Defined.

(** X20. The spots shown decide an approval.  For a class of the listing
    and a Pending request for it from an existing student who is not yet
    on the class's roster, a validated approveClassRequest answers 400
    "Class is at full capacity" exactly when availableSpots is zero or
    less, and 200 exactly when it is positive. *)
Theorem spots_decide_approval (o : Sort) (env : Env) (req : Req) (q : ClassQuery)
    (db : DB) (v : ClassView) (r : ClassRequest) :
  is_sort o →
  v ∈ listed_classes o q db →
  validationErrors req = [] →
  find_request db (requestId req) = Some r →
  status r = Pending →
  class r = cv_id v →
  is_Some (students db !! student r) →
  student r ∉ class_students db (class r) →
  ((availableSpots v <= 0)%Z ↔ fst (approveClassRequest env req db) = capacity_response)
  ∧ ((0 < availableSpots v)%Z ↔ code (fst (approveClassRequest env req db)) = 200).
Proof.
  intros Hsort (cid & c & -> & Hc & _)%(elem_of_listed_classes _ _ _ _ Hsort)
    Hval Hfind Hst Hcls [s Hs] Hnot.
  cbn [with_spots cv_id fst] in Hcls. subst cid.
  rewrite (approve_resolved env req db r c s) by done.
  unfold class_students in Hnot. rewrite Hc in Hnot.
  unfold is_full. rewrite (bool_decide_eq_false_2 _ Hnot). cbn [negb andb].
  cbn [with_spots availableSpots snd].
  destruct (Z.leb_spec (capacity c) (Z.of_nat (length_or_0 (enrolledStudents c))));
    cbn [fst code json capacity_response]; split; split; try done; try lia.
Qed.

Lemma spots_decide_approval_witness :
  ((availableSpots (grade9_view 11) <= 0)%Z
   ↔ fst (approveClassRequest env_ok (admin_req 2 Approved) db5) = capacity_response)
  ∧ ((0 < availableSpots (grade9_view 11))%Z
     ↔ code (fst (approveClassRequest env_ok (admin_req 2 Approved) db5)) = 200).
Proof.
  apply (spots_decide_approval stored_order env_ok (admin_req 2 Approved) (all_classes 102)
           db5 (grade9_view 11) (pending_request 2 12 20)).
  - apply is_sort_stored_order.
  - vm_compute. left.
  - reflexivity.
  - vm_compute. reflexivity.
  - reflexivity.
  - reflexivity.
  - eexists. vm_compute. reflexivity.
  - vm_compute. intros H. list_cases H.
Defined.

(** X21. Started from a database in which no class holds more students
    than its capacity, no sequence of coordinator calls makes the listing
    show a negative number of available spots, and the enrolledCount it
    shows never exceeds the capacity. *)
Theorem spots_never_negative (o : Sort) (calls : list Call) (q : ClassQuery) (db : DB)
    (v : ClassView) :
  is_sort o →
  (∀ cid, within_capacity db cid) →
  v ∈ listed_classes o q (run db calls) →
  (0 <= availableSpots v)%Z ∧ (Z.of_nat (enrolledCount v) <= capacity (cv_class v))%Z.
Proof.
  intros Hsort Hcap (cid & c & -> & Hc & _)%(elem_of_listed_classes _ _ _ _ Hsort).
  destruct (effects_capacity db (run db calls) cid (run_effects calls db)) as [_ Hkeep].
  specialize (Hkeep (Hcap cid) c Hc).
  cbn [with_spots availableSpots enrolledCount cv_class snd]. lia.
Qed.

Lemma spots_never_negative_witness :
  (0 <= availableSpots (grade9_view 12))%Z
  ∧ (Z.of_nat (enrolledCount (grade9_view 12))
     <= capacity (cv_class (grade9_view 12)))%Z.
Proof.
  apply (spots_never_negative stored_order calls1 (all_classes 101) db0
           (grade9_view 12)).
  - apply is_sort_stored_order.
  - intros cid c Hc. destruct (decide (cid = 20)) as [->|Hne].
    + vm_compute in Hc. injection Hc as <-. vm_compute. discriminate.
    + unfold db0 in Hc. cbn [classes] in Hc. rewrite lookup_insert_ne in Hc by done.
      by rewrite lookup_empty in Hc.
  - vm_compute. left.
Defined.

(** ** The grades of the filter *)

(** X22. getAllGrades offers each grade once, and what it offers matches
    the listing: the grade of every class that getAvailableClasses lists,
    for any caller and any filter, is among the offered grades, and every
    offered grade is the grade of a class in the unfiltered listing of a
    caller without a student profile. *)
Theorem grades_match_listing (o : Sort) (db : DB) (uid : ObjectId) :
  is_sort o →
  student_of_user db uid = None →
  fst (getAllGrades o db) = view 200 (VGrades (listed_grades o db))
  ∧ snd (getAllGrades o db) = db
  ∧ NoDup (listed_grades o db)
  ∧ (∀ q v, v ∈ listed_classes o q db → grade (cv_class v) ∈ listed_grades o db)
  ∧ (∀ g, g ∈ listed_grades o db →
          ∃ v, v ∈ listed_classes o (all_classes uid) db ∧ grade (cv_class v) = g).
Proof.
  intros Hsort Hnone. pose proof Hsort as (_ & _ & Halpha).
  assert (∀ g, g ∈ listed_grades o db ↔
               ∃ cid c, classes db !! cid = Some c ∧ c_type c = "Normal"
                        ∧ isActive c = true ∧ grade c = g) as Hgrades.
  { intros g. unfold listed_grades, getAllGrades, view_handler, bind, distinctGrades, ret.
    cbn [fst v_body view]. rewrite (Halpha _), elem_of_remove_dups.
    rewrite list_elem_of_In, in_map_iff. split.
    - intros ([cid c] & <- & [Hin Hf]%filter_In). exists cid, c.
      apply list_elem_of_In, elem_of_map_to_list in Hin.
      apply andb_prop in Hf as [Hty%String.eqb_eq Hact]. done.
    - intros (cid & c & Hc & Hty & Hact & <-). exists (cid, c). split; [done|].
      apply filter_In. split; [by apply list_elem_of_In, elem_of_map_to_list|].
      cbn [snd]. by rewrite Hty, Hact. }
  split; [done|]. split; [done|]. split.
  { unfold listed_grades, getAllGrades, view_handler, bind, distinctGrades, ret.
    cbn [fst v_body view]. rewrite (Halpha _). apply NoDup_remove_dups. }
  split.
  - intros q v (cid & c & -> & Hc & Hav)%(elem_of_listed_classes _ _ _ _ Hsort).
    apply Hgrades. exists cid, c. unfold available in Hav. cbn [fst snd] in Hav.
    apply andb_prop in Hav as [Hav _]. apply andb_prop in Hav as [Hav _].
    apply andb_prop in Hav as [Hty%String.eqb_eq Hact]. done.
  - intros g (cid & c & Hc & Hty & Hact & <-)%Hgrades.
    exists (with_spots (cid, c)). split; [|done].
    apply (elem_of_listed_classes _ _ _ _ Hsort). exists cid, c.
    split; [done|]. split; [done|]. cbn [all_classes q_user q_grade]. rewrite Hnone.
    unfold available. cbn [fst snd]. by rewrite Hty, Hact.
Qed.

Lemma grades_match_listing_witness :
  fst (getAllGrades stored_order db5) = view 200 (VGrades (listed_grades stored_order db5))
  ∧ snd (getAllGrades stored_order db5) = db5
  ∧ NoDup (listed_grades stored_order db5)
  ∧ (∀ q v, v ∈ listed_classes stored_order q db5 →
            grade (cv_class v) ∈ listed_grades stored_order db5)
  ∧ (∀ g, g ∈ listed_grades stored_order db5 →
          ∃ v, v ∈ listed_classes stored_order (all_classes 900) db5
               ∧ grade (cv_class v) = g).
Proof.
  apply (grades_match_listing stored_order db5 900).
  - apply is_sort_stored_order.
  - vm_compute. reflexivity.
Defined.

(** ** Two invariants of the request collection *)

Lemma approve_requests_change env req db :
  requests_change db (snd (approveClassRequest env req db)).
Proof.
  destruct (decide (validationErrors req = [])) as [Hval|Hval];
    [|rewrite approve_invalid by done; by apply change_none].
  destruct (find_request db (requestId req)) as [r|] eqn:Hfind;
    [|rewrite approve_not_found by done; by apply change_none].
  pose proof (find_request_elem_of _ _ _ Hfind) as Hin.
  destruct (decide (status r = Pending)) as [Hst|Hst];
    [|rewrite (approve_not_pending env req db r) by done; by apply change_none].
  destruct (resolved_dec_cases db r) as [(c & s & Hc & Hs)|Hdang].
  - rewrite (approve_resolved env req db r c s) by done.
    destruct (is_full r c); [by apply change_none|]. cbn [snd].
    eapply (change_status _ _ r); [by left|]. by rewrite swallow_requests.
  - destruct (approve_dangling env req db r) as [->|[->| ->]]; try done;
      try (by apply change_none).
    eapply (change_status _ _ r); [by left|done].
Qed.

Lemma reject_requests_change env req db :
  requests_change db (snd (rejectClassRequest env req db)).
Proof.
  destruct (decide (validationErrors req = [])) as [Hval|Hval];
    [|rewrite reject_invalid by done; by apply change_none].
  destruct (find_request db (requestId req)) as [r|] eqn:Hfind;
    [|rewrite reject_not_found by done; by apply change_none].
  pose proof (find_request_elem_of _ _ _ Hfind) as Hin.
  destruct (decide (status r = Pending)) as [Hst|Hst];
    [|rewrite (reject_not_pending env req db r) by done; by apply change_none].
  rewrite (reject_pending env req db r) by done.
  eapply (change_status _ _ r); [by left|].
  destruct (rejectedNotification (populated db r) (adminNote req)) as [n|]; [|done].
  by destruct (notification_ok env n).
Qed.

Lemma changeStatus_requests_change env req db :
  requests_change db (snd (changeClassRequestStatus env req db)).
Proof.
  destruct (decide (validationErrors req = [])) as [Hval|Hval];
    [|rewrite changeStatus_invalid by done; by apply change_none].
  destruct (find_request db (requestId req)) as [r|] eqn:Hfind;
    [|rewrite changeStatus_not_found by done; by apply change_none].
  pose proof (find_request_elem_of _ _ _ Hfind) as Hin.
  destruct (decide (status r = Approved)) as [Hold|Hold],
           (decide (body_status req = Approved)) as [Hnew|Hnew].
  - rewrite (changeStatus_same_side env req db r) by tauto. cbn [snd].
    eapply (change_status _ _ r); [by left|]. by rewrite swallow_requests.
  - destruct (resolved_dec_cases db r) as [(c & s & Hc & Hs)|Hdang].
    + rewrite (changeStatus_leave_resolved env req db r c s) by done. cbn [snd].
      eapply (change_status _ _ r); [by left|]. by rewrite swallow_requests.
    + rewrite (changeStatus_leave_dangling env req db r) by done. cbn [snd].
      eapply (change_status _ _ r); [by left|]. by rewrite swallow_requests.
  - destruct (resolved_dec_cases db r) as [(c & s & Hc & Hs)|Hdang].
    + rewrite (changeStatus_enter_resolved env req db r c s) by done.
      destruct (is_full r c); [by apply change_none|]. cbn [snd].
      eapply (change_status _ _ r); [by left|]. by rewrite swallow_requests.
    + destruct (changeStatus_enter_dangling env req db r) as [->| ->]; try done;
        by apply change_none.
  - rewrite (changeStatus_same_side env req db r) by tauto. cbn [snd].
    eapply (change_status _ _ r); [by left|]. by rewrite swallow_requests.
Qed.

Lemma delete_requests_change req db :
  requests_change db (snd (deleteClassRequest req db)).
Proof.
  rewrite delete_cases.
  destruct (student_of_user db (user_id req)) as [[sid s]|]; [|by apply change_none].
  destruct (find_request db (requestId req)) as [r|]; [|by apply change_none].
  destruct (negb (id_equals (student r) sid)); [by apply change_none|].
  destruct (negb (bool_decide (status r = Pending))); [by apply change_none|].
  by apply (change_delete _ _ (requestId req)).
Qed.

Lemma adminDelete_requests_change env req db :
  requests_change db (snd (adminDeleteClassRequest env req db)).
Proof.
  destruct (find_request db (requestId req)) as [r|] eqn:Hfind;
    [|rewrite adminDelete_not_found by done; by apply change_none].
  apply (change_delete _ _ (requestId req)).
  destruct (resolved_dec_cases db r) as [(c & s & Hc & Hs)|Hdang].
  - rewrite (adminDelete_resolved env req db r c s) by done. cbn [snd].
    unfold delete_db, set_requests. cbn [requests]. rewrite swallow_requests.
    by destruct (bool_decide (status r = Approved)).
  - rewrite (adminDelete_dangling env req db r) by done. cbn [snd].
    unfold delete_db, set_requests. cbn [requests]. by rewrite swallow_requests.
Qed.

Lemma approveOne_requests_change env req r acc db :
  requests_change db (snd (approveOne env req r acc db)).
Proof.
  destruct (resolved_dec_cases db r) as [(c & s & Hc & Hs)|Hdang].
  - rewrite (approveOne_resolved env req r acc db c s) by done.
    destruct (is_full r c); [by apply change_none|]. cbn [snd].
    eapply (change_status _ _ r); [|apply bulk_approved_requests].
    right. split; by eexists.
  - rewrite approveOne_dangling by done. by apply change_none.
Qed.

Lemma requests_change_unique db db' :
  requests_change db db' → unique_ids db → unique_ids db'.
Proof.
  unfold unique_ids. intros [->|r st a _ ->|rid ->] Huniq; [done| |].
  - by rewrite map_r_id_replace.
  - induction (requests db) as [|d l IH]; [done|].
    cbn [List.map] in Huniq. apply NoDup_cons in Huniq as [Hd Hnd].
    cbn [List.filter]. destruct (negb (Nat.eqb (r_id d) rid)); [|by apply IH].
    cbn [List.map]. apply NoDup_cons. split; [|by apply IH].
    intros Hin. apply Hd.
    apply list_elem_of_In, in_map_iff in Hin as (x & Hx & Hin%filter_In).
    apply list_elem_of_In, in_map_iff. exists x. tauto.
Qed.

Lemma requests_change_resolved db db' :
  requests_change db db' → effects db db' → all_resolved db → all_resolved db'.
Proof.
  intros Hch Heff Hall d Hd. apply (effects_resolved db db' d Heff).
  destruct Hch as [Hsame|r st a Hr Hrep|rid Hdel].
  - apply Hall. by rewrite <- Hsame.
  - rewrite Hrep in Hd. apply elem_of_replace_request in Hd as [[-> _]|[Hd _]]; [|by apply Hall].
    assert (resolved db r) as Hres by (destruct Hr as [Hr|Hr]; [by apply Hall|done]).
    exact Hres.
  - rewrite Hdel in Hd. apply list_elem_of_In, filter_In in Hd as [Hd _].
    by apply Hall, list_elem_of_In.
Qed.

Lemma approveEach_invariants env req l :
  ∀ acc db,
    (unique_ids db → unique_ids (snd (approveEach env req l acc db)))
    ∧ (all_resolved db → all_resolved (snd (approveEach env req l acc db))).
Proof.
  induction l as [|r l IH]; intros acc db; [done|].
  cbn [approveEach]. unfold bind.
  pose proof (approveOne_requests_change env req r acc db) as Hch.
  pose proof (approveOne_effects env req r acc db) as Heff.
  destruct (approveOne env req r acc db) as [[acc1|] db1]; cbn [snd] in *.
  - destruct (IH acc1 db1) as [IHu IHr]. split.
    + intros Hu. by apply IHu, (requests_change_unique db).
    + intros Hr. by apply IHr, (requests_change_resolved db).
  - split; [by apply requests_change_unique|by apply requests_change_resolved].
Qed.

Lemma student_of_user_lookup db uid sid s :
  student_of_user db uid = Some (sid, s) → students db !! sid = Some s.
Proof.
  unfold student_of_user. intros [Hin _]%find_some.
  by apply elem_of_map_to_list, list_elem_of_In.
Qed.

Lemma step_invariants call db :
  (unique_ids db → fresh_for db call → unique_ids (snd (step db call)))
  ∧ (all_resolved db → all_resolved (snd (step db call))).
Proof.
  assert (∀ db', requests_change db db' → effects db db' →
                 (unique_ids db → unique_ids db') ∧ (all_resolved db → all_resolved db')) as Hgen.
  { intros db' Hch Heff. split; [by apply requests_change_unique|by apply requests_change_resolved]. }
  destruct call; cbn [step fresh_for].
  - destruct (create_cases env req db)
      as [[-> _]|[->|[->|[->|[->|[->|[->|(sid & s & c & _ & Hu & _ & Hc & _ & _ & _ & _ & ->)]]]]]]];
      try done.
    cbn [snd]. split.
    + unfold unique_ids, set_requests. cbn [requests]. intros Huniq Hfresh.
      rewrite map_app. apply NoDup_app. split; [done|]. split.
      * intros x Hx Hx'. cbn in Hx'. apply list_elem_of_singleton in Hx'. by subst x.
      * cbn. apply NoDup_singleton.
    + intros Hall d. unfold set_requests. cbn [requests]. rewrite elem_of_app.
      intros [Hd|Hd%list_elem_of_singleton]; [by apply Hall|]. subst d.
      split; cbn [new_request class student classes students]; [by eexists|].
      exists s. by apply (student_of_user_lookup db (user_id req)).
  - destruct (Hgen _ (approve_requests_change env req db) (approve_effects env req db)). tauto.
  - destruct (Hgen _ (reject_requests_change env req db) (reject_effects env req db)). tauto.
  - destruct (Hgen _ (changeStatus_requests_change env req db)
                     (changeStatus_effects env req db)). tauto.
  - destruct (decide (validationErrors req = [])) as [Hval|Hval];
      [|by rewrite approveAll_invalid].
    rewrite approveAll_unfold by done.
    destruct (pending_requests db) as [|r l]; [done|].
    destruct (approveEach_invariants env req (r :: l) bulk0 db) as [Hu Hr].
    destruct (approveEach env req (r :: l) bulk0 db) as [[acc|] db']; cbn [snd] in *; tauto.
  - destruct (Hgen _ (delete_requests_change req db) (delete_effects req db)). tauto.
  - destruct (Hgen _ (adminDelete_requests_change env req db)
                     (adminDelete_effects env req db)). tauto.
Qed.

Lemma run_invariants calls :
  ∀ db, (unique_ids db → fresh_along db calls → unique_ids (run db calls))
        ∧ (all_resolved db → all_resolved (run db calls)).
Proof.
  induction calls as [|call calls IH]; intros db; [done|].
  destruct (step_invariants call db) as [Hu Hr].
  destruct (IH (snd (step db call))) as [IHu IHr].
  cbn [run fold_left fresh_along]. fold (run (snd (step db call)) calls).
  split; [intros Huniq [Hf Hfs]; by apply IHu; [apply Hu|]|intros Hall; by apply IHr, Hr].
Qed.

(** X23. The ids of the stored requests stay distinct over any sequence
    of coordinator calls, as long as every create is given an id that is
    not in use when it runs. *)
Theorem ids_stay_distinct (calls : list Call) (db : DB) :
  unique_ids db → fresh_along db calls → unique_ids (run db calls).
Proof. apply run_invariants. Qed.

Lemma ids_stay_distinct_witness : unique_ids (run db0 reapplied).
Proof.
  apply (ids_stay_distinct reapplied db0).
  - unfold unique_ids. apply NoDup_ListNoDup. vm_compute.
    repeat constructor; cbn; intuition lia.
  - cbn [reapplied fresh_along fresh_for]. repeat split.
    intros H. apply list_elem_of_In in H. vm_compute in H. intuition lia.
Defined.

(** X24. No sequence of coordinator calls leaves a request with a dangling
    reference: when every stored request refers to an existing class and
    an existing student, that is still so afterwards. *)
Theorem references_stay_resolved (calls : list Call) (db : DB) :
  all_resolved db → all_resolved (run db calls).
Proof. apply run_invariants. Qed.

Lemma references_stay_resolved_witness : all_resolved (run db0 reapplied).
Proof.
  apply (references_stay_resolved reapplied db0).
  intros r Hr. list_cases Hr; split; eexists; vm_compute; reflexivity.
Defined.

(** ** Who is notified *)

Lemma swallow_delivers env n db :
  notification_ok env n = true → after (swallow env (Some n)) db = add_notification n db.
Proof.
  intros Hok. unfold after, swallow, try_catch, notify, bind, deref, createNotification, ret.
  by rewrite Hok.
Qed.

(** X25. With a working notification service, each decision on a request
    whose references resolve stores exactly one notification.  For an
    approve, a reject and a status change that answer 200 it is addressed
    to the user id of the student; for adminDeleteClassRequest, which
    populates the student without its userId, it is addressed to the id of
    the Student document instead. *)
Theorem notification_recipients (env : Env) (req : Req) (db : DB) (r : ClassRequest)
    (c : ClassDoc) (s : Student) :
  (∀ n, notification_ok env n = true) →
  find_request db (requestId req) = Some r →
  classes db !! class r = Some c →
  students db !! student r = Some s →
  (code (fst (approveClassRequest env req db)) = 200 →
   ∃ n, notifications (snd (approveClassRequest env req db)) = (notifications db ++ [n])%list
        ∧ recipient n = userId s)
  ∧ (code (fst (rejectClassRequest env req db)) = 200 →
     ∃ n, notifications (snd (rejectClassRequest env req db)) = (notifications db ++ [n])%list
          ∧ recipient n = userId s)
  ∧ (code (fst (changeClassRequestStatus env req db)) = 200 →
     ∃ n, notifications (snd (changeClassRequestStatus env req db))
          = (notifications db ++ [n])%list
          ∧ recipient n = userId s)
  ∧ (∃ n, notifications (snd (adminDeleteClassRequest env req db))
          = (notifications db ++ [n])%list
          ∧ recipient n = student r).
Proof.
  intros Hok Hfind Hc Hs.
  assert (p_student (populated db r) = Some s ∧ p_class (populated db r) = Some c) as [Hps Hpc]
    by (unfold populated; cbn [p_student p_class]; by rewrite Hc, Hs).
  split; [|split; [|split]].
  - intros Hcode.
    destruct (decide (validationErrors req = [])) as [Hval|Hval];
      [|by rewrite approve_invalid in Hcode].
    destruct (decide (status r = Pending)) as [Hst|Hst];
      [|by rewrite (approve_not_pending env req db r) in Hcode].
    rewrite (approve_resolved env req db r c s) in Hcode |- * by done.
    destruct (is_full r c); [done|]. cbn [snd].
    unfold approvedNotification. rewrite Hps, Hpc. cbn [mbind option_bind].
    rewrite swallow_delivers by apply Hok. by eexists.
  - intros Hcode.
    destruct (decide (validationErrors req = [])) as [Hval|Hval];
      [|by rewrite reject_invalid in Hcode].
    destruct (decide (status r = Pending)) as [Hst|Hst];
      [|by rewrite (reject_not_pending env req db r) in Hcode].
    rewrite (reject_pending env req db r) by done.
    unfold rejectedNotification. rewrite Hps, Hpc. cbn [mbind option_bind].
    rewrite Hok. by eexists.
  - intros Hcode.
    destruct (decide (validationErrors req = [])) as [Hval|Hval];
      [|by rewrite changeStatus_invalid in Hcode].
    assert (∀ db1, notifications db1 = notifications db →
                   ∃ n, notifications
                          (after (swallow env (statusChangeNotification (populated db r)
                                                 (adminNote req) (status r) (body_status req)))
                             db1)
                        = (notifications db ++ [n])%list ∧ recipient n = userId s) as Hsent.
    { intros db1 Hn. unfold statusChangeNotification. rewrite Hps, Hpc.
      cbn [mbind option_bind]. rewrite swallow_delivers by apply Hok.
      eexists. split; [by cbn [add_notification notifications]; rewrite Hn|done]. }
    destruct (decide (status r = Approved)) as [Hold|Hold],
             (decide (body_status req = Approved)) as [Hnew|Hnew].
    + rewrite (changeStatus_same_side env req db r) by tauto. by apply Hsent.
    + rewrite (changeStatus_leave_resolved env req db r c s) by done. by apply Hsent.
    + rewrite (changeStatus_enter_resolved env req db r c s) in Hcode |- * by done.
      destruct (is_full r c); [done|]. by apply Hsent.
    + rewrite (changeStatus_same_side env req db r) by tauto. by apply Hsent.
  - rewrite (adminDelete_resolved env req db r c s) by done. cbn [snd].
    unfold deletedNotification, student_id. rewrite Hps, Hpc. cbn [mbind option_bind].
    rewrite swallow_delivers by apply Hok. unfold delete_db, set_requests.
    cbn [notifications add_notification].
    destruct (bool_decide (status r = Approved)); eexists; split; reflexivity.
Qed.

Lemma notification_recipients_witness :
  (code (fst (approveClassRequest env_ok (admin_req 1 Approved) db0)) = 200 →
   ∃ n, notifications (snd (approveClassRequest env_ok (admin_req 1 Approved) db0))
        = (notifications db0 ++ [n])%list
        ∧ recipient n = userId amal)
  ∧ (code (fst (rejectClassRequest env_ok (admin_req 1 Approved) db0)) = 200 →
     ∃ n, notifications (snd (rejectClassRequest env_ok (admin_req 1 Approved) db0))
          = (notifications db0 ++ [n])%list
          ∧ recipient n = userId amal)
  ∧ (code (fst (changeClassRequestStatus env_ok (admin_req 1 Approved) db0)) = 200 →
     ∃ n, notifications (snd (changeClassRequestStatus env_ok (admin_req 1 Approved) db0))
          = (notifications db0 ++ [n])%list
          ∧ recipient n = userId amal)
  ∧ (∃ n, notifications (snd (adminDeleteClassRequest env_ok (admin_req 1 Approved) db0))
          = (notifications db0 ++ [n])%list
          ∧ recipient n = student (pending_request 1 11 20)).
Proof.
  apply (notification_recipients env_ok (admin_req 1 Approved) db0 (pending_request 1 11 20)
           grade9 amal).
  - reflexivity.
  - reflexivity.
  - reflexivity.
  - reflexivity.
Defined.
